(** * ASR evaluation core: CER/WER metrics and the evaluation runner

    A shallow embedding of

    - [metricscalculator/asr_metrics.go]  ([CalculateWER], [CalculateCER]),
    - [evaluationengine/asr_eval_engine.go] ([RunASREvaluation]),
    - the adapter factory ([GetASRAdapter]) and [MockASRAdapter.Recognize],
    - the job service ([CreateAndRunASRJob]) and its handler
      ([CreateASRJobHandler]),
    - the datastore functions that these call,

    together with the Go library functions they call.

    Conventions.  A Go [string] is a Rocq [string] (a sequence of bytes); a
    [rune] and an [int] are [Z] (lengths and edit distances stay far below
    2^63, so no wrap-around occurs); an [error] is an [option string]
    carrying the message, [None] being [nil]; a [float64] metric is the exact
    rational [Q] that the floating-point division rounds, so properties of
    a metric are stated on the quotient itself or as comparisons that
    rounding to nearest preserves, never on products of a rounded value.
    Calls to package log are left out. *)

From Stdlib Require Import ZArith List String Ascii Bool Lia QArith.
From Stdlib Require Import Numbers.DecimalString.
Import ListNotations.
Open Scope Z_scope.

Set Implicit Arguments.

(** ** Go strings, runes and formatting *)

Definition error := option string.

Definition byteZ (c : ascii) : Z := Z.of_N (N_of_ascii c).

(** [s[i]] for [i < len(s)]. *)
Definition byteAt (i : nat) (s : string) : Z :=
  match String.get i s with
  | Some c => byteZ c
  | None => 0
  end.

(** [len(s)]: the number of bytes. *)
Definition len_string (s : string) : Z := Z.of_nat (String.length s).

(** The verb [%d] of package fmt. *)
Definition itoa (z : Z) : string := NilZero.string_of_int (Z.to_int z).

(** *** unicode/utf8 *)

Module utf8.

Definition RuneError : Z := 0xFFFD.
Definition RuneSelf : Z := 0x80.

Definition xx : Z := 0xF1.
Definition as_ : Z := 0xF0.
Definition s1 : Z := 0x02.
Definition s2 : Z := 0x13.
Definition s3 : Z := 0x03.
Definition s4 : Z := 0x23.
Definition s5 : Z := 0x34.
Definition s6 : Z := 0x04.
Definition s7 : Z := 0x44.

(** The table [first]: information about the first byte of an encoding. *)
Definition first (b : Z) : Z :=
  if b <? 0x80 then as_
  else if b <? 0xC2 then xx
  else if b <? 0xE0 then s1
  else if b =? 0xE0 then s2
  else if b <? 0xED then s3
  else if b =? 0xED then s4
  else if b <? 0xF0 then s3
  else if b =? 0xF0 then s5
  else if b <? 0xF4 then s6
  else if b =? 0xF4 then s7
  else xx.

Definition locb : Z := 0x80.
Definition hicb : Z := 0xBF.

(** The table [acceptRanges]: admissible second bytes. *)
Definition acceptRanges (i : Z) : Z * Z :=
  if i =? 0 then (locb, hicb)
  else if i =? 1 then (0xA0, hicb)
  else if i =? 2 then (locb, 0x9F)
  else if i =? 3 then (0x90, hicb)
  else if i =? 4 then (locb, 0x8F)
  else (0, 0).

Definition maskx : Z := 0x3F.
Definition mask2 : Z := 0x1F.
Definition mask3 : Z := 0x0F.
Definition mask4 : Z := 0x07.

(** [DecodeRuneInString]: the first rune of [s] and its width in bytes;
    an invalid encoding yields [(RuneError, 1)]. *)
Definition DecodeRuneInString (s : string) : Z * nat :=
  let n := String.length s in
  match s with
  | EmptyString => (RuneError, 0%nat)
  | String c0 _ =>
    let s0 := byteZ c0 in
    let x := first s0 in
    if as_ <=? x then
      ((if Z.testbit x 0 then RuneError else s0), 1%nat)
    else
      let sz := Z.to_nat (Z.land x 7) in
      let accept := acceptRanges (Z.shiftr x 4) in
      if (n <? sz)%nat then (RuneError, 1%nat)
      else
        let sb1 := byteAt 1 s in
        if (sb1 <? fst accept) || (snd accept <? sb1) then (RuneError, 1%nat)
        else if (sz <=? 2)%nat then
          (Z.lor (Z.shiftl (Z.land s0 mask2) 6) (Z.land sb1 maskx), 2%nat)
        else
          let sb2 := byteAt 2 s in
          if (sb2 <? locb) || (hicb <? sb2) then (RuneError, 1%nat)
          else if (sz <=? 3)%nat then
            (Z.lor (Z.lor (Z.shiftl (Z.land s0 mask3) 12)
                          (Z.shiftl (Z.land sb1 maskx) 6))
                   (Z.land sb2 maskx), 3%nat)
          else
            let sb3 := byteAt 3 s in
            if (sb3 <? locb) || (hicb <? sb3) then (RuneError, 1%nat)
            else
              (Z.lor (Z.lor (Z.lor (Z.shiftl (Z.land s0 mask4) 18)
                                   (Z.shiftl (Z.land sb1 maskx) 12))
                            (Z.shiftl (Z.land sb2 maskx) 6))
                     (Z.land sb3 maskx), 4%nat)
  end.

End utf8.

(** [for i, r := range s]: the byte offset and value of every rune of [s],
    decoded as [utf8.DecodeRuneInString] does.  [skip] counts the bytes of
    the current rune that are still to be passed over. *)
Fixpoint rangeString_from (skip : nat) (i : Z) (s : string) : list (Z * Z) :=
  match s with
  | EmptyString => []
  | String _ t =>
    match skip with
    | S k => rangeString_from k (i + 1) t
    | O =>
      let '(r, sz) := utf8.DecodeRuneInString s in
      (i, r) :: rangeString_from (sz - 1) (i + 1) t
    end
  end.

Definition rangeString (s : string) : list (Z * Z) := rangeString_from 0 0 s.

(** The conversion [[]rune(s)]. *)
Definition runes (s : string) : list Z := map snd (rangeString s).

(** [s[start:end]]. *)
Definition slice (s : string) (start end_ : Z) : string :=
  String.substring (Z.to_nat start) (Z.to_nat (end_ - start)) s.

(** *** unicode.IsSpace and strings.Fields *)

Module unicode.

Definition MaxLatin1 : Z := 0xFF.

(** The ranges of the table [White_Space] above Latin-1. *)
Definition White_Space_excludingLatin (r : Z) : bool :=
  (r =? 0x1680) || ((0x2000 <=? r) && (r <=? 0x200a))
  || ((0x2028 <=? r) && (r <=? 0x2029)) || (r =? 0x202f)
  || (r =? 0x205f) || (r =? 0x3000).

Definition IsSpace (r : Z) : bool :=
  if r <=? MaxLatin1 then
    (r =? 9) || (r =? 10) || (r =? 11) || (r =? 12) || (r =? 13)
    || (r =? 32) || (r =? 0x85) || (r =? 0xA0)
  else White_Space_excludingLatin r.

End unicode.

Module strings.

(** The loop of [FieldsFunc]: [start] is the offset where the current field
    began, or negative outside a field; [spans] collects the finished
    fields, most recent first. *)
Fixpoint FieldsFunc_loop (f : Z -> bool) (rs : list (Z * Z))
         (start : Z) (spans : list (Z * Z)) : Z * list (Z * Z) :=
  match rs with
  | [] => (start, spans)
  | (end_, rune) :: rs' =>
    if f rune then
      if 0 <=? start then
        FieldsFunc_loop f rs' (Z.lnot start) ((start, end_) :: spans)
      else FieldsFunc_loop f rs' start spans
    else
      if start <? 0 then FieldsFunc_loop f rs' end_ spans
      else FieldsFunc_loop f rs' start spans
  end.

Definition FieldsFunc (s : string) (f : Z -> bool) : list string :=
  let '(start, spans) := FieldsFunc_loop f (rangeString s) (-1) [] in
  let spans :=
    if 0 <=? start then (start, len_string s) :: spans else spans in
  map (fun sp => slice s (fst sp) (snd sp)) (rev spans).

(** [Fields] splits [s] around each run of white space characters, as
    defined by [unicode.IsSpace]; its ASCII fast path returns the same
    slices as [FieldsFunc(s, unicode.IsSpace)]. *)
Definition Fields (s : string) : list string := FieldsFunc s unicode.IsSpace.

End strings.

(** ** Package levenshtein *)

Module levenshtein.

(** Modelled from the spec: package levenshtein is a third-party dependency
    whose text is not part of the repository.  [Options] holds what the
    callers set: the three costs and the predicate [Matches]. *)
Record Options (A : Type) : Type := {
  InsCost : Z;
  DelCost : Z;
  SubCost : Z;
  Matches : A -> A -> bool
}.

Section Matrix.
Variable A : Type.
Variable op : Options A.

(** Modelled from the spec: row 0 of the edit matrix of the missing
    package, [matrix[0][j] = j * op.InsCost]. *)
Fixpoint firstRow (j : Z) (target : list A) : list Z :=
  j * InsCost op ::
  match target with
  | [] => []
  | _ :: target' => firstRow (j + 1) target'
  end.

(** Modelled from the spec: cells [1 ..] of row [i] of the edit matrix of
    the missing package, left to right, each the minimum of a deletion, a
    match or substitution and an insertion.  [prev] is row [i-1] from the
    column to the left of the current one, [left] is the cell just
    filled. *)
Fixpoint fillRow (a : A) (target : list A) (prev : list Z) (left : Z)
  : list Z :=
  match target, prev with
  | b :: target', diag :: ((up :: _) as prev') =>
    let delCost := up + DelCost op in
    let matchSubCost :=
      if Matches op a b then diag else diag + SubCost op in
    let insCost := left + InsCost op in
    let cell := Z.min delCost (Z.min matchSubCost insCost) in
    cell :: fillRow a target' prev' cell
  | _, _ => []
  end.

(** Modelled from the spec: row [i] of the edit matrix of the missing
    package, [matrix[i][0] = i * op.DelCost] first. *)
Definition nextRow (i : Z) (a : A) (target : list A) (prev : list Z)
  : list Z :=
  let c0 := i * DelCost op in
  c0 :: fillRow a target prev c0.

(** Modelled from the spec: rows [i], [i+1], ... of the edit matrix of the
    missing package, for the remaining source items. *)
Fixpoint rows (i : Z) (source target : list A) (prev : list Z)
  : list (list Z) :=
  match source with
  | [] => []
  | a :: source' =>
    let cur := nextRow i a target prev in
    cur :: rows (i + 1) source' target cur
  end.

(** Modelled from the spec: the edit matrix of the missing package; rows
    are prefixes of [source], columns prefixes of [target]. *)
Definition MatrixForStrings (source target : list A) : list (list Z) :=
  let row0 := firstRow 0 target in
  row0 :: rows 1 source target row0.

(** Modelled from the spec: package levenshtein is a third-party dependency
    whose text is not part of the repository.  The call
    [levenshtein.DistanceForMatrix(source, target, options)] is the minimum
    edit distance of section 4.1, computed as that package does: the
    bottom-right cell [matrix[len(matrix)-1][len(matrix[0])-1]] of the edit
    matrix filled with the costs and the [Matches] predicate of the
    [Options] that the caller passes. *)
Definition DistanceForMatrix (source target : list A) : Z :=
  let matrix := MatrixForStrings source target in
  let height := List.length matrix in
  let width := List.length (nth 0 matrix []) in
  nth (width - 1) (nth (height - 1) matrix []) 0.

End Matrix.

End levenshtein.

(** ** Package metricscalculator *)

Definition Errorf_d (before : string) (d : Z) (after : string) : string :=
  (before ++ itoa d ++ after)%string.

(** [float64(z)], and with [/] the quotient that the division of two such
    values rounds: the exact values, not their binary64 roundings. *)
Definition float64 (z : Z) : Q := inject_Z z.

Definition len {A : Type} (l : list A) : Z := Z.of_nat (List.length l).

Definition CalculateWER (groundTruth recognizedText : string) : Q * error :=
  if String.eqb groundTruth EmptyString && String.eqb recognizedText EmptyString
  then (0%Q, None)
  else if String.eqb groundTruth EmptyString then
    if String.eqb recognizedText EmptyString then (0%Q, None)
    else
      let wordsRecognized := strings.Fields recognizedText in
      (1%Q, Some (Errorf_d
        "ground truth is empty, cannot normalize WER (recognized: "
        (len wordsRecognized) " words, treated as 100% error)"))
  else
    let wordsGroundTruth := strings.Fields groundTruth in
    let wordsRecognized := strings.Fields recognizedText in
    let nGroundTruth := len wordsGroundTruth in
    if nGroundTruth =? 0 then
      if len wordsRecognized =? 0 then (0%Q, None)
      else
        (1%Q, Some (Errorf_d
          "ground truth has 0 words after tokenization, cannot normalize WER (recognized: "
          (len wordsRecognized) " words, treated as 100% error)"))
    else
      let options := {|
        levenshtein.InsCost := 1;
        levenshtein.DelCost := 1;
        levenshtein.SubCost := 1;
        levenshtein.Matches := String.eqb |} in
      let distance :=
        levenshtein.DistanceForMatrix
          options wordsGroundTruth wordsRecognized in
      let wer := (float64 distance / float64 nGroundTruth)%Q in
      (wer, None).

Definition CalculateCER (groundTruth recognizedText : string) : Q * error :=
  if String.eqb groundTruth EmptyString && String.eqb recognizedText EmptyString
  then (0%Q, None)
  else if String.eqb groundTruth EmptyString then
    if String.eqb recognizedText EmptyString then (0%Q, None)
    else
      (1%Q, Some (Errorf_d
        "ground truth is empty, cannot normalize CER (recognized: "
        (len_string recognizedText) " chars, treated as 100% error)"))
  else
    let runesGroundTruth := runes groundTruth in
    let runesRecognized := runes recognizedText in
    let nGroundTruth := len runesGroundTruth in
    if nGroundTruth =? 0 then
      if len runesRecognized =? 0 then (0%Q, None)
      else
        (1%Q, Some (Errorf_d
          "ground truth has 0 characters after tokenization, cannot normalize CER (recognized: "
          (len runesRecognized) " chars, treated as 100% error)"))
    else
      let options := {|
        levenshtein.InsCost := 1;
        levenshtein.DelCost := 1;
        levenshtein.SubCost := 1;
        levenshtein.Matches := Z.eqb |} in
      let distance :=
        levenshtein.DistanceForMatrix
          options runesGroundTruth runesRecognized in
      let cer := (float64 distance / float64 nGroundTruth)%Q in
      (cer, None).

Definition CalculateLatency (durationMs : Z) : Z := durationMs.

(** ** Specification of the edit distance

    An edit script turns [s] into [t] keeping equal items and paying one
    for every substitution, deletion and insertion. *)

Inductive edits (A : Type) : list A -> list A -> Z -> Prop :=
| edits_nil : edits [] [] 0
| edits_keep a s t n : edits s t n -> edits (a :: s) (a :: t) n
| edits_sub a b s t n : edits s t n -> edits (a :: s) (b :: t) (n + 1)
| edits_del a s t n : edits s t n -> edits (a :: s) t (n + 1)
| edits_ins b s t n : edits s t n -> edits s (b :: t) (n + 1).

(** [d] is the unit-cost Levenshtein distance between [s] and [t]: the cost
    of a cheapest edit script. *)
Definition Levenshtein (A : Type) (s t : list A) (d : Z) : Prop :=
  edits s t d /\ forall n, edits s t n -> d <= n.

(** The textbook recursion, on the first items of both sequences. *)
Fixpoint lev (A : Type) (eqb : A -> A -> bool) (s : list A) : list A -> Z :=
  match s with
  | [] => fun t => len t
  | a :: s' =>
    fix lev_a (t : list A) : Z :=
      match t with
      | [] => len s
      | b :: t' =>
        Z.min (lev eqb s' t + 1)
              (Z.min (if eqb a b then lev eqb s' t' else lev eqb s' t' + 1)
                     (lev_a t' + 1))
      end
  end.

(** Row [p] of the edit matrix from column [q] on, for the target
    [q ++ rest]; prefixes are compared from their last item backwards. *)
Fixpoint rowD (A : Type) (eqb : A -> A -> bool) (p q rest : list A) : list Z :=
  lev eqb (rev p) (rev q) ::
  match rest with
  | [] => []
  | b :: rest' => rowD eqb p (q ++ [b]) rest'
  end.

(** ** Specification of the tokenization into words

    The words of [s] are what is left between its white space characters,
    empty tokens being discarded. *)

(** The first [n] bytes of [s], and [s] without them. *)
Fixpoint take (n : nat) (s : string) : string :=
  match n, s with
  | S n', String c s' => String c (take n' s')
  | _, _ => EmptyString
  end.

Fixpoint drop (n : nat) (s : string) : string :=
  match n, s with
  | S n', String _ s' => drop n' s'
  | _, _ => s
  end.

(** The runes of [s], each with the bytes that encode it. *)
Fixpoint chunks_from (skip : nat) (s : string) : list (Z * string) :=
  match s with
  | EmptyString => []
  | String _ t =>
    match skip with
    | S k => chunks_from k t
    | O =>
      let '(r, sz) := utf8.DecodeRuneInString s in
      (r, take sz s) :: chunks_from (sz - 1) t
    end
  end.

Definition chunks (s : string) : list (Z * string) := chunks_from 0 s.

(** The tokens between separators, empty ones included. *)
Fixpoint splitOn (isSep : Z -> bool) (cs : list (Z * string)) : list string :=
  match cs with
  | [] => [EmptyString]
  | (r, b) :: cs' =>
    if isSep r then EmptyString :: splitOn isSep cs'
    else
      match splitOn isSep cs' with
      | tok :: toks => (b ++ tok)%string :: toks
      | [] => [b]
      end
  end.

Definition nonEmpty (w : string) : bool := negb (String.eqb w EmptyString).

Definition words (s : string) : list string :=
  filter nonEmpty (splitOn unicode.IsSpace (chunks s)).

(** The same with the current token as an accumulator. *)
Fixpoint splitWords (isSep : Z -> bool) (cs : list (Z * string))
         (cur : string) : list string :=
  match cs with
  | [] => if nonEmpty cur then [cur] else []
  | (r, b) :: cs' =>
    if isSep r then
      if nonEmpty cur then cur :: splitWords isSep cs' EmptyString
      else splitWords isSep cs' EmptyString
    else splitWords isSep cs' (cur ++ b)
  end.

(** The end of [strings.FieldsFunc]: close the last field and slice. *)
Definition closeFields (s : string) (st : Z * list (Z * Z)) : list string :=
  let '(start, spans) := st in
  let spans :=
    if 0 <=? start then (start, len_string s) :: spans else spans in
  map (fun sp => slice s (fst sp) (snd sp)) (rev spans).

(** ** database/sql and the datastore records

    A [time.Time] is a count of nanoseconds.  A [json.RawMessage] is a
    [RawMessage] where the code tells [nil] from an empty message (the
    fields of an evaluation job and of the request that creates one);
    where the code only measures or copies it, it is the string of its
    bytes, empty for [nil]. *)

(** A [json.RawMessage], that is a [[]byte]: [None] is [nil]. *)
Definition RawMessage : Type := option string.

(** [len(m)]. *)
Definition len_raw (m : RawMessage) : Z :=
  match m with
  | Some s => len_string s
  | None => 0
  end.

(** [string(m)]. *)
Definition string_of_raw (m : RawMessage) : string :=
  match m with
  | Some s => s
  | None => EmptyString
  end.

(** [m != nil]. *)
Definition notNil (m : RawMessage) : bool :=
  match m with
  | Some _ => true
  | None => false
  end.

Module NullString.
Record t : Type := { String : string; Valid : bool }.
Definition zero : t := {| String := EmptyString; Valid := false |}.
End NullString.

Module NullFloat64.
Record t : Type := { Float64 : Q; Valid : bool }.
Definition zero : t := {| Float64 := 0%Q; Valid := false |}.
End NullFloat64.

Module NullInt64.
Record t : Type := { Int64 : Z; Valid : bool }.
Definition zero : t := {| Int64 := 0; Valid := false |}.
End NullInt64.

Module NullTime.
Record t : Type := { Time : Z; Valid : bool }.
Definition zero : t := {| Time := 0; Valid := false |}.
End NullTime.

Module ASRTestCase.
Record t : Type := {
  ID : Z;
  Name : string;
  LanguageCode : NullString.t;
  AudioFilePath : string;
  GroundTruthText : NullString.t;
  Tags : string;
  Description : NullString.t;
  CreatedAt : Z;
  UpdatedAt : Z
}.
End ASRTestCase.

Module VendorConfig.
Record t : Type := {
  ID : Z;
  Name : string;
  APIType : string;
  APIKey : NullString.t;
  APISecret : NullString.t;
  APIEndpoint : NullString.t;
  SupportedModels : string;
  OtherConfigs : string;
  CreatedAt : Z;
  UpdatedAt : Z
}.
End VendorConfig.

Module ASREvaluationResult.
Record t : Type := {
  ID : Z;
  JobID : Z;
  ASRTestCaseID : Z;
  VendorConfigID : Z;
  RecognizedText : NullString.t;
  CER : NullFloat64.t;
  WER : NullFloat64.t;
  SER : NullFloat64.t;
  LatencyMs : NullInt64.t;
  RawVendorResponse : string;
  CreatedAt : Z
}.

(** Assignments to single fields. *)
Definition with_ID (v : Z) (r : t) : t :=
  {| ID := v; JobID := JobID r; ASRTestCaseID := ASRTestCaseID r;
     VendorConfigID := VendorConfigID r; RecognizedText := RecognizedText r;
     CER := CER r; WER := WER r; SER := SER r; LatencyMs := LatencyMs r;
     RawVendorResponse := RawVendorResponse r; CreatedAt := CreatedAt r |}.
Definition with_RecognizedText (v : NullString.t) (r : t) : t :=
  {| ID := ID r; JobID := JobID r; ASRTestCaseID := ASRTestCaseID r;
     VendorConfigID := VendorConfigID r; RecognizedText := v;
     CER := CER r; WER := WER r; SER := SER r; LatencyMs := LatencyMs r;
     RawVendorResponse := RawVendorResponse r; CreatedAt := CreatedAt r |}.
Definition with_CER (v : NullFloat64.t) (r : t) : t :=
  {| ID := ID r; JobID := JobID r; ASRTestCaseID := ASRTestCaseID r;
     VendorConfigID := VendorConfigID r; RecognizedText := RecognizedText r;
     CER := v; WER := WER r; SER := SER r; LatencyMs := LatencyMs r;
     RawVendorResponse := RawVendorResponse r; CreatedAt := CreatedAt r |}.
Definition with_WER (v : NullFloat64.t) (r : t) : t :=
  {| ID := ID r; JobID := JobID r; ASRTestCaseID := ASRTestCaseID r;
     VendorConfigID := VendorConfigID r; RecognizedText := RecognizedText r;
     CER := CER r; WER := v; SER := SER r; LatencyMs := LatencyMs r;
     RawVendorResponse := RawVendorResponse r; CreatedAt := CreatedAt r |}.
Definition with_SER (v : NullFloat64.t) (r : t) : t :=
  {| ID := ID r; JobID := JobID r; ASRTestCaseID := ASRTestCaseID r;
     VendorConfigID := VendorConfigID r; RecognizedText := RecognizedText r;
     CER := CER r; WER := WER r; SER := v; LatencyMs := LatencyMs r;
     RawVendorResponse := RawVendorResponse r; CreatedAt := CreatedAt r |}.
Definition with_RawVendorResponse (v : string) (r : t) : t :=
  {| ID := ID r; JobID := JobID r; ASRTestCaseID := ASRTestCaseID r;
     VendorConfigID := VendorConfigID r; RecognizedText := RecognizedText r;
     CER := CER r; WER := WER r; SER := SER r; LatencyMs := LatencyMs r;
     RawVendorResponse := v; CreatedAt := CreatedAt r |}.
Definition with_CreatedAt (v : Z) (r : t) : t :=
  {| ID := ID r; JobID := JobID r; ASRTestCaseID := ASRTestCaseID r;
     VendorConfigID := VendorConfigID r; RecognizedText := RecognizedText r;
     CER := CER r; WER := WER r; SER := SER r; LatencyMs := LatencyMs r;
     RawVendorResponse := RawVendorResponse r; CreatedAt := v |}.
End ASREvaluationResult.

Module EvaluationJob.
Record t : Type := {
  ID : Z;
  JobName : NullString.t;
  JobType : string;
  Status : string;
  VendorConfigIDs : RawMessage;
  TestCaseIDs : RawMessage;
  Parameters : RawMessage;
  CreatedAt : Z;
  UpdatedAt : Z;
  StartedAt : NullTime.t;
  CompletedAt : NullTime.t
}.

Definition with_ID (v : Z) (j : t) : t :=
  {| ID := v; JobName := JobName j; JobType := JobType j; Status := Status j;
     VendorConfigIDs := VendorConfigIDs j; TestCaseIDs := TestCaseIDs j;
     Parameters := Parameters j; CreatedAt := CreatedAt j;
     UpdatedAt := UpdatedAt j; StartedAt := StartedAt j;
     CompletedAt := CompletedAt j |}.
Definition with_Status (v : string) (j : t) : t :=
  {| ID := ID j; JobName := JobName j; JobType := JobType j; Status := v;
     VendorConfigIDs := VendorConfigIDs j; TestCaseIDs := TestCaseIDs j;
     Parameters := Parameters j; CreatedAt := CreatedAt j;
     UpdatedAt := UpdatedAt j; StartedAt := StartedAt j;
     CompletedAt := CompletedAt j |}.
Definition with_Parameters (v : RawMessage) (j : t) : t :=
  {| ID := ID j; JobName := JobName j; JobType := JobType j;
     Status := Status j;
     VendorConfigIDs := VendorConfigIDs j; TestCaseIDs := TestCaseIDs j;
     Parameters := v; CreatedAt := CreatedAt j;
     UpdatedAt := UpdatedAt j; StartedAt := StartedAt j;
     CompletedAt := CompletedAt j |}.
Definition with_CreatedAt_UpdatedAt (c u : Z) (j : t) : t :=
  {| ID := ID j; JobName := JobName j; JobType := JobType j;
     Status := Status j;
     VendorConfigIDs := VendorConfigIDs j; TestCaseIDs := TestCaseIDs j;
     Parameters := Parameters j; CreatedAt := c;
     UpdatedAt := u; StartedAt := StartedAt j;
     CompletedAt := CompletedAt j |}.
Definition with_StartedAt (v : NullTime.t) (j : t) : t :=
  {| ID := ID j; JobName := JobName j; JobType := JobType j;
     Status := Status j;
     VendorConfigIDs := VendorConfigIDs j; TestCaseIDs := TestCaseIDs j;
     Parameters := Parameters j; CreatedAt := CreatedAt j;
     UpdatedAt := UpdatedAt j; StartedAt := v;
     CompletedAt := CompletedAt j |}.
Definition with_CompletedAt (v : NullTime.t) (j : t) : t :=
  {| ID := ID j; JobName := JobName j; JobType := JobType j;
     Status := Status j;
     VendorConfigIDs := VendorConfigIDs j; TestCaseIDs := TestCaseIDs j;
     Parameters := Parameters j; CreatedAt := CreatedAt j;
     UpdatedAt := UpdatedAt j; StartedAt := StartedAt j;
     CompletedAt := v |}.
End EvaluationJob.

(** ** The world outside the process

    The database, the clock and the remote recognition services are
    collaborators: each operation on them is a function of the environment
    [Env].  Every query and statement sent to the database and every call
    of a remote service reads the state [W] of the outside world and leaves
    a new one, so the same query may be answered differently each time it
    is sent. *)

(** The outcome of [DB.QueryRow(...).Scan(...)]. *)
Inductive QueryResult (A : Type) : Type :=
| Row (a : A)
| ErrNoRows
| QueryError (msg : string).
Arguments ErrNoRows {A}.
Arguments QueryError {A} msg.

(** The outcome of [DB.Exec(...)] followed by [RowsAffected()]. *)
Inductive ExecResult : Type :=
| ExecError (msg : string)
| RowsAffectedError (msg : string)
| RowsAffected (n : Z).

(** The implementations of the interface [ASRAdapter]. *)
Inductive ASRAdapter : Type :=
| MockASRAdapter
| GoogleASRAdapter
| MicrosoftASRAdapter
| DeepgramASRAdapter
| TencentASRAdapter
| VolcengineASRAdapter
| AlibabaASRAdapter.

Record Env (W : Type) : Type := {
  DB_nil : bool;
  globalObjectStoreClient_nil : bool;
  time_Now : W -> Z;
  time_Sleep : Z -> W -> W;
  SelectASRTestCase : Z -> W -> QueryResult ASRTestCase.t * W;
  SelectVendorConfig : Z -> W -> QueryResult VendorConfig.t * W;
  SelectEvaluationJob : Z -> W -> QueryResult EvaluationJob.t * W;
  RemoteRecognize :
    ASRAdapter -> string -> string -> VendorConfig.t -> W ->
    (string * string * error) * W;
  InsertASREvaluationResult :
    ASREvaluationResult.t -> W -> QueryResult Z * W;
  InsertEvaluationJob : EvaluationJob.t -> W -> QueryResult Z * W;
  ExecUpdateStatus : Z -> string -> W -> ExecResult * W;
  ExecUpdateTimestamps : Z -> NullTime.t -> NullTime.t -> W -> ExecResult * W
}.

(** The queries and statements sent to the database, each named after the
    datastore function that sends it, with their outcomes. *)
Inductive Call : Type :=
| CallCreateASREvaluationResult
    (row : ASREvaluationResult.t) (res : QueryResult Z)
| CallCreateEvaluationJob (job : EvaluationJob.t) (res : QueryResult Z)
| CallUpdateEvaluationJobStatus (id : Z) (status : string) (res : ExecResult)
| CallUpdateEvaluationJobTimestamps
    (id : Z) (startTime endTime : NullTime.t) (res : ExecResult)
| CallGetASRTestCase (id : Z) (res : QueryResult ASRTestCase.t)
| CallGetVendorConfig (id : Z) (res : QueryResult VendorConfig.t)
| CallGetEvaluationJob (id : Z) (res : QueryResult EvaluationJob.t).

(** Effectful code: a computation reads and changes the outside world and
    reports the queries and statements it has sent to the database, oldest
    first. *)
Definition M (W A : Type) : Type := W -> A * list Call * W.

Definition ret (W A : Type) (a : A) : M W A := fun w => (a, [], w).

Definition bind (W A B : Type) (c : M W A) (k : A -> M W B) : M W B :=
  fun w =>
    let '(a, cs1, w1) := c w in
    let '(b, cs2, w2) := k a w1 in
    (b, cs1 ++ cs2, w2).

Notation "x <- c ;; k" := (bind c (fun x => k))
  (at level 61, c at next level, right associativity).
Notation "' pat <- c ;; k" :=
  (bind c (fun x => match x with pat => k end))
  (at level 61, pat pattern, c at next level, right associativity).

Definition calls (W A : Type) (out : A * list Call * W) : list Call :=
  snd (fst out).

Definition value (W A : Type) (out : A * list Call * W) : A :=
  fst (fst out).

Definition world (W A : Type) (out : A * list Call * W) : W := snd out.

(** The rows of [asr_evaluation_results] that a sequence of statements
    has inserted. *)
Fixpoint persisted (cs : list Call) : list ASREvaluationResult.t :=
  match cs with
  | [] => []
  | CallCreateASREvaluationResult row (Row id) :: cs' =>
    ASREvaluationResult.with_ID id row :: persisted cs'
  | _ :: cs' => persisted cs'
  end.

(** The results handed to [CreateASREvaluationResult], saved or not. *)
Fixpoint submitted (cs : list Call) : list ASREvaluationResult.t :=
  match cs with
  | [] => []
  | CallCreateASREvaluationResult row _ :: cs' => row :: submitted cs'
  | _ :: cs' => submitted cs'
  end.

(** The test cases that the look-ups among the statements [cs] have
    found, oldest first. *)
Fixpoint resolvedTestCases (cs : list Call) : list ASRTestCase.t :=
  match cs with
  | [] => []
  | CallGetASRTestCase _ (Row testCase) :: cs' =>
    testCase :: resolvedTestCases cs'
  | _ :: cs' => resolvedTestCases cs'
  end.

(** The look-ups of test cases among the statements [cs], with their
    outcomes. *)
Fixpoint testCaseLookups (cs : list Call)
  : list (Z * QueryResult ASRTestCase.t) :=
  match cs with
  | [] => []
  | CallGetASRTestCase id res :: cs' => (id, res) :: testCaseLookups cs'
  | _ :: cs' => testCaseLookups cs'
  end.

(** The (test case, vendor) pairs that the look-ups among [cs] have found:
    each vendor found goes with the test case of the last look-up of a test
    case, if that one found it ([current]). *)
Fixpoint lookedUpPairs_from (current : option ASRTestCase.t) (cs : list Call)
  : list (ASRTestCase.t * VendorConfig.t) :=
  match cs with
  | [] => []
  | CallGetASRTestCase _ (Row testCase) :: cs' =>
    lookedUpPairs_from (Some testCase) cs'
  | CallGetASRTestCase _ _ :: cs' => lookedUpPairs_from None cs'
  | CallGetVendorConfig _ (Row vendorConfig) :: cs' =>
    match current with
    | Some testCase =>
      (testCase, vendorConfig) :: lookedUpPairs_from current cs'
    | None => lookedUpPairs_from current cs'
    end
  | _ :: cs' => lookedUpPairs_from current cs'
  end.

Definition lookedUpPairs (cs : list Call)
  : list (ASRTestCase.t * VendorConfig.t) :=
  lookedUpPairs_from None cs.

Definition Millisecond : Z := 1000000.

Definition QueryResult_error (A : Type) (res : QueryResult A) : string :=
  match res with
  | Row _ => EmptyString
  | ErrNoRows => "sql: no rows in result set"
  | QueryError msg => msg
  end.

(** ** Package datastore *)

Section Datastore.
Variable W : Type.
Variable env : Env W.
Open Scope string_scope.
Open Scope Z_scope.

(** [GetASRTestCase].  The query is answered by the outside world; a row
    is the test case as the scan leaves it, with the tags of a NULL or
    null column left out. *)
Definition GetASRTestCase (id : Z) : M W (ASRTestCase.t + string) :=
  fun w =>
    if DB_nil env then (inr "database connection not initialized", [], w)
    else
      let '(res, w') := SelectASRTestCase env id w in
      (match res with
       | Row tc => inl tc
       | ErrNoRows =>
         inr ("ASR test case with ID " ++ itoa id ++ " not found: "
              ++ QueryResult_error (@ErrNoRows Z))%string
       | QueryError msg =>
         inr ("failed to get ASR test case: " ++ msg)%string
       end, [CallGetASRTestCase id res], w').

(** [GetVendorConfig].  A row is the vendor configuration as the scan
    leaves it. *)
Definition GetVendorConfig (id : Z) : M W (VendorConfig.t + string) :=
  fun w =>
    if DB_nil env then (inr "database connection not initialized", [], w)
    else
      let '(res, w') := SelectVendorConfig env id w in
      (match res with
       | Row vc => inl vc
       | ErrNoRows =>
         inr ("vendor config with ID " ++ itoa id ++ " not found: "
              ++ QueryResult_error (@ErrNoRows Z))%string
       | QueryError msg =>
         inr ("failed to get vendor config: " ++ msg)%string
       end, [CallGetVendorConfig id res], w').

(** [CreateASREvaluationResult] returns the result as the call leaves it
    behind its pointer, the new id and the error. *)
Definition CreateASREvaluationResult (result : ASREvaluationResult.t)
  : M W (ASREvaluationResult.t * Z * error) :=
  fun w =>
    if DB_nil env then
      ((result, 0, Some "database connection not initialized"), [], w)
    else
      let result :=
        ASREvaluationResult.with_CreatedAt (time_Now env w) result in
      let rawResponseJSON :=
        if 0 <? len_string (ASREvaluationResult.RawVendorResponse result)
        then ASREvaluationResult.RawVendorResponse result
        else "null" in
      let row :=
        ASREvaluationResult.with_RawVendorResponse rawResponseJSON result in
      let '(res, w') := InsertASREvaluationResult env row w in
      match res with
      | Row id =>
        ((ASREvaluationResult.with_ID id result, id, None),
         [CallCreateASREvaluationResult row res], w')
      | _ =>
        ((result, 0,
          Some ("failed to create ASR evaluation result: "
                ++ QueryResult_error res)%string),
         [CallCreateASREvaluationResult row res], w')
      end.

Definition MarshalIntSliceToJSON (ids : list Z) : RawMessage * error :=
  (Some ("[" ++ String.concat "," (map itoa ids) ++ "]")%string, None).

Definition CreateEvaluationJob (job : EvaluationJob.t)
  : M W (EvaluationJob.t * Z * error) :=
  fun w =>
    if DB_nil env then
      ((job, 0, Some "database connection not initialized"), [], w)
    else
      let job :=
        EvaluationJob.with_CreatedAt_UpdatedAt
          (time_Now env w) (time_Now env w) job in
      let vendorIDsJSON :=
        if notNil (EvaluationJob.VendorConfigIDs job)
        then EvaluationJob.VendorConfigIDs job else Some "[]" in
      let testCaseIDsJSON :=
        if notNil (EvaluationJob.TestCaseIDs job)
        then EvaluationJob.TestCaseIDs job else Some "[]" in
      let paramsJSON :=
        if notNil (EvaluationJob.Parameters job)
           && (0 <? len_raw (EvaluationJob.Parameters job))
        then EvaluationJob.Parameters job else Some "null" in
      let row := {|
        EvaluationJob.ID := EvaluationJob.ID job;
        EvaluationJob.JobName := EvaluationJob.JobName job;
        EvaluationJob.JobType := EvaluationJob.JobType job;
        EvaluationJob.Status := EvaluationJob.Status job;
        EvaluationJob.VendorConfigIDs := vendorIDsJSON;
        EvaluationJob.TestCaseIDs := testCaseIDsJSON;
        EvaluationJob.Parameters := paramsJSON;
        EvaluationJob.CreatedAt := EvaluationJob.CreatedAt job;
        EvaluationJob.UpdatedAt := EvaluationJob.UpdatedAt job;
        EvaluationJob.StartedAt := EvaluationJob.StartedAt job;
        EvaluationJob.CompletedAt := EvaluationJob.CompletedAt job |} in
      let '(res, w') := InsertEvaluationJob env row w in
      match res with
      | Row id =>
        ((EvaluationJob.with_ID id job, id, None),
         [CallCreateEvaluationJob row res], w')
      | _ =>
        ((job, 0,
          Some ("failed to create evaluation job: "
                ++ QueryResult_error res)%string),
         [CallCreateEvaluationJob row res], w')
      end.

Definition GetEvaluationJob (id : Z) : M W (EvaluationJob.t + string) :=
  fun w =>
    if DB_nil env then (inr "database connection not initialized", [], w)
    else
      let '(res, w') := SelectEvaluationJob env id w in
      (match res with
       | Row job =>
         let paramsJSON := EvaluationJob.Parameters job in
         inl (if notNil paramsJSON
                 && negb (String.eqb (string_of_raw paramsJSON) "null")
              then job else EvaluationJob.with_Parameters None job)
       | ErrNoRows =>
         inr ("evaluation job with ID " ++ itoa id ++ " not found: "
              ++ QueryResult_error (@ErrNoRows Z))%string
       | QueryError msg =>
         inr ("failed to get evaluation job: " ++ msg)%string
       end, [CallGetEvaluationJob id res], w').

Definition UpdateEvaluationJobStatus (id : Z) (status : string) : M W error :=
  fun w =>
    if DB_nil env then (Some "database connection not initialized", [], w)
    else
      let '(res, w') := ExecUpdateStatus env id status w in
      let err :=
        match res with
        | ExecError msg =>
          Some ("failed to update status for job ID " ++ itoa id ++ ": "
                ++ msg)%string
        | RowsAffectedError msg =>
          Some ("failed to get rows affected when updating status for job ID "
                ++ itoa id ++ ": " ++ msg)%string
        | RowsAffected rowsAffected =>
          if rowsAffected =? 0
          then Some ("job ID " ++ itoa id
                     ++ " not found for status update")%string
          else None
        end in
      (err, [CallUpdateEvaluationJobStatus id status res], w').

Definition UpdateEvaluationJobTimestamps
  (id : Z) (startTime endTime : NullTime.t) : M W error :=
  fun w =>
    if DB_nil env then (Some "database connection not initialized", [], w)
    else if negb (NullTime.Valid startTime) && negb (NullTime.Valid endTime)
    then (Some "no timestamps provided for update", [], w)
    else
      let '(res, w') := ExecUpdateTimestamps env id startTime endTime w in
      let err :=
        match res with
        | ExecError msg =>
          Some ("failed to update timestamps for job ID " ++ itoa id ++ ": "
                ++ msg)%string
        | RowsAffectedError msg =>
          Some ("failed to get rows affected for job ID " ++ itoa id
                ++ " timestamp update: " ++ msg)%string
        | RowsAffected rowsAffected =>
          if rowsAffected =? 0
          then Some ("job ID " ++ itoa id
                     ++ " not found for timestamp update")%string
          else None
        end in
      (err, [CallUpdateEvaluationJobTimestamps id startTime endTime res], w').

End Datastore.

(** ** Package vendoradapters *)

Section VendorAdapters.
Variable W : Type.
Variable env : Env W.
Open Scope string_scope.
Open Scope Z_scope.

(** [GetASRAdapter]: the argument is a pointer, [None] being [nil]. *)
Definition GetASRAdapter (vendorConfig : option VendorConfig.t)
  : ASRAdapter + string :=
  match vendorConfig with
  | None => inr "vendorConfig cannot be nil"
  | Some vendorConfig =>
    let name := VendorConfig.Name vendorConfig in
    if String.eqb name "MockASR" then inl MockASRAdapter
    else if String.eqb name "MockASR-Error" then inl MockASRAdapter
    else if String.eqb name "GoogleCloudASR" then
      if globalObjectStoreClient_nil env
      then inr "GoogleASRAdapter requires an initialized object store client, but it's nil"
      else inl GoogleASRAdapter
    else if String.eqb name "MicrosoftASR" then
      if globalObjectStoreClient_nil env
      then inr "MicrosoftASRAdapter requires an initialized object store client, but it's nil"
      else inl MicrosoftASRAdapter
    else if String.eqb name "DeepgramASR" then
      if globalObjectStoreClient_nil env
      then inr "DeepgramASRAdapter requires an initialized object store client, but it's nil"
      else inl DeepgramASRAdapter
    else if String.eqb name "TencentASR" then
      if globalObjectStoreClient_nil env
      then inr "TencentASRAdapter requires an initialized object store client, but it's nil"
      else inl TencentASRAdapter
    else if String.eqb name "VolcengineASR" then
      if globalObjectStoreClient_nil env
      then inr "VolcengineASRAdapter requires an initialized object store client, but it's nil"
      else inl VolcengineASRAdapter
    else if String.eqb name "AlibabaASR" then
      if globalObjectStoreClient_nil env
      then inr "AlibabaASRAdapter requires an initialized object store client, but it's nil"
      else inl AlibabaASRAdapter
    else inl MockASRAdapter
  end.

(** The names that the switch of [GetASRAdapter] lists. *)
Definition knownAdapterNames : list string :=
  ["MockASR"; "MockASR-Error"; "GoogleCloudASR"; "MicrosoftASR";
   "DeepgramASR"; "TencentASR"; "VolcengineASR"; "AlibabaASR"].

Definition dquote : string := String (ascii_of_nat 34) EmptyString.

Definition mockText (audioFilePath languageCode : string) : string :=
  ("Mock recognition for " ++ audioFilePath
   ++ ": Hello world, this is a test for language " ++ languageCode
   ++ ".")%string.

(** [MockASRAdapter.Recognize]; the parameter map is not read. *)
Definition MockASRAdapter_Recognize
  (audioFilePath languageCode : string) (vendorConfig : VendorConfig.t)
  : M W (string * string * error) :=
  fun w =>
    let w := time_Sleep env (500 * Millisecond) w in
    let mockText := mockText audioFilePath languageCode in
    if String.eqb (VendorConfig.Name vendorConfig) "MockASR-Error" then
      let mockRawResponse :=
        ("{" ++ dquote ++ "error" ++ dquote ++ ": " ++ dquote
         ++ "Simulated error from MockASR-Error vendor" ++ dquote
         ++ "}")%string in
      ((EmptyString, mockRawResponse,
        Some ("simulated error from MockASR-Error for file "
              ++ audioFilePath)%string), [], w)
    else
      let mockRawResponse :=
        ("{" ++ dquote ++ "transcription" ++ dquote ++ ": " ++ dquote
         ++ mockText ++ dquote ++ ", " ++ dquote ++ "confidence" ++ dquote
         ++ ": 0.95, " ++ dquote ++ "simulated" ++ dquote
         ++ ": true}")%string in
      ((mockText, mockRawResponse, None), [], w).

(** The method [Recognize] of an adapter: the mock is defined here, the
    other adapters call their vendor's service. *)
Definition Recognize (adapter : ASRAdapter)
  (audioFilePath languageCode : string) (vendorConfig : VendorConfig.t)
  : M W (string * string * error) :=
  match adapter with
  | MockASRAdapter =>
    MockASRAdapter_Recognize audioFilePath languageCode vendorConfig
  | _ =>
    fun w =>
      let '(out, w') :=
        RemoteRecognize env adapter audioFilePath languageCode vendorConfig w in
      (out, [], w')
  end.

End VendorAdapters.

(** ** Package evaluationengine *)

Section EvaluationEngine.
Variable W : Type.
Variable env : Env W.
Open Scope string_scope.
Open Scope Z_scope.

Definition now : M W Z := fun w => (time_Now env w, [], w).

(** The result that one iteration of the inner loop of [RunASREvaluation]
    builds from the outcome of the recognition call. *)
Definition buildResult (jobID : Z)
  (testCase : ASRTestCase.t) (vendorConfig : VendorConfig.t)
  (recognizedText rawResponse : string) (err : error) (latencyMs : Z)
  : ASREvaluationResult.t :=
  let result := {|
    ASREvaluationResult.ID := 0;
    ASREvaluationResult.JobID := jobID;
    ASREvaluationResult.ASRTestCaseID := ASRTestCase.ID testCase;
    ASREvaluationResult.VendorConfigID := VendorConfig.ID vendorConfig;
    ASREvaluationResult.RecognizedText := NullString.zero;
    ASREvaluationResult.CER := NullFloat64.zero;
    ASREvaluationResult.WER := NullFloat64.zero;
    ASREvaluationResult.SER := NullFloat64.zero;
    ASREvaluationResult.LatencyMs :=
      {| NullInt64.Int64 := latencyMs; NullInt64.Valid := true |};
    ASREvaluationResult.RawVendorResponse := EmptyString;
    ASREvaluationResult.CreatedAt := 0 |} in
  let result :=
    if negb (String.eqb rawResponse EmptyString)
    then ASREvaluationResult.with_RawVendorResponse rawResponse result
    else ASREvaluationResult.with_RawVendorResponse "null" result in
  let result :=
    match err with
    | Some e =>
      ASREvaluationResult.with_RecognizedText
        {| NullString.String := ("Recognition Error: " ++ e)%string;
           NullString.Valid := true |} result
    | None =>
      ASREvaluationResult.with_RecognizedText
        {| NullString.String := recognizedText;
           NullString.Valid := true |} result
    end in
  let unset := {| NullFloat64.Float64 := 0%Q; NullFloat64.Valid := false |} in
  if NullString.Valid (ASRTestCase.GroundTruthText testCase)
     && negb (String.eqb
                (NullString.String (ASRTestCase.GroundTruthText testCase))
                EmptyString)
  then
    let gt := NullString.String (ASRTestCase.GroundTruthText testCase) in
    let rec := recognizedText in
    let result :=
      match err with
      | None =>
        let '(cer, cerErr) := CalculateCER gt rec in
        let result :=
          match cerErr with
          | Some _ => ASREvaluationResult.with_CER unset result
          | None =>
            ASREvaluationResult.with_CER
              {| NullFloat64.Float64 := cer; NullFloat64.Valid := true |}
              result
          end in
        let '(wer, werErr) := CalculateWER gt rec in
        match werErr with
        | Some _ => ASREvaluationResult.with_WER unset result
        | None =>
          ASREvaluationResult.with_WER
            {| NullFloat64.Float64 := wer; NullFloat64.Valid := true |}
            result
        end
      | Some _ => result
      end in
    ASREvaluationResult.with_SER unset result
  else
    let result := ASREvaluationResult.with_CER unset result in
    let result := ASREvaluationResult.with_WER unset result in
    ASREvaluationResult.with_SER unset result.

(** The rest of an iteration of the inner loop once the adapter has been
    obtained: recognize, time the call, build the result and save it. *)
Definition evaluatePair (jobID : Z)
  (testCase : ASRTestCase.t) (vendorConfig : VendorConfig.t)
  (adapter : ASRAdapter) : M W unit :=
  startTime <- now ;;
  ' (recognizedText, rawResponse, err) <-
    Recognize env adapter (ASRTestCase.AudioFilePath testCase)
      (NullString.String (ASRTestCase.LanguageCode testCase))
      vendorConfig ;;
  endTime <- now ;;
  let latencyMs := Z.quot (endTime - startTime) Millisecond in
  let result :=
    buildResult jobID testCase vendorConfig
                recognizedText rawResponse err latencyMs in
  _ <- CreateASREvaluationResult env result ;;
  ret tt.

(** The inner loop of [RunASREvaluation], over the vendor ids. *)
Fixpoint vendorLoop (jobID : Z) (testCase : ASRTestCase.t)
         (vendorConfigIDs : list Z) : M W unit :=
  match vendorConfigIDs with
  | [] => ret tt
  | vendorConfigID :: rest =>
    fetched <- GetVendorConfig env vendorConfigID ;;
    match fetched with
    | inr _ => vendorLoop jobID testCase rest
    | inl vendorConfig =>
      match GetASRAdapter env (Some vendorConfig) with
      | inr _ => vendorLoop jobID testCase rest
      | inl adapter =>
        _ <- evaluatePair jobID testCase vendorConfig adapter ;;
        vendorLoop jobID testCase rest
      end
    end
  end.

(** The outer loop, over the test case ids. *)
Fixpoint testCaseLoop (jobID : Z) (testCaseIDs vendorConfigIDs : list Z)
  : M W unit :=
  match testCaseIDs with
  | [] => ret tt
  | testCaseID :: rest =>
    fetched <- GetASRTestCase env testCaseID ;;
    match fetched with
    | inr _ => testCaseLoop jobID rest vendorConfigIDs
    | inl testCase =>
      _ <- vendorLoop jobID testCase vendorConfigIDs ;;
      testCaseLoop jobID rest vendorConfigIDs
    end
  end.

Definition RunASREvaluation (jobID : Z) (testCaseIDs vendorConfigIDs : list Z)
  : M W error :=
  if DB_nil env then ret (Some "database connection is not initialized")
  else
    _ <- testCaseLoop jobID testCaseIDs vendorConfigIDs ;;
    ret None.

End EvaluationEngine.

(** ** Package jobmanagement *)

Section JobManagement.
Variable W : Type.
Variable env : Env W.
Open Scope string_scope.
Open Scope Z_scope.

Definition JobStatusPending : string := "PENDING".
Definition JobStatusRunning : string := "RUNNING".
Definition JobStatusCompleted : string := "COMPLETED".
Definition JobStatusFailed : string := "FAILED".
Definition JobTypeASR : string := "ASR".

(** Steps 3 and 4 of [CreateAndRunASRJob]: run the evaluation, then record
    its outcome on the job. *)
Definition runAndRecord (job : EvaluationJob.t) (jobID : Z)
  (testCaseIDs vendorConfigIDs : list Z)
  : M W (option EvaluationJob.t * error) :=
  evalErr <- RunASREvaluation env jobID testCaseIDs vendorConfigIDs ;;
  completedTime <- now env ;;
  ' (job, _) <-
    match evalErr with
    | Some _ =>
      let job := EvaluationJob.with_Status JobStatusFailed job in
      err <- UpdateEvaluationJobStatus env jobID JobStatusFailed ;;
      ret (job, err)
    | None =>
      let job := EvaluationJob.with_Status JobStatusCompleted job in
      err <- UpdateEvaluationJobStatus env jobID JobStatusCompleted ;;
      ret (job, err)
    end ;;
  let job :=
    EvaluationJob.with_CompletedAt
      {| NullTime.Time := completedTime; NullTime.Valid := true |} job in
  _ <- UpdateEvaluationJobTimestamps env jobID NullTime.zero
         {| NullTime.Time := completedTime; NullTime.Valid := true |} ;;
  fetched <- GetEvaluationJob env jobID ;;
  match fetched with
  | inr _ => ret (Some job, evalErr)
  | inl finalJob => ret (Some finalJob, evalErr)
  end.

(** [CreateAndRunASRJob]: the returned job is a pointer, [None] being
    [nil]. *)
Definition CreateAndRunASRJob (jobName : NullString.t)
  (testCaseIDs vendorConfigIDs : list Z) (params : RawMessage)
  : M W (option EvaluationJob.t * error) :=
  let '(vendorConfigIDsJSON, err) := MarshalIntSliceToJSON vendorConfigIDs in
  match err with
  | Some e => ret (None, Some ("failed to marshal vendor_config_ids: " ++ e))
  | None =>
  let '(testCaseIDsJSON, err) := MarshalIntSliceToJSON testCaseIDs in
  match err with
  | Some e => ret (None, Some ("failed to marshal test_case_ids: " ++ e))
  | None =>
  let job := {|
    EvaluationJob.ID := 0;
    EvaluationJob.JobName := jobName;
    EvaluationJob.JobType := JobTypeASR;
    EvaluationJob.Status := JobStatusPending;
    EvaluationJob.VendorConfigIDs := vendorConfigIDsJSON;
    EvaluationJob.TestCaseIDs := testCaseIDsJSON;
    EvaluationJob.Parameters := params;
    EvaluationJob.CreatedAt := 0;
    EvaluationJob.UpdatedAt := 0;
    EvaluationJob.StartedAt := NullTime.zero;
    EvaluationJob.CompletedAt := NullTime.zero |} in
  ' (job, jobID, err) <- CreateEvaluationJob env job ;;
  match err with
  | Some e =>
    ret (None, Some ("failed to create evaluation job in datastore: " ++ e))
  | None =>
  let job := EvaluationJob.with_ID jobID job in
  err <- UpdateEvaluationJobStatus env jobID JobStatusRunning ;;
  match err with
  | Some e =>
    _ <- UpdateEvaluationJobStatus env jobID JobStatusFailed ;;
    t <- now env ;;
    _ <- UpdateEvaluationJobTimestamps env jobID NullTime.zero
           {| NullTime.Time := t; NullTime.Valid := true |} ;;
    let job := EvaluationJob.with_Status JobStatusFailed job in
    ret (Some job, Some ("failed to update job status to RUNNING: " ++ e))
  | None =>
  let job := EvaluationJob.with_Status JobStatusRunning job in
  startTime <- now env ;;
  err <- UpdateEvaluationJobTimestamps env jobID
           {| NullTime.Time := startTime; NullTime.Valid := true |}
           NullTime.zero ;;
  match err with
  | Some e =>
    _ <- UpdateEvaluationJobStatus env jobID JobStatusFailed ;;
    t <- now env ;;
    _ <- UpdateEvaluationJobTimestamps env jobID NullTime.zero
           {| NullTime.Time := t; NullTime.Valid := true |} ;;
    let job := EvaluationJob.with_Status JobStatusFailed job in
    ret (Some job, Some ("failed to update job started_at: " ++ e))
  | None =>
  let job :=
    EvaluationJob.with_StartedAt
      {| NullTime.Time := startTime; NullTime.Valid := true |} job in
  runAndRecord job jobID testCaseIDs vendorConfigIDs
  end end end end end.

End JobManagement.

(** ** What a run is expected to send *)

Section Expected.
Variable W : Type.
Variable env : Env W.

Definition pairOf (r : ASREvaluationResult.t) : Z * Z :=
  (ASREvaluationResult.ASRTestCaseID r, ASREvaluationResult.VendorConfigID r).

(** [row] is the result built for the pair from the recognition outcome
    [out], as it is handed to the database (or, with its id, as the database
    keeps it). *)
Definition rowOf (jobID : Z)
  (testCase : ASRTestCase.t) (vendorConfig : VendorConfig.t)
  (out : string * string * error) (row : ASREvaluationResult.t) : Prop :=
  exists (latencyMs createdAt id : Z) (rawResponseJSON : string),
    row = ASREvaluationResult.with_ID id
            (ASREvaluationResult.with_RawVendorResponse rawResponseJSON
               (ASREvaluationResult.with_CreatedAt createdAt
                  (buildResult jobID testCase vendorConfig
                     (fst (fst out)) (snd (fst out)) (snd out) latencyMs))).

(** [row] stems from a pair of the job: a test case id and a vendor id of
    the job whose look-ups, in the states [w1] and [w2] of the world, find
    [testCase] and a vendor with an adapter, with [out] the outcome of the
    recognition call made right after the look-up of the vendor. *)
Definition fromPair (jobID : Z) (testCaseIDs vendorConfigIDs : list Z)
  (testCase : ASRTestCase.t) (out : string * string * error)
  (row : ASREvaluationResult.t) : Prop :=
  exists (testCaseID vendorConfigID : Z) (vendorConfig : VendorConfig.t)
         (adapter : ASRAdapter) (w1 w2 : W),
    In testCaseID testCaseIDs
    /\ In vendorConfigID vendorConfigIDs
    /\ value (GetASRTestCase env testCaseID w1) = inl testCase
    /\ value (GetVendorConfig env vendorConfigID w2) = inl vendorConfig
    /\ GetASRAdapter env (Some vendorConfig) = inl adapter
    /\ out = value (Recognize env adapter
                      (ASRTestCase.AudioFilePath testCase)
                      (NullString.String (ASRTestCase.LanguageCode testCase))
                      vendorConfig
                      (world (GetVendorConfig env vendorConfigID w2)))
    /\ rowOf jobID testCase vendorConfig out row.

Variable jobID : Z.

(** What one iteration of the inner loop sends, for the test case
    [testCase] and the vendor id [vendorConfigID]: the look-up of the
    vendor and, unless the look-up fails or no adapter is obtained, one
    insertion of a result for the pair. *)
Inductive pairTrace (testCase : ASRTestCase.t) (vendorConfigID : Z)
  : list Call -> Prop :=
| pair_vendor_unresolved (res : QueryResult VendorConfig.t) :
    (forall vendorConfig, res <> Row vendorConfig) ->
    pairTrace testCase vendorConfigID [CallGetVendorConfig vendorConfigID res]
| pair_adapter_error (vendorConfig : VendorConfig.t) (msg : string) :
    GetASRAdapter env (Some vendorConfig) = inr msg ->
    pairTrace testCase vendorConfigID
              [CallGetVendorConfig vendorConfigID (Row vendorConfig)]
| pair_result (vendorConfig : VendorConfig.t) (adapter : ASRAdapter)
              (row : ASREvaluationResult.t) (res : QueryResult Z) :
    GetASRAdapter env (Some vendorConfig) = inl adapter ->
    ASREvaluationResult.JobID row = jobID ->
    pairOf row = (ASRTestCase.ID testCase, VendorConfig.ID vendorConfig) ->
    pairTrace testCase vendorConfigID
              [CallGetVendorConfig vendorConfigID (Row vendorConfig);
               CallCreateASREvaluationResult row res].

(** What the inner loop sends for a test case: the iterations for the
    vendor ids, one after the other. *)
Inductive vendorsTrace (testCase : ASRTestCase.t)
  : list Z -> list Call -> Prop :=
| vendors_nil : vendorsTrace testCase [] []
| vendors_cons (vendorConfigID : Z) (rest : list Z) (cs1 cs2 : list Call) :
    pairTrace testCase vendorConfigID cs1 ->
    vendorsTrace testCase rest cs2 ->
    vendorsTrace testCase (vendorConfigID :: rest) (cs1 ++ cs2).

(** What the outer loop sends: for each test case id its look-up, followed,
    when it finds the test case, by what the inner loop sends for it. *)
Inductive casesTrace (vendorConfigIDs : list Z)
  : list Z -> list Call -> Prop :=
| cases_nil : casesTrace vendorConfigIDs [] []
| cases_unresolved (testCaseID : Z) (rest : list Z)
                   (res : QueryResult ASRTestCase.t) (cs : list Call) :
    (forall testCase, res <> Row testCase) ->
    casesTrace vendorConfigIDs rest cs ->
    casesTrace vendorConfigIDs (testCaseID :: rest)
               (CallGetASRTestCase testCaseID res :: cs)
| cases_resolved (testCaseID : Z) (rest : list Z)
                 (testCase : ASRTestCase.t) (cs1 cs2 : list Call) :
    vendorsTrace testCase vendorConfigIDs cs1 ->
    casesTrace vendorConfigIDs rest cs2 ->
    casesTrace vendorConfigIDs (testCaseID :: rest)
               (CallGetASRTestCase testCaseID (Row testCase) :: cs1 ++ cs2).

(** The statement [c], if it looks up a vendor, has found one for which
    an adapter is obtained. *)
Definition usable (c : Call) : Prop :=
  match c with
  | CallGetVendorConfig _ res =>
    exists (vendorConfig : VendorConfig.t) (adapter : ASRAdapter),
      res = Row vendorConfig
      /\ GetASRAdapter env (Some vendorConfig) = inl adapter
  | _ => True
  end.

End Expected.

(** A metric that is not set: the column is NULL. *)
Definition isUnset (m : NullFloat64.t) : Prop := NullFloat64.Valid m = false.

(** The statement [c], if it inserts a result, has succeeded. *)
Definition inserted (c : Call) : Prop :=
  match c with
  | CallCreateASREvaluationResult _ res => exists id : Z, res = Row id
  | _ => True
  end.

(** The statements of an evaluation run: look-ups of test cases and of
    vendors, insertions of results. *)
Definition isRunStatement (c : Call) : Prop :=
  match c with
  | CallGetASRTestCase _ _ => True
  | CallGetVendorConfig _ _ => True
  | CallCreateASREvaluationResult _ _ => True
  | _ => False
  end.

(** The statements on the table of the jobs. *)
Definition isJobStatement (c : Call) : Prop :=
  match c with
  | CallCreateEvaluationJob _ _ => True
  | CallUpdateEvaluationJobStatus _ _ _ => True
  | CallUpdateEvaluationJobTimestamps _ _ _ _ => True
  | CallGetEvaluationJob _ _ => True
  | _ => False
  end.

(** An UPDATE that went through and changed a row: the call that sent it
    returns a nil error. *)
Definition execSucceeded (res : ExecResult) : bool :=
  match res with
  | RowsAffected n => negb (n =? 0)
  | _ => false
  end.

(** How [CreateAndRunASRJob] leaves the job.  When it returns a nil error,
    it returns a job and has sent the update to "COMPLETED", and no update
    to "FAILED", for it; the job returned is the one read back from the
    database at the end, whatever its status, or, when it cannot be read
    back, the local copy, whose status is "COMPLETED".  When it returns
    an error, it has sent statements on the table of the jobs only (the
    evaluation has not run), and a job that it returns has the status
    "FAILED", for which an update was sent. *)
Definition jobOutcome (W : Type)
  (out : (option EvaluationJob.t * error) * list Call * W) : Prop :=
  (snd (value out) = None ->
   exists (jobID : Z) (res : ExecResult) (job : EvaluationJob.t),
     In (CallUpdateEvaluationJobStatus jobID JobStatusCompleted res)
        (calls out)
     /\ (forall res', ~ In (CallUpdateEvaluationJobStatus
                              jobID JobStatusFailed res') (calls out))
     /\ fst (value out) = Some job
     /\ (EvaluationJob.Status job = JobStatusCompleted
         \/ exists stored : EvaluationJob.t,
             In (CallGetEvaluationJob jobID (Row stored)) (calls out)
             /\ EvaluationJob.Status job = EvaluationJob.Status stored))
  /\ (forall e : string,
        snd (value out) = Some e ->
        Forall isJobStatement (calls out)
        /\ forall job : EvaluationJob.t,
            fst (value out) = Some job ->
            EvaluationJob.Status job = JobStatusFailed
            /\ exists res : ExecResult,
                In (CallUpdateEvaluationJobStatus
                      (EvaluationJob.ID job) JobStatusFailed res)
                   (calls out)).

(** ** Small deployments, for examples

    The outside world is a clock.  Test cases 1, 3 and 4 exist (with a
    ground truth, without one, with a blank one), vendors 1 to 4 exist, the
    remote services are unreachable. *)

Section Example.
Open Scope string_scope.
Open Scope Z_scope.

Definition exampleTestCase (id : Z) (groundTruth : NullString.t)
  : ASRTestCase.t := {|
  ASRTestCase.ID := id;
  ASRTestCase.Name := "case";
  ASRTestCase.LanguageCode :=
    {| NullString.String := "en-US"; NullString.Valid := true |};
  ASRTestCase.AudioFilePath := "audio.wav";
  ASRTestCase.GroundTruthText := groundTruth;
  ASRTestCase.Tags := EmptyString;
  ASRTestCase.Description := NullString.zero;
  ASRTestCase.CreatedAt := 0;
  ASRTestCase.UpdatedAt := 0 |}.

Definition exampleVendor (id : Z) (name : string) : VendorConfig.t := {|
  VendorConfig.ID := id;
  VendorConfig.Name := name;
  VendorConfig.APIType := "ASR";
  VendorConfig.APIKey := NullString.zero;
  VendorConfig.APISecret := NullString.zero;
  VendorConfig.APIEndpoint := NullString.zero;
  VendorConfig.SupportedModels := EmptyString;
  VendorConfig.OtherConfigs := EmptyString;
  VendorConfig.CreatedAt := 0;
  VendorConfig.UpdatedAt := 0 |}.

Definition exampleJob (id : Z) (status : string) : EvaluationJob.t := {|
  EvaluationJob.ID := id;
  EvaluationJob.JobName := NullString.zero;
  EvaluationJob.JobType := "ASR";
  EvaluationJob.Status := status;
  EvaluationJob.VendorConfigIDs := Some "[1]";
  EvaluationJob.TestCaseIDs := Some "[1]";
  EvaluationJob.Parameters := Some "null";
  EvaluationJob.CreatedAt := 0;
  EvaluationJob.UpdatedAt := 0;
  EvaluationJob.StartedAt := NullTime.zero;
  EvaluationJob.CompletedAt := NullTime.zero |}.

Definition exampleEnv (dbNil clientNil insertFails : bool) : Env Z := {|
  DB_nil := dbNil;
  globalObjectStoreClient_nil := clientNil;
  time_Now := fun w => w;
  time_Sleep := fun d w => w + d;
  SelectASRTestCase := fun id w =>
    (if id =? 1 then
       Row (exampleTestCase 1
              {| NullString.String := "hello world";
                 NullString.Valid := true |})
     else if id =? 3 then Row (exampleTestCase 3 NullString.zero)
     else if id =? 4 then
       Row (exampleTestCase 4
              {| NullString.String := " "; NullString.Valid := true |})
     else ErrNoRows, w);
  SelectVendorConfig := fun id w =>
    (if id =? 1 then Row (exampleVendor 1 "MockASR")
     else if id =? 2 then Row (exampleVendor 2 "MockASR-Error")
     else if id =? 3 then Row (exampleVendor 3 "GoogleCloudASR")
     else if id =? 4 then Row (exampleVendor 4 "AcmeSpeech")
     else ErrNoRows, w);
  SelectEvaluationJob := fun _ w => (ErrNoRows, w);
  RemoteRecognize := fun _ _ _ _ w =>
    ((EmptyString, EmptyString, Some "service unavailable"), w + 1);
  InsertASREvaluationResult := fun _ w =>
    if insertFails then (QueryError "connection reset", w)
    else (Row (w + 100), w + 1);
  InsertEvaluationJob := fun _ w => (Row 7, w + 1);
  ExecUpdateStatus := fun _ _ w => (RowsAffected 1, w + 1);
  ExecUpdateTimestamps := fun _ _ _ w => (RowsAffected 1, w + 1) |}.

(** The same deployment, except that the table of the vendors cannot be
    read when the clock shows 0. *)
Definition exampleFlakyEnv : Env Z := {|
  DB_nil := false;
  globalObjectStoreClient_nil := false;
  time_Now := time_Now (exampleEnv false false false);
  time_Sleep := time_Sleep (exampleEnv false false false);
  SelectASRTestCase := SelectASRTestCase (exampleEnv false false false);
  SelectVendorConfig := fun id w =>
    if w =? 0 then (QueryError "connection reset", w + 1)
    else SelectVendorConfig (exampleEnv false false false) id w;
  SelectEvaluationJob := SelectEvaluationJob (exampleEnv false false false);
  RemoteRecognize := RemoteRecognize (exampleEnv false false false);
  InsertASREvaluationResult :=
    InsertASREvaluationResult (exampleEnv false false false);
  InsertEvaluationJob := InsertEvaluationJob (exampleEnv false false false);
  ExecUpdateStatus := ExecUpdateStatus (exampleEnv false false false);
  ExecUpdateTimestamps := ExecUpdateTimestamps (exampleEnv false false false)
|}.

(** The same deployment, except that the update of a job to "COMPLETED"
    fails and that job 7 is read back with the status "RUNNING". *)
Definition exampleStuckEnv : Env Z := {|
  DB_nil := false;
  globalObjectStoreClient_nil := false;
  time_Now := time_Now (exampleEnv false false false);
  time_Sleep := time_Sleep (exampleEnv false false false);
  SelectASRTestCase := SelectASRTestCase (exampleEnv false false false);
  SelectVendorConfig := SelectVendorConfig (exampleEnv false false false);
  SelectEvaluationJob := fun id w =>
    (if id =? 7 then Row (exampleJob 7 "RUNNING") else ErrNoRows, w);
  RemoteRecognize := RemoteRecognize (exampleEnv false false false);
  InsertASREvaluationResult :=
    InsertASREvaluationResult (exampleEnv false false false);
  InsertEvaluationJob := InsertEvaluationJob (exampleEnv false false false);
  ExecUpdateStatus := fun _ status w =>
    if String.eqb status "COMPLETED"
    then (ExecError "connection reset", w)
    else (RowsAffected 1, w + 1);
  ExecUpdateTimestamps := ExecUpdateTimestamps (exampleEnv false false false)
|}.

End Example.

(** ** The rest of the adapter registry, the job handler *)

Section Registry.
Variable W : Type.
Open Scope string_scope.
Open Scope Z_scope.

(** [InitAdapterRegistry] stores the object store client that the real
    adapters share; [minioClient_nil] tells whether the pointer is nil. *)
Definition InitAdapterRegistry (minioClient_nil : bool) (env : Env W)
  : Env W := {|
  DB_nil := DB_nil env;
  globalObjectStoreClient_nil := minioClient_nil;
  time_Now := time_Now env;
  time_Sleep := time_Sleep env;
  SelectASRTestCase := SelectASRTestCase env;
  SelectVendorConfig := SelectVendorConfig env;
  SelectEvaluationJob := SelectEvaluationJob env;
  RemoteRecognize := RemoteRecognize env;
  InsertASREvaluationResult := InsertASREvaluationResult env;
  InsertEvaluationJob := InsertEvaluationJob env;
  ExecUpdateStatus := ExecUpdateStatus env;
  ExecUpdateTimestamps := ExecUpdateTimestamps env |}.

(** The names for which [GetASRAdapter] builds an adapter around the
    object store client. *)
Definition realAdapterNames : list string :=
  ["GoogleCloudASR"; "MicrosoftASR"; "DeepgramASR"; "TencentASR";
   "VolcengineASR"; "AlibabaASR"].

(** The payload of a request to create a job, once bound. *)
Record CreateASRJobRequest : Type := {
  req_JobName : string;
  req_TestCaseIDs : list Z;
  req_VendorConfigIDs : list Z;
  req_Parameters : RawMessage
}.

(** What a handler writes with [c.JSON]: the status code and the body. *)
Inductive Response : Type :=
| RespError (status : Z) (error_ : string)
| RespJobFailed (status : Z) (message : string) (job : EvaluationJob.t)
                (detail : string)
| RespJob (status : Z) (job : option EvaluationJob.t).

Definition StatusBadRequest : Z := 400.
Definition StatusCreated : Z := 201.
Definition StatusAccepted : Z := 202.
Definition StatusInternalServerError : Z := 500.

Definition Response_status (r : Response) : Z :=
  match r with
  | RespError status _ => status
  | RespJobFailed status _ _ _ => status
  | RespJob status _ => status
  end.

(** [CreateASRJobHandler].  [bound] is the outcome of
    [c.ShouldBindJSON(&req)], an error message or the request; [json_Valid]
    is [json.Valid]. *)
Definition CreateASRJobHandler (env : Env W) (json_Valid : string -> bool)
  (bound : string + CreateASRJobRequest) : M W Response :=
  match bound with
  | inl err =>
    ret (RespError StatusBadRequest ("Invalid request payload: " ++ err))
  | inr req =>
    let provided :=
      notNil (req_Parameters req) && (0 <? len_raw (req_Parameters req)) in
    if provided && negb (json_Valid (string_of_raw (req_Parameters req)))
    then ret (RespError StatusBadRequest
                        "parameters field contains invalid JSON")
    else
      let parameters :=
        if provided then req_Parameters req else Some "null" in
      let jobNameSQL := {|
        NullString.String := req_JobName req;
        NullString.Valid := negb (String.eqb (req_JobName req) EmptyString)
      |} in
      ' (job, err) <-
        CreateAndRunASRJob env jobNameSQL (req_TestCaseIDs req)
                           (req_VendorConfigIDs req) parameters ;;
      match err with
      | Some e =>
        match job with
        | Some j =>
          if String.eqb (EvaluationJob.Status j) JobStatusFailed
          then ret (RespJobFailed StatusAccepted
                      "Job initiated but failed during execution." j e)
          else ret (RespError StatusInternalServerError
                      ("Failed to create or run ASR job: " ++ e))
        | None =>
          ret (RespError StatusInternalServerError
                 ("Failed to create or run ASR job: " ++ e))
        end
      | None => ret (RespJob StatusCreated job)
      end
  end.

End Registry.

(** ** Vocabulary for the statements of a job *)

(** The row that [CreateAndRunASRJob] first inserts for a job. *)
Definition pendingJobRow (jobName : NullString.t)
  (testCaseIDs vendorConfigIDs : list Z) (params : RawMessage)
  (row : EvaluationJob.t) : Prop :=
  EvaluationJob.JobName row = jobName
  /\ EvaluationJob.JobType row = JobTypeASR
  /\ EvaluationJob.Status row = JobStatusPending
  /\ EvaluationJob.VendorConfigIDs row
     = fst (MarshalIntSliceToJSON vendorConfigIDs)
  /\ EvaluationJob.TestCaseIDs row = fst (MarshalIntSliceToJSON testCaseIDs)
  /\ EvaluationJob.Parameters row
     = (if notNil params && (0 <? len_raw params) then params
        else Some "null"%string).

(** The vendor is one of those whose adapter works on the object store. *)
Definition needsObjectStore (vendorConfig : VendorConfig.t) : bool :=
  existsb (String.eqb (VendorConfig.Name vendorConfig)) realAdapterNames.

(** [sql.NullTime{Time: t, Valid: true}]. *)
Definition validTime (t : Z) : NullTime.t :=
  {| NullTime.Time := t; NullTime.Valid := true |}.

(** The statements of a call of [CreateAndRunASRJob] that gives up before
    the evaluation: the job [id] is inserted, the update to RUNNING fails,
    or it goes through and the update of the start time fails; then come
    the update to FAILED and the completion time. *)
Definition failedJobTrace (row : EvaluationJob.t) (id : Z) (cs : list Call)
  : Prop :=
  (exists r1 r2 t r3,
      execSucceeded r1 = false
      /\ cs = [CallCreateEvaluationJob row (Row id);
               CallUpdateEvaluationJobStatus id JobStatusRunning r1;
               CallUpdateEvaluationJobStatus id JobStatusFailed r2;
               CallUpdateEvaluationJobTimestamps id NullTime.zero
                 (validTime t) r3])
  \/ (exists r1 t1 r2 r3 t2 r4,
         execSucceeded r1 = true /\ execSucceeded r2 = false
         /\ cs = [CallCreateEvaluationJob row (Row id);
                  CallUpdateEvaluationJobStatus id JobStatusRunning r1;
                  CallUpdateEvaluationJobTimestamps id (validTime t1)
                    NullTime.zero r2;
                  CallUpdateEvaluationJobStatus id JobStatusFailed r3;
                  CallUpdateEvaluationJobTimestamps id NullTime.zero
                    (validTime t2) r4]).

(** The queries and statements of a call of [CreateAndRunASRJob] that runs
    the evaluation: the job [id] is inserted, set to RUNNING and given its
    start time, both with success; then come the queries and statements of
    the run, the update to COMPLETED, the completion time and the query
    that reads the job back. *)
Definition completedJobTrace (W : Type) (env : Env W)
  (testCaseIDs vendorConfigIDs : list Z)
  (row : EvaluationJob.t) (id : Z) (cs : list Call) : Prop :=
  exists r1 t1 r2 w' r3 t2 r4 r5,
    execSucceeded r1 = true /\ execSucceeded r2 = true
    /\ cs = ([CallCreateEvaluationJob row (Row id);
              CallUpdateEvaluationJobStatus id JobStatusRunning r1;
              CallUpdateEvaluationJobTimestamps id (validTime t1)
                NullTime.zero r2]
             ++ calls (RunASREvaluation env id testCaseIDs vendorConfigIDs w')
             ++ [CallUpdateEvaluationJobStatus id JobStatusCompleted r3;
                 CallUpdateEvaluationJobTimestamps id NullTime.zero
                   (validTime t2) r4;
                 CallGetEvaluationJob id r5])%list.
(** * Properties *)

(** ** The edit distance *)

Lemma len_cons (A : Type) (a : A) (l : list A) : len (a :: l) = len l + 1.
Proof. unfold len. cbn [List.length]. lia. Qed.

Lemma len_nonneg (A : Type) (l : list A) : 0 <= len l.
Proof. unfold len. lia. Qed.

Lemma len_app (A : Type) (l1 l2 : list A) : len (l1 ++ l2) = len l1 + len l2.
Proof. unfold len. rewrite length_app. lia. Qed.

Lemma edits_cost (A : Type) (s t : list A) (n m : Z) :
  edits s t n -> n = m -> edits s t m.
Proof. intros H E. now subst. Qed.

Lemma edits_nonneg (A : Type) (s t : list A) (n : Z) : edits s t n -> 0 <= n.
Proof. induction 1; lia. Qed.

Lemma edits_refl (A : Type) (s : list A) : edits s s 0.
Proof. induction s; now constructor. Qed.

Lemma edits_app (A : Type) (s t s' t' : list A) (n m : Z) :
  edits s t n -> edits s' t' m -> edits (s ++ s') (t ++ t') (n + m).
Proof.
  intros H H'. induction H; cbn [app].
  - exact H'.
  - now apply edits_keep.
  - eapply edits_cost; [apply edits_sub, IHedits|lia].
  - eapply edits_cost; [apply edits_del, IHedits|lia].
  - eapply edits_cost; [apply edits_ins, IHedits|lia].
Qed.

Lemma edits_rev (A : Type) (s t : list A) (n : Z) :
  edits s t n -> edits (rev s) (rev t) n.
Proof.
  induction 1; cbn [rev].
  - constructor.
  - eapply edits_cost; [apply (edits_app IHedits (edits_refl [a]))|lia].
  - eapply edits_cost;
      [apply (edits_app IHedits (edits_sub a b (edits_nil A)))|lia].
  - rewrite <- (app_nil_r (rev t)).
    eapply edits_cost;
      [apply (edits_app IHedits (edits_del a (edits_nil A)))|lia].
  - rewrite <- (app_nil_r (rev s)).
    eapply edits_cost;
      [apply (edits_app IHedits (edits_ins b (edits_nil A)))|lia].
Qed.

Section LevFacts.
Variable A : Type.
Variable eqb : A -> A -> bool.
Hypothesis eqb_eq : forall a b, eqb a b = true <-> a = b.

Lemma lev_nil_r (s : list A) : lev eqb s [] = len s.
Proof. now destruct s. Qed.

Lemma lev_cons_cons (a b : A) (s t : list A) :
  lev eqb (a :: s) (b :: t) =
  Z.min (lev eqb s (b :: t) + 1)
        (Z.min (if eqb a b then lev eqb s t else lev eqb s t + 1)
               (lev eqb (a :: s) t + 1)).
Proof. reflexivity. Qed.

Lemma edits_nil_l (t : list A) : edits [] t (len t).
Proof.
  induction t as [|b t IH]; [constructor|].
  rewrite len_cons. now constructor.
Qed.

Lemma edits_nil_r (s : list A) : edits s [] (len s).
Proof.
  induction s as [|a s IH]; [constructor|].
  rewrite len_cons. now constructor.
Qed.

Lemma lev_edits (s t : list A) : edits s t (lev eqb s t).
Proof.
  revert t. induction s as [|a s IHs]; intro t.
  - apply edits_nil_l.
  - induction t as [|b t IHt].
    + rewrite lev_nil_r. apply edits_nil_r.
    + rewrite lev_cons_cons.
      apply Z.min_case; [now constructor|].
      apply Z.min_case; [|now constructor].
      destruct (eqb a b) eqn:E.
      * apply eqb_eq in E. subst b. now constructor.
      * now constructor.
Qed.

Lemma lev_le (s t : list A) (n : Z) : edits s t n -> lev eqb s t <= n.
Proof.
  induction 1.
  - cbn. reflexivity.
  - rewrite lev_cons_cons.
    assert (E : eqb a a = true) by now apply eqb_eq. rewrite E. lia.
  - rewrite lev_cons_cons. destruct (eqb a b); lia.
  - destruct t as [|b t].
    + rewrite lev_nil_r in *. rewrite len_cons. lia.
    + rewrite lev_cons_cons. lia.
  - destruct s as [|a s].
    + cbn [lev] in *. rewrite len_cons. lia.
    + rewrite lev_cons_cons. lia.
Qed.

Lemma lev_Levenshtein (s t : list A) : Levenshtein s t (lev eqb s t).
Proof. split; [apply lev_edits|apply lev_le]. Qed.

Lemma Levenshtein_unique (s t : list A) (d d' : Z) :
  Levenshtein s t d -> Levenshtein s t d' -> d = d'.
Proof.
  intros [H1 H2] [H1' H2']. apply H2 in H1'. apply H2' in H1. lia.
Qed.

Lemma lev_rev (s t : list A) : lev eqb (rev s) (rev t) = lev eqb s t.
Proof.
  apply Z.le_antisymm.
  - apply lev_le, edits_rev, lev_edits.
  - rewrite <- (rev_involutive s), <- (rev_involutive t) at 1.
    apply lev_le, edits_rev, lev_edits.
Qed.

Lemma lev_refl (s : list A) : lev eqb s s = 0.
Proof.
  apply Z.le_antisymm.
  - apply lev_le, edits_refl.
  - apply (edits_nonneg (lev_edits s s)).
Qed.

End LevFacts.

(** ** The dynamic program computes the edit distance *)

Lemma nth_pred_length_last (A : Type) (l : list A) (d : A) :
  nth (List.length l - 1) l d = last l d.
Proof.
  induction l as [|a l IH]; [reflexivity|].
  destruct l as [|b l]; [reflexivity|].
  cbn [List.length] in *.
  replace (S (S (List.length l)) - 1)%nat
    with (S (S (List.length l) - 1)) by lia.
  change (nth (S ?n) (a :: ?l') d) with (nth n l' d).
  rewrite IH. reflexivity.
Qed.

Lemma last_cons_default (A : Type) (a d : A) (l : list A) :
  last (a :: l) d = last l a.
Proof.
  revert a d. induction l as [|b l IH]; intros a d; [reflexivity|].
  change (last (a :: b :: l) d) with (last (b :: l) d).
  now rewrite (IH b d), (IH b a).
Qed.

Section MatrixFacts.
Variable A : Type.
Variable eqb : A -> A -> bool.
Hypothesis eqb_eq : forall a b, eqb a b = true <-> a = b.

Let op : levenshtein.Options A := {|
  levenshtein.InsCost := 1;
  levenshtein.DelCost := 1;
  levenshtein.SubCost := 1;
  levenshtein.Matches := eqb |}.

Lemma rowD_head (p q rest : list A) :
  rowD eqb p q rest = lev eqb (rev p) (rev q) :: tl (rowD eqb p q rest).
Proof. now destruct rest. Qed.

Lemma rowD_length (p q rest : list A) :
  List.length (rowD eqb p q rest) = S (List.length rest).
Proof.
  revert q. induction rest as [|b rest IH]; intro q; [reflexivity|].
  cbn [rowD List.length]. now rewrite IH.
Qed.

Lemma rowD_last (p q rest : list A) (d : Z) :
  last (rowD eqb p q rest) d = lev eqb (rev p) (rev (q ++ rest)).
Proof.
  revert q d. induction rest as [|b rest IH]; intros q d.
  - now rewrite app_nil_r.
  - cbn [rowD]. rewrite last_cons_default, IH, <- app_assoc. reflexivity.
Qed.

Lemma firstRow_rowD (q rest : list A) :
  levenshtein.firstRow op (len q) rest = rowD eqb [] q rest.
Proof.
  revert q. induction rest as [|b rest IH]; intro q;
    cbn [levenshtein.firstRow rowD rev lev levenshtein.InsCost op].
  - unfold len. rewrite length_rev. f_equal. lia.
  - rewrite <- IH, len_app. unfold len at 3. rewrite length_rev.
    f_equal. unfold len. lia.
Qed.

Lemma fillRow_rowD (a : A) (p q rest : list A) :
  levenshtein.fillRow op a rest (rowD eqb p q rest)
                      (lev eqb (rev (p ++ [a])) (rev q))
  = tl (rowD eqb (p ++ [a]) q rest).
Proof.
  revert q. induction rest as [|b rest IH]; intro q; [reflexivity|].
  cbn [rowD tl]. rewrite (rowD_head p (q ++ [b]) rest).
  cbn [levenshtein.fillRow levenshtein.InsCost levenshtein.DelCost
       levenshtein.SubCost levenshtein.Matches op].
  rewrite <- rowD_head.
  assert (E : Z.min (lev eqb (rev p) (rev (q ++ [b])) + 1)
                (Z.min (if eqb a b then lev eqb (rev p) (rev q)
                        else lev eqb (rev p) (rev q) + 1)
                       (lev eqb (rev (p ++ [a])) (rev q) + 1))
              = lev eqb (rev (p ++ [a])) (rev (q ++ [b]))).
  { rewrite !rev_unit. now rewrite lev_cons_cons. }
  rewrite E, IH. symmetry. apply rowD_head.
Qed.

Lemma nextRow_rowD (a : A) (p target : list A) :
  levenshtein.nextRow op (len p + 1) a target (rowD eqb p [] target)
  = rowD eqb (p ++ [a]) [] target.
Proof.
  unfold levenshtein.nextRow. cbn [levenshtein.DelCost op].
  assert (E : (len p + 1) * 1 = lev eqb (rev (p ++ [a])) (rev [])).
  { rewrite rev_unit. cbn [rev]. rewrite lev_nil_r, len_cons.
    unfold len. rewrite length_rev. lia. }
  rewrite E, fillRow_rowD. symmetry. apply rowD_head.
Qed.

Lemma rows_last (source p target : list A) :
  last (rowD eqb p [] target
        :: levenshtein.rows op (len p + 1) source target (rowD eqb p [] target))
       []
  = rowD eqb (p ++ source) [] target.
Proof.
  revert p. induction source as [|a source IH]; intro p.
  - now rewrite app_nil_r.
  - cbn [levenshtein.rows]. rewrite nextRow_rowD.
    replace (len p + 1 + 1) with (len (p ++ [a]) + 1)
      by (rewrite len_app; reflexivity).
    change (last (?r :: ?r' :: ?l) []) with (last (r' :: l) []).
    rewrite IH, <- app_assoc. reflexivity.
Qed.

(** The bottom-right cell of the matrix is the textbook distance. *)
Lemma DistanceForMatrix_lev (source target : list A) :
  levenshtein.DistanceForMatrix op source target = lev eqb source target.
Proof.
  unfold levenshtein.DistanceForMatrix, levenshtein.MatrixForStrings.
  rewrite nth_pred_length_last.
  change (levenshtein.firstRow op 0 target)
    with (levenshtein.firstRow op (len (@nil A)) target).
  rewrite firstRow_rowD.
  change 1 with (len (@nil A) + 1) at 1.
  rewrite rows_last. cbn [nth app].
  rewrite rowD_length.
  replace (S (List.length target) - 1)%nat
    with (List.length (rowD eqb source [] target) - 1)%nat
    by (rewrite rowD_length; reflexivity).
  rewrite nth_pred_length_last, rowD_last. cbn [app].
  now apply lev_rev.
Qed.

(** The distance returned by the package is the cost of a cheapest edit
    script. *)
Lemma DistanceForMatrix_Levenshtein (source target : list A) :
  Levenshtein source target (levenshtein.DistanceForMatrix op source target).
Proof. rewrite DistanceForMatrix_lev. now apply lev_Levenshtein. Qed.

End MatrixFacts.

(** ** Tokenization *)

Unset Implicit Arguments.

Lemma append_assoc' (a b c : string) : ((a ++ b) ++ c = a ++ (b ++ c))%string.
Proof. induction a; cbn; congruence. Qed.

Lemma append_empty_r (a : string) : (a ++ EmptyString)%string = a.
Proof. induction a; cbn; congruence. Qed.

Lemma splitOn_cons (isSep : Z -> bool) (cs : list (Z * string)) :
  exists tok toks, splitOn isSep cs = tok :: toks.
Proof.
  induction cs as [|[r b] cs IH]; cbn; [eauto|].
  destruct (isSep r); [eauto|]. destruct IH as (tok & toks & ->). eauto.
Qed.

(** Splitting with an accumulator agrees with splitting and discarding the
    empty tokens. *)
Lemma splitWords_splitOn
  (isSep : Z -> bool) (cs : list (Z * string)) (cur : string) :
  splitWords isSep cs cur
  = filter nonEmpty
      (match splitOn isSep cs with
       | tok :: toks => (cur ++ tok)%string :: toks
       | [] => [cur]
       end).
Proof.
  revert cur. induction cs as [|[r b] cs IH]; intro cur.
  - cbn. rewrite append_empty_r. reflexivity.
  - cbn [splitWords splitOn]. destruct (isSep r).
    + rewrite append_empty_r. cbn [filter]. rewrite IH.
      destruct (splitOn_cons isSep cs) as (tok & toks & ->). cbn [append].
      destruct (nonEmpty cur); reflexivity.
    + rewrite IH. destruct (splitOn_cons isSep cs) as (tok & toks & ->).
      now rewrite append_assoc'.
Qed.

Lemma splitWords_words (s : string) :
  splitWords unicode.IsSpace (chunks s) EmptyString = words s.
Proof.
  rewrite splitWords_splitOn. unfold words.
  destruct (splitOn_cons unicode.IsSpace (chunks s)) as (tok & toks & ->).
  reflexivity.
Qed.

Lemma length_append' (a b : string) :
  String.length (a ++ b) = (String.length a + String.length b)%nat.
Proof. induction a; cbn; congruence. Qed.

Lemma substring_take_drop (n m : nat) (s : string) :
  String.substring n m s = take m (drop n s).
Proof.
  revert n m. induction s as [|c s IH]; intros [|n] [|m]; cbn; try reflexivity.
  - now rewrite IH.
  - apply IH.
  - apply IH.
Qed.

Lemma take_drop_eq (n : nat) (s : string) : (take n s ++ drop n s)%string = s.
Proof.
  revert s. induction n as [|n IH]; intros [|c s]; cbn; try reflexivity.
  now rewrite IH.
Qed.

Lemma length_take (n : nat) (s : string) :
  (n <= String.length s)%nat -> String.length (take n s) = n.
Proof.
  revert s. induction n as [|n IH]; intros [|c s] H; cbn in *; try lia.
  rewrite IH; lia.
Qed.

Lemma length_drop (n : nat) (s : string) :
  String.length (drop n s) = (String.length s - n)%nat.
Proof.
  revert s. induction n as [|n IH]; intros [|c s]; cbn; try lia. apply IH.
Qed.

Lemma drop_append (a : nat) (pre b : string) :
  (a <= String.length pre)%nat ->
  drop a (pre ++ b) = (drop a pre ++ b)%string.
Proof.
  revert pre. induction a as [|a IH]; intros [|c pre] H; cbn in *;
    try reflexivity; try lia.
  apply IH. lia.
Qed.

Lemma take_all_append (pre suf : string) :
  take (String.length pre) (pre ++ suf) = pre.
Proof. induction pre; cbn; [now destruct suf|congruence]. Qed.

Lemma drop_nonEmpty (a : nat) (pre : string) :
  (a < String.length pre)%nat -> nonEmpty (drop a pre) = true.
Proof.
  intro H. pose proof (length_drop a pre) as L.
  destruct (drop a pre); [cbn in L; lia|reflexivity].
Qed.

Lemma slice_prefix (pre suf : string) (start : Z) :
  0 <= start -> (Z.to_nat start <= String.length pre)%nat ->
  slice (pre ++ suf) start (len_string pre) = drop (Z.to_nat start) pre.
Proof.
  intros H0 H. unfold slice, len_string. rewrite substring_take_drop.
  rewrite drop_append by exact H.
  replace (Z.to_nat (Z.of_nat (String.length pre) - start))
    with (String.length (drop (Z.to_nat start) pre))
    by (rewrite length_drop; lia).
  apply take_all_append.
Qed.

(** A rune of a non-empty string takes between one byte and all of them. *)
Lemma DecodeRuneInString_width (s : string) :
  s <> EmptyString ->
  (1 <= snd (utf8.DecodeRuneInString s) <= String.length s)%nat.
Proof.
  destruct s as [|c s]; [congruence|]. intros _.
  unfold utf8.DecodeRuneInString.
  set (n := String.length (String c s)).
  assert (Hn : (1 <= n)%nat) by (subst n; cbn; lia).
  clearbody n. cbv zeta. set (b := byteZ c). clearbody b.
  unfold utf8.first.
  repeat match goal with
         | |- context [if (b <? ?k) then _ else _] => destruct (b <? k)
         | |- context [if (b =? ?k) then _ else _] => destruct (b =? k)
         end;
    repeat match goal with
           | |- context [Z.to_nat (Z.land ?x 7)] =>
             let v := eval vm_compute in (Z.to_nat (Z.land x 7)) in
             change (Z.to_nat (Z.land x 7)) with v
           | |- context [utf8.as_ <=? ?x] =>
             let v := eval vm_compute in (utf8.as_ <=? x) in
             change (utf8.as_ <=? x) with v
           end;
    cbv iota;
    repeat match goal with
           | |- context [(n <? ?k)%nat] => destruct (Nat.ltb_spec n k)
           | |- context [if ?x || ?y then _ else _] => destruct (x || y)
           end; cbn [snd Nat.leb]; lia.
Qed.

Lemma rangeString_from_skip (k : nat) (i : Z) (t : string) :
  (k <= String.length t)%nat ->
  rangeString_from k i t = rangeString_from 0 (i + Z.of_nat k) (drop k t).
Proof.
  revert i t. induction k as [|k IH]; intros i t H.
  - cbn [drop]. replace (i + Z.of_nat 0) with i by lia.
    now destruct t.
  - destruct t as [|c t]; [cbn in H; lia|].
    cbn [rangeString_from drop]. rewrite IH by (cbn in H; lia).
    f_equal. lia.
Qed.

Lemma chunks_from_skip (k : nat) (t : string) :
  (k <= String.length t)%nat ->
  chunks_from k t = chunks_from 0 (drop k t).
Proof.
  revert t. induction k as [|k IH]; intros t H.
  - now destruct t.
  - destruct t as [|c t]; [cbn in H; lia|].
    cbn [chunks_from drop]. apply IH. cbn in H. lia.
Qed.

Lemma rangeString_from_step (i : Z) (s : string) :
  s <> EmptyString ->
  rangeString_from 0 i s
  = (i, fst (utf8.DecodeRuneInString s))
    :: rangeString_from 0 (i + Z.of_nat (snd (utf8.DecodeRuneInString s)))
                        (drop (snd (utf8.DecodeRuneInString s)) s).
Proof.
  intro H. pose proof (DecodeRuneInString_width s H) as Hw.
  destruct s as [|c t]; [congruence|].
  cbn [rangeString_from].
  destruct (utf8.DecodeRuneInString (String c t)) as [r sz].
  cbn [fst snd] in *. f_equal.
  rewrite rangeString_from_skip by (cbn in Hw; lia).
  destruct sz as [|sz]; [lia|].
  cbn [drop]. replace (S sz - 1)%nat with sz by lia. f_equal. lia.
Qed.

Lemma chunks_from_step (s : string) :
  s <> EmptyString ->
  chunks_from 0 s
  = (fst (utf8.DecodeRuneInString s),
     take (snd (utf8.DecodeRuneInString s)) s)
    :: chunks_from 0 (drop (snd (utf8.DecodeRuneInString s)) s).
Proof.
  intro H. pose proof (DecodeRuneInString_width s H) as Hw.
  destruct s as [|c t]; [congruence|].
  cbn [chunks_from].
  destruct (utf8.DecodeRuneInString (String c t)) as [r sz].
  cbn [fst snd] in *. f_equal.
  rewrite chunks_from_skip by (cbn in Hw; lia).
  destruct sz as [|sz]; [lia|].
  cbn [drop]. now replace (S sz - 1)%nat with sz by lia.
Qed.

(** The loop of [FieldsFunc], resumed at a rune boundary after the prefix
    [pre], yields the fields found so far followed by the words of the
    rest, the field under way being the current token. *)
Lemma FieldsFunc_loop_words (f : Z -> bool) (n : nat) :
  forall (suf s pre : string) (start : Z) (spans : list (Z * Z)),
    (String.length suf <= n)%nat ->
    s = (pre ++ suf)%string ->
    (start < 0 \/ (0 <= start /\ (Z.to_nat start < String.length pre)%nat)) ->
    closeFields s (strings.FieldsFunc_loop f
                     (rangeString_from 0 (len_string pre) suf) start spans)
    = map (fun sp => slice s (fst sp) (snd sp)) (rev spans)
      ++ splitWords f (chunks_from 0 suf)
           (if start <? 0 then EmptyString else drop (Z.to_nat start) pre).
Proof.
  induction n as [|n IH]; intros suf s pre start spans Hn Hs Hst.
  - destruct suf; [|cbn in Hn; lia].
    rewrite append_empty_r in Hs. subst s.
    cbn [rangeString_from strings.FieldsFunc_loop closeFields chunks_from
         splitWords].
    destruct Hst as [Hst|[Hst Hlt]].
    + destruct (Z.leb_spec 0 start); [lia|].
      destruct (Z.ltb_spec start 0); [|lia]. cbn. now rewrite app_nil_r.
    + destruct (Z.leb_spec 0 start); [|lia].
      destruct (Z.ltb_spec start 0); [lia|].
      rewrite (drop_nonEmpty _ _ Hlt). cbn [rev map fst snd].
      rewrite map_app. cbn [map fst snd]. f_equal. f_equal.
      rewrite <- (append_empty_r pre) at 1.
      apply slice_prefix; lia.
  - destruct suf as [|c t] eqn:Esuf.
    { apply (IH EmptyString s pre start spans); cbn; auto; lia. }
    rewrite <- Esuf in *.
    assert (Hne : suf <> EmptyString) by (rewrite Esuf; discriminate).
    pose proof (DecodeRuneInString_width suf Hne) as Hw.
    rewrite (rangeString_from_step _ suf Hne), (chunks_from_step suf Hne).
    set (r := fst (utf8.DecodeRuneInString suf)) in *.
    set (sz := snd (utf8.DecodeRuneInString suf)) in *.
    assert (Hlen : len_string pre + Z.of_nat sz
                   = len_string (pre ++ take sz suf)).
    { unfold len_string. rewrite length_append', length_take; lia. }
    assert (Hs' : s = ((pre ++ take sz suf) ++ drop sz suf)%string).
    { now rewrite append_assoc', take_drop_eq. }
    assert (Hn' : (String.length (drop sz suf) <= n)%nat).
    { rewrite length_drop. lia. }
    rewrite Hlen.
    cbn [strings.FieldsFunc_loop splitWords].
    destruct (f r).
    + destruct Hst as [Hst|[Hst Hlt]].
      * destruct (Z.leb_spec 0 start); [lia|].
        destruct (Z.ltb_spec start 0); [|lia]. cbn [nonEmpty String.eqb negb].
        rewrite (IH _ s _ start spans Hn' Hs') by (left; lia).
        destruct (Z.ltb_spec start 0); [|lia]. reflexivity.
      * destruct (Z.leb_spec 0 start); [|lia].
        destruct (Z.ltb_spec start 0); [lia|].
        rewrite (drop_nonEmpty _ _ Hlt).
        rewrite (IH _ s _ (Z.lnot start) ((start, len_string pre) :: spans)
                    Hn' Hs')
          by (left; unfold Z.lnot; lia).
        destruct (Z.ltb_spec (Z.lnot start) 0); [|unfold Z.lnot in *; lia].
        cbn [rev]. rewrite map_app, <- app_assoc. cbn [map app fst snd].
        f_equal. f_equal. subst s. apply slice_prefix; lia.
    + assert (Hszl : String.length (take sz suf) = sz)
        by (apply length_take; lia).
      destruct Hst as [Hst|[Hst Hlt]].
      * destruct (Z.ltb_spec start 0); [|lia].
        rewrite (IH _ s _ (len_string pre) spans Hn' Hs').
        2:{ right. split; [unfold len_string; lia|].
            unfold len_string. rewrite length_append', Hszl. lia. }
        destruct (Z.ltb_spec (len_string pre) 0);
          [unfold len_string in *; lia|].
        f_equal. f_equal. cbn [append]. unfold len_string.
        rewrite Nat2Z.id, drop_append by lia.
        replace (drop (String.length pre) pre) with EmptyString; [reflexivity|].
        pose proof (length_drop (String.length pre) pre) as L.
        destruct (drop (String.length pre) pre); [reflexivity|cbn in L; lia].
      * destruct (Z.ltb_spec start 0); [lia|].
        rewrite (IH _ s _ start spans Hn' Hs').
        2:{ right. split; [lia|]. rewrite length_append'. lia. }
        destruct (Z.ltb_spec start 0); [lia|].
        f_equal. f_equal. apply drop_append. lia.
Qed.

(** [strings.Fields] computes the words of the specification. *)
Lemma Fields_words (s : string) : strings.Fields s = words s.
Proof.
  rewrite <- splitWords_words. unfold strings.Fields, strings.FieldsFunc.
  pose proof (FieldsFunc_loop_words unicode.IsSpace (String.length s)
                s s EmptyString (-1) [] (le_n _) eq_refl
                (or_introl eq_refl)) as H.
  unfold closeFields in H. cbn [rev map app] in H.
  exact H.
Qed.

Set Implicit Arguments.

(** ** The metrics *)

Lemma runes_nonempty (s : string) : s <> EmptyString -> runes s <> [].
Proof.
  destruct s as [|c s]; [congruence|]. intros _.
  unfold runes, rangeString. cbn [rangeString_from].
  destruct (utf8.DecodeRuneInString (String c s)). discriminate.
Qed.

Lemma len_pos (A : Type) (l : list A) : l <> [] -> 0 < len l.
Proof.
  destruct l; [congruence|]. intros _. rewrite len_cons.
  pose proof (len_nonneg l). lia.
Qed.

Lemma eqb_empty_false (s : string) :
  s <> EmptyString -> String.eqb s EmptyString = false.
Proof. intro H. now apply String.eqb_neq. Qed.

Lemma Fields_empty : strings.Fields EmptyString = [].
Proof. reflexivity. Qed.

Lemma Fields_nonempty_string (s : string) :
  strings.Fields s <> [] -> s <> EmptyString.
Proof. intros H E. subst s. now apply H. Qed.

(** The value that [CalculateCER] returns for a non-empty reference. *)
Lemma CalculateCER_nonempty (groundTruth recognizedText : string) :
  groundTruth <> EmptyString ->
  CalculateCER groundTruth recognizedText =
  ((float64 (lev Z.eqb (runes groundTruth) (runes recognizedText))
    / float64 (len (runes groundTruth)))%Q, None).
Proof.
  intro H. unfold CalculateCER.
  rewrite (eqb_empty_false H). cbn [andb].
  pose proof (len_pos (runes_nonempty H)) as Hn.
  destruct (Z.eqb_spec (len (runes groundTruth)) 0) as [E|_]; [lia|].
  now rewrite (DistanceForMatrix_lev Z.eqb Z.eqb_eq).
Qed.

(** The value that [CalculateWER] returns for a reference with a word. *)
Lemma CalculateWER_words (groundTruth recognizedText : string) :
  strings.Fields groundTruth <> [] ->
  CalculateWER groundTruth recognizedText =
  ((float64 (lev String.eqb (strings.Fields groundTruth)
                 (strings.Fields recognizedText))
    / float64 (len (strings.Fields groundTruth)))%Q, None).
Proof.
  intro H. unfold CalculateWER.
  rewrite (eqb_empty_false (Fields_nonempty_string H)). cbn [andb].
  pose proof (len_pos H) as Hn.
  destruct (Z.eqb_spec (len (strings.Fields groundTruth)) 0) as [E|_]; [lia|].
  now rewrite (DistanceForMatrix_lev String.eqb String.eqb_eq).
Qed.

(** A reference made of white space only has no word. *)
Lemma FieldsFunc_loop_all (f : Z -> bool) (rs : list (Z * Z)) :
  Forall (fun r => f r = true) (map snd rs) ->
  strings.FieldsFunc_loop f rs (-1) [] = (-1, []).
Proof.
  induction rs as [|[i r] rs IH]; intro H; [reflexivity|].
  inversion H as [|? ? Hr Hrs]; subst. cbn [strings.FieldsFunc_loop].
  cbn [snd] in Hr. rewrite Hr. cbn. now apply IH.
Qed.

Lemma Fields_white_space (s : string) :
  Forall (fun r => unicode.IsSpace r = true) (runes s) ->
  strings.Fields s = [].
Proof.
  intro H. unfold strings.Fields, strings.FieldsFunc.
  now rewrite (FieldsFunc_loop_all _ _ H).
Qed.

(** C1. For a reference with at least one token, [CalculateCER] returns,
    with a nil error, the unit-cost Levenshtein distance between the code
    point sequences of reference and hypothesis divided by the number of
    code points of the reference, and [CalculateWER] returns the same over
    the white-space-delimited words, divided by the number of words of the
    reference.  The value is not clamped: one word against six gives 5, and
    "the cat sat" against "the hat sat" gives 1/3 for WER and 1/11 for
    CER. *)
Theorem CalculateCER_CalculateWER_error_rate :
  (forall groundTruth recognizedText : string,
      groundTruth <> EmptyString ->
      exists d : Z,
        Levenshtein (runes groundTruth) (runes recognizedText) d
        /\ 0 < len (runes groundTruth)
        /\ CalculateCER groundTruth recognizedText
           = ((float64 d / float64 (len (runes groundTruth)))%Q, None))
  /\ (forall groundTruth recognizedText : string,
      words groundTruth <> [] ->
      exists d : Z,
        Levenshtein (words groundTruth) (words recognizedText) d
        /\ 0 < len (words groundTruth)
        /\ CalculateWER groundTruth recognizedText
           = ((float64 d / float64 (len (words groundTruth)))%Q, None))
  /\ CalculateWER "a" "a a a a a a" = (5%Q, None)
  /\ CalculateWER "the cat sat" "the hat sat" = ((1 # 3)%Q, None)
  /\ CalculateCER "the cat sat" "the hat sat" = ((1 # 11)%Q, None).
Proof.
  split; [|split; [|repeat split; reflexivity]].
  - intros gt rec H.
    exists (lev Z.eqb (runes gt) (runes rec)). split; [|split].
    + apply lev_Levenshtein, Z.eqb_eq.
    + apply len_pos, runes_nonempty, H.
    + now apply CalculateCER_nonempty.
  - intros gt rec H. rewrite <- !Fields_words in *.
    exists (lev String.eqb (strings.Fields gt) (strings.Fields rec)).
    split; [|split].
    + apply lev_Levenshtein, String.eqb_eq.
    + now apply len_pos.
    + now apply CalculateWER_words.
Qed.

Lemma CalculateCER_CalculateWER_error_rate_witness :
  "kitten"%string <> EmptyString
  /\ words "the cat sat" <> []
  /\ (exists d : Z,
        Levenshtein (runes "kitten") (runes "sitting") d
        /\ 0 < len (runes "kitten")
        /\ CalculateCER "kitten" "sitting"
           = ((float64 d / float64 (len (runes "kitten")))%Q, None))
  /\ (exists d : Z,
        Levenshtein (words "the cat sat") (words "the hat") d
        /\ 0 < len (words "the cat sat")
        /\ CalculateWER "the cat sat" "the hat"
           = ((float64 d / float64 (len (words "the cat sat")))%Q, None)).
Proof.
  split; [discriminate|]. split; [vm_compute; discriminate|]. split.
  - apply (proj1 CalculateCER_CalculateWER_error_rate). discriminate.
  - apply (proj1 (proj2 CalculateCER_CalculateWER_error_rate)).
    vm_compute. discriminate.
Defined.

(** C4. For both metrics: two empty strings give exactly (0.0, nil); an
    empty reference with a non-empty hypothesis gives a non-nil error
    accompanied by the value 1.0. *)
Theorem Calculate_empty_reference :
  CalculateCER EmptyString EmptyString = (0%Q, None)
  /\ CalculateWER EmptyString EmptyString = (0%Q, None)
  /\ forall recognizedText : string,
      recognizedText <> EmptyString ->
      (exists msg : string,
          CalculateCER EmptyString recognizedText = (1%Q, Some msg))
      /\ (exists msg : string,
          CalculateWER EmptyString recognizedText = (1%Q, Some msg)).
Proof.
  split; [reflexivity|]. split; [reflexivity|].
  intros rec H. unfold CalculateCER, CalculateWER.
  cbn [String.eqb andb]. rewrite (eqb_empty_false H).
  split; eexists; reflexivity.
Qed.

Lemma Calculate_empty_reference_witness :
  "x"%string <> EmptyString
  /\ (exists msg : string, CalculateCER EmptyString "x" = (1%Q, Some msg))
  /\ (exists msg : string, CalculateWER EmptyString "x" = (1%Q, Some msg)).
Proof.
  split; [discriminate|].
  apply (proj2 (proj2 Calculate_empty_reference)). discriminate.
Defined.

Lemma float64_quotient_zero (n : Z) : (float64 0 / float64 n == 0)%Q.
Proof. unfold Qdiv, float64. apply Qmult_0_l. Qed.

(** C9. For every non-empty string [s], [CalculateCER s s] and
    [CalculateWER s s] return the value 0.0 with a nil error. *)
Theorem Calculate_identity (s : string) :
  s <> EmptyString ->
  (fst (CalculateCER s s) == 0)%Q /\ snd (CalculateCER s s) = None
  /\ (fst (CalculateWER s s) == 0)%Q /\ snd (CalculateWER s s) = None.
Proof.
  intro H. rewrite (CalculateCER_nonempty s H).
  rewrite (lev_refl Z.eqb Z.eqb_eq). cbn [fst snd].
  split; [apply float64_quotient_zero|]. split; [reflexivity|].
  destruct (strings.Fields s) as [|w ws] eqn:E.
  - unfold CalculateWER. rewrite (eqb_empty_false H), E. cbn.
    split; reflexivity.
  - assert (Hw : strings.Fields s <> []) by (rewrite E; discriminate).
    rewrite (@CalculateWER_words s s Hw).
    rewrite (lev_refl String.eqb String.eqb_eq). cbn [fst snd].
    split; [apply float64_quotient_zero|reflexivity].
Qed.

Lemma Calculate_identity_witness :
  "hello world"%string <> EmptyString
  /\ (fst (CalculateCER "hello world" "hello world") == 0)%Q
  /\ snd (CalculateCER "hello world" "hello world") = None
  /\ (fst (CalculateWER "hello world" "hello world") == 0)%Q
  /\ snd (CalculateWER "hello world" "hello world") = None.
Proof.
  split; [discriminate|]. apply Calculate_identity. discriminate.
Defined.

(** C10. For a ground truth that is not the empty string but consists of
    white space only, so that it has no word, [CalculateWER] returns
    (1.0, non-nil error) when the recognized text has a word and
    (0.0, nil) when the recognized text has no word either. *)
Theorem CalculateWER_white_space_reference
  (groundTruth recognizedText : string) :
  groundTruth <> EmptyString ->
  Forall (fun r => unicode.IsSpace r = true) (runes groundTruth) ->
  strings.Fields groundTruth = []
  /\ (strings.Fields recognizedText <> [] ->
      exists msg : string,
        CalculateWER groundTruth recognizedText = (1%Q, Some msg))
  /\ (strings.Fields recognizedText = [] ->
      CalculateWER groundTruth recognizedText = (0%Q, None)).
Proof.
  intros H Hs. pose proof (Fields_white_space _ Hs) as E.
  split; [exact E|]. unfold CalculateWER.
  rewrite (eqb_empty_false H), E. cbn [andb len List.length Z.of_nat Z.eqb].
  split.
  - intro Hr. pose proof (len_pos Hr) as Hn.
    destruct (Z.eqb_spec (len (strings.Fields recognizedText)) 0); [lia|].
    eexists; reflexivity.
  - intro Hr. rewrite Hr. reflexivity.
Qed.

Lemma CalculateWER_white_space_reference_witness :
  "  "%string <> EmptyString
  /\ Forall (fun r => unicode.IsSpace r = true) (runes "  ")
  /\ strings.Fields "hello there" <> []
  /\ (exists msg : string, CalculateWER "  " "hello there" = (1%Q, Some msg))
  /\ strings.Fields " " = []
  /\ CalculateWER "  " " " = (0%Q, None).
Proof.
  assert (H : "  "%string <> EmptyString) by discriminate.
  assert (Hs : Forall (fun r => unicode.IsSpace r = true) (runes "  "))
    by (repeat constructor).
  split; [exact H|]. split; [exact Hs|].
  split; [vm_compute; discriminate|]. split.
  - apply (proj1 (proj2 (CalculateWER_white_space_reference
                           "hello there" H Hs))).
    vm_compute. discriminate.
  - split; [reflexivity|].
    apply (proj2 (proj2 (CalculateWER_white_space_reference " " H Hs))).
    reflexivity.
Defined.

(** ** The evaluation runner *)

Unset Implicit Arguments.

Lemma calls_bind (W A B : Type) (c : M W A) (k : A -> M W B) (w : W) :
  calls (bind c k w)
  = calls (c w) ++ calls (k (value (c w)) (world (c w))).
Proof.
  unfold bind, calls, value, world.
  destruct (c w) as [[a cs1] w1]. cbn [fst snd].
  destruct (k a w1) as [[b cs2] w2]. reflexivity.
Qed.

Lemma value_bind (W A B : Type) (c : M W A) (k : A -> M W B) (w : W) :
  value (bind c k w) = value (k (value (c w)) (world (c w))).
Proof.
  unfold bind, calls, value, world.
  destruct (c w) as [[a cs1] w1]. cbn [fst snd].
  destruct (k a w1) as [[b cs2] w2]. reflexivity.
Qed.

Lemma world_bind (W A B : Type) (c : M W A) (k : A -> M W B) (w : W) :
  world (bind c k w) = world (k (value (c w)) (world (c w))).
Proof.
  unfold bind, calls, value, world.
  destruct (c w) as [[a cs1] w1]. cbn [fst snd].
  destruct (k a w1) as [[b cs2] w2]. reflexivity.
Qed.

Lemma submitted_app (cs1 cs2 : list Call) :
  submitted (cs1 ++ cs2) = submitted cs1 ++ submitted cs2.
Proof.
  induction cs1 as [|c cs1 IH]; [reflexivity|].
  destruct c; cbn [app submitted]; now rewrite IH.
Qed.

Lemma persisted_app (cs1 cs2 : list Call) :
  persisted (cs1 ++ cs2) = persisted cs1 ++ persisted cs2.
Proof.
  induction cs1 as [|c cs1 IH]; [reflexivity|].
  destruct c as [row [id| |msg]| | | | | |]; cbn [app persisted];
    now rewrite IH.
Qed.

Lemma resolvedTestCases_app (cs1 cs2 : list Call) :
  resolvedTestCases (cs1 ++ cs2)
  = resolvedTestCases cs1 ++ resolvedTestCases cs2.
Proof.
  induction cs1 as [|c cs1 IH]; [reflexivity|].
  destruct c as [| | | |id [tc| |msg]| |]; cbn [app resolvedTestCases];
    now rewrite IH.
Qed.

Lemma testCaseLookups_app (cs1 cs2 : list Call) :
  testCaseLookups (cs1 ++ cs2) = testCaseLookups cs1 ++ testCaseLookups cs2.
Proof.
  induction cs1 as [|c cs1 IH]; [reflexivity|].
  destruct c; cbn [app testCaseLookups]; now rewrite IH.
Qed.

(** Every row that was inserted had been submitted, and its insertion has
    succeeded. *)
Lemma persisted_inserted (cs : list Call) (row : ASREvaluationResult.t) :
  In row (persisted cs) ->
  exists (id : Z) (row0 : ASREvaluationResult.t),
    In (CallCreateASREvaluationResult row0 (Row id)) cs
    /\ row = ASREvaluationResult.with_ID id row0.
Proof.
  induction cs as [|c cs IH]; [intros []|].
  assert (IH' : In row (persisted cs) ->
                exists id row0,
                  In (CallCreateASREvaluationResult row0 (Row id)) (c :: cs)
                  /\ row = ASREvaluationResult.with_ID id row0).
  { intro H. destruct (IH H) as (id & r & Hr & E). exists id, r.
    split; [now right|exact E]. }
  destruct c as [row0 [id| |msg]| | | | | |]; cbn [persisted]; try exact IH'.
  intros [H|H]; [|exact (IH' H)].
  exists id, row0. split; [now left|now symmetry].
Qed.

Lemma submitted_In (cs : list Call) (row : ASREvaluationResult.t) :
  In row (submitted cs) <->
  exists res, In (CallCreateASREvaluationResult row res) cs.
Proof.
  induction cs as [|c cs IH].
  - split; [intros []|intros [res []]].
  - split.
    + intro H.
      assert (IH' : In row (submitted cs) ->
                    exists res,
                      In (CallCreateASREvaluationResult row res) (c :: cs)).
      { intro H'. apply IH in H'. destruct H' as [res H'].
        exists res. now right. }
      destruct c as [row0 res| | | | | |]; cbn [submitted] in H;
        try exact (IH' H).
      destruct H as [->|H]; [|exact (IH' H)].
      exists res. now left.
    + intros [res [E|H]].
      * subst c. now left.
      * assert (H' : In row (submitted cs)) by (apply IH; now exists res).
        destruct c; cbn [submitted]; try exact H'. now right.
Qed.

Lemma persisted_submitted (cs : list Call) (row : ASREvaluationResult.t) :
  In row (persisted cs) ->
  exists (id : Z) (row0 : ASREvaluationResult.t),
    In row0 (submitted cs) /\ row = ASREvaluationResult.with_ID id row0.
Proof.
  intro H. destruct (persisted_inserted cs row H) as (id & row0 & Hin & E).
  exists id, row0. split; [|exact E]. apply submitted_In. now exists (Row id).
Qed.

Lemma persisted_pairs_inserted (cs : list Call) :
  Forall inserted cs ->
  map pairOf (persisted cs) = map pairOf (submitted cs).
Proof.
  induction 1 as [|c cs Hc _ IH]; [reflexivity|].
  destruct c as [row res| | | | | |]; cbn [persisted submitted]; try exact IH.
  destruct Hc as [id ->]. cbn [map]. now rewrite IH.
Qed.

Lemma persisted_cases_inserted (cs : list Call) :
  Forall inserted cs ->
  map ASREvaluationResult.ASRTestCaseID (persisted cs)
  = map ASREvaluationResult.ASRTestCaseID (submitted cs).
Proof.
  induction 1 as [|c cs Hc _ IH]; [reflexivity|].
  destruct c as [row res| | | | | |]; cbn [persisted submitted]; try exact IH.
  destruct Hc as [id ->]. cbn [map]. now rewrite IH.
Qed.

Ltac buildResult_cases :=
  unfold buildResult;
  repeat match goal with
         | |- context [match ?x with _ => _ end] => destruct x
         end.

Section RunnerFacts.
Variable W : Type.
Variable env : Env W.

(** A look-up sends nothing with a nil handle, and else its query. *)
Lemma GetASRTestCase_cases (id : Z) (w : W) :
  (DB_nil env = true
   /\ exists msg, GetASRTestCase env id w = (inr msg, [], w))
  \/ (DB_nil env = false
      /\ ((exists testCase w',
              GetASRTestCase env id w
              = (inl testCase, [CallGetASRTestCase id (Row testCase)], w'))
          \/ (exists msg res w',
                 (forall testCase, res <> Row testCase)
                 /\ GetASRTestCase env id w
                    = (inr msg, [CallGetASRTestCase id res], w')))).
Proof.
  unfold GetASRTestCase. destruct (DB_nil env).
  - left. split; [reflexivity|]. eexists. reflexivity.
  - right. split; [reflexivity|].
    destruct (SelectASRTestCase env id w) as [[tc| |msg] w'].
    + left. exists tc, w'. reflexivity.
    + right. eexists. exists ErrNoRows, w'.
      split; [discriminate|reflexivity].
    + right. eexists. exists (QueryError msg), w'.
      split; [discriminate|reflexivity].
Qed.

Lemma GetVendorConfig_cases (id : Z) (w : W) :
  (DB_nil env = true
   /\ exists msg, GetVendorConfig env id w = (inr msg, [], w))
  \/ (DB_nil env = false
      /\ ((exists vendorConfig w',
              GetVendorConfig env id w
              = (inl vendorConfig,
                 [CallGetVendorConfig id (Row vendorConfig)], w'))
          \/ (exists msg res w',
                 (forall vendorConfig, res <> Row vendorConfig)
                 /\ GetVendorConfig env id w
                    = (inr msg, [CallGetVendorConfig id res], w')))).
Proof.
  unfold GetVendorConfig. destruct (DB_nil env).
  - left. split; [reflexivity|]. eexists. reflexivity.
  - right. split; [reflexivity|].
    destruct (SelectVendorConfig env id w) as [[vc| |msg] w'].
    + left. exists vc, w'. reflexivity.
    + right. eexists. exists ErrNoRows, w'.
      split; [discriminate|reflexivity].
    + right. eexists. exists (QueryError msg), w'.
      split; [discriminate|reflexivity].
Qed.

(** A look-up that finds its row has sent one query, with an initialised
    handle. *)
Lemma GetASRTestCase_found (id : Z) (w : W) (testCase : ASRTestCase.t) :
  value (GetASRTestCase env id w) = inl testCase ->
  DB_nil env = false
  /\ calls (GetASRTestCase env id w)
     = [CallGetASRTestCase id (Row testCase)].
Proof.
  intro H.
  destruct (GetASRTestCase_cases id w)
    as [[_ [msg E]]|[HDB [(tc & w' & E)|(msg & res & w' & _ & E)]]];
    rewrite E in *; cbn [value calls fst snd] in *; try discriminate.
  injection H as ->. split; [exact HDB|reflexivity].
Qed.

Lemma GetVendorConfig_found (id : Z) (w : W) (vendorConfig : VendorConfig.t) :
  value (GetVendorConfig env id w) = inl vendorConfig ->
  DB_nil env = false
  /\ calls (GetVendorConfig env id w)
     = [CallGetVendorConfig id (Row vendorConfig)].
Proof.
  intro H.
  destruct (GetVendorConfig_cases id w)
    as [[_ [msg E]]|[HDB [(vc & w' & E)|(msg & res & w' & _ & E)]]];
    rewrite E in *; cbn [value calls fst snd] in *; try discriminate.
  injection H as ->. split; [exact HDB|reflexivity].
Qed.

Lemma Recognize_calls (adapter : ASRAdapter)
  (audioFilePath languageCode : string) (vendorConfig : VendorConfig.t)
  (w : W) :
  calls (Recognize env adapter audioFilePath languageCode vendorConfig w) = [].
Proof.
  unfold calls.
  destruct adapter; cbn [Recognize];
    try (destruct (RemoteRecognize env _ audioFilePath languageCode
                                   vendorConfig w); reflexivity).
  unfold MockASRAdapter_Recognize.
  now destruct (String.eqb (VendorConfig.Name vendorConfig) "MockASR-Error").
Qed.

Lemma buildResult_ids (jobID : Z)
  (testCase : ASRTestCase.t) (vendorConfig : VendorConfig.t)
  (recognizedText rawResponse : string) (err : error) (latencyMs : Z) :
  let result := buildResult jobID testCase vendorConfig
                            recognizedText rawResponse err latencyMs in
  ASREvaluationResult.ID result = 0
  /\ ASREvaluationResult.JobID result = jobID
  /\ ASREvaluationResult.ASRTestCaseID result = ASRTestCase.ID testCase
  /\ ASREvaluationResult.VendorConfigID result = VendorConfig.ID vendorConfig.
Proof. cbv zeta. buildResult_cases; repeat split. Qed.

Lemma buildResult_SER (jobID : Z)
  (testCase : ASRTestCase.t) (vendorConfig : VendorConfig.t)
  (recognizedText rawResponse : string) (err : error) (latencyMs : Z) :
  isUnset (ASREvaluationResult.SER
             (buildResult jobID testCase vendorConfig
                          recognizedText rawResponse err latencyMs)).
Proof. buildResult_cases; reflexivity. Qed.

(** What one iteration sends to the database once it has its adapter. *)
Lemma evaluatePair_calls (jobID : Z)
  (testCase : ASRTestCase.t) (vendorConfig : VendorConfig.t)
  (adapter : ASRAdapter) (w : W) :
  DB_nil env = false ->
  exists (row : ASREvaluationResult.t) (w1 : W)
         (latencyMs createdAt : Z) (rawResponseJSON : string),
    calls (evaluatePair env jobID testCase vendorConfig adapter w)
    = [CallCreateASREvaluationResult
         row (fst (InsertASREvaluationResult env row w1))]
    /\ row = ASREvaluationResult.with_RawVendorResponse rawResponseJSON
               (ASREvaluationResult.with_CreatedAt createdAt
                  (let out :=
                     value (Recognize env adapter
                              (ASRTestCase.AudioFilePath testCase)
                              (NullString.String
                                 (ASRTestCase.LanguageCode testCase))
                              vendorConfig w) in
                   buildResult jobID testCase vendorConfig
                     (fst (fst out)) (snd (fst out)) (snd out) latencyMs)).
Proof.
  intro HDB. unfold evaluatePair.
  rewrite calls_bind. cbn [now calls value world fst snd app].
  rewrite calls_bind, Recognize_calls. cbn [app].
  destruct (value (Recognize env adapter (ASRTestCase.AudioFilePath testCase)
                     (NullString.String (ASRTestCase.LanguageCode testCase))
                     vendorConfig w)) as [[text raw] err] eqn:Eout.
  set (w1 := world (Recognize env adapter (ASRTestCase.AudioFilePath testCase)
                     (NullString.String (ASRTestCase.LanguageCode testCase))
                     vendorConfig w)).
  rewrite calls_bind. cbn [now calls value world fst snd app].
  set (lat := Z.quot (time_Now env w1 - time_Now env w) Millisecond).
  rewrite calls_bind.
  unfold CreateASREvaluationResult at 1. rewrite HDB.
  set (res := buildResult jobID testCase vendorConfig text raw err lat).
  set (j := if 0 <? len_string _ then _ else _).
  set (row := ASREvaluationResult.with_RawVendorResponse j _).
  exists row, w1, lat, (time_Now env w1), j.
  split; [|reflexivity].
  destruct (InsertASREvaluationResult env row w1) as [[id| |msg] w2] eqn:Eins;
    cbn; rewrite ?app_nil_r; reflexivity.
Qed.

(** The row of an iteration is for its pair and its job. *)
Lemma evaluatePair_pair (jobID : Z)
  (testCase : ASRTestCase.t) (vendorConfig : VendorConfig.t)
  (adapter : ASRAdapter) (w : W) :
  DB_nil env = false ->
  exists (row : ASREvaluationResult.t) (res : QueryResult Z),
    calls (evaluatePair env jobID testCase vendorConfig adapter w)
    = [CallCreateASREvaluationResult row res]
    /\ ASREvaluationResult.JobID row = jobID
    /\ pairOf row = (ASRTestCase.ID testCase, VendorConfig.ID vendorConfig).
Proof.
  intro HDB.
  destruct (evaluatePair_calls jobID testCase vendorConfig adapter w HDB)
    as (row & w1 & lat & t & j & Hc & Hrow).
  exists row. eexists. split; [exact Hc|].
  rewrite Hrow. unfold pairOf. cbv zeta.
  cbn [ASREvaluationResult.with_RawVendorResponse
       ASREvaluationResult.with_CreatedAt
       ASREvaluationResult.JobID
       ASREvaluationResult.ASRTestCaseID
       ASREvaluationResult.VendorConfigID].
  match goal with
  | |- context [buildResult ?a ?b ?c ?d ?e ?f ?g] =>
    destruct (buildResult_ids a b c d e f g) as (_ & -> & -> & ->)
  end.
  split; reflexivity.
Qed.

End RunnerFacts.

Section LoopFacts.
Variable W : Type.
Variable env : Env W.

Lemma GetASRTestCase_calls_Forall (P : Call -> Prop) (id : Z) (w : W) :
  (forall res, P (CallGetASRTestCase id res)) ->
  Forall P (calls (GetASRTestCase env id w)).
Proof.
  intro H.
  destruct (GetASRTestCase_cases W env id w)
    as [[_ [msg E]]|[_ [(tc & w' & E)|(msg & res & w' & _ & E)]]];
    rewrite E; cbn [calls fst snd]; repeat constructor; apply H.
Qed.

Lemma GetVendorConfig_calls_Forall (P : Call -> Prop) (id : Z) (w : W) :
  (forall res, P (CallGetVendorConfig id res)) ->
  Forall P (calls (GetVendorConfig env id w)).
Proof.
  intro H.
  destruct (GetVendorConfig_cases W env id w)
    as [[_ [msg E]]|[_ [(vc & w' & E)|(msg & res & w' & _ & E)]]];
    rewrite E; cbn [calls fst snd]; repeat constructor; apply H.
Qed.

(** An iteration of the inner loop whose vendor is found and whose adapter
    is obtained sends the look-up and one insertion, whatever the
    recognition call returned, and the loop goes on with the remaining
    vendors. *)
Lemma vendorLoop_step_calls (jobID : Z) (testCase : ASRTestCase.t)
  (vendorConfigID : Z) (rest : list Z)
  (vendorConfig : VendorConfig.t) (adapter : ASRAdapter) (w : W) :
  value (GetVendorConfig env vendorConfigID w) = inl vendorConfig ->
  GetASRAdapter env (Some vendorConfig) = inl adapter ->
  let out := value (Recognize env adapter
                      (ASRTestCase.AudioFilePath testCase)
                      (NullString.String (ASRTestCase.LanguageCode testCase))
                      vendorConfig
                      (world (GetVendorConfig env vendorConfigID w))) in
  exists (row : ASREvaluationResult.t) (res : QueryResult Z) (w' : W)
         (latencyMs createdAt : Z) (rawResponseJSON : string),
    calls (vendorLoop env jobID testCase (vendorConfigID :: rest) w)
    = CallGetVendorConfig vendorConfigID (Row vendorConfig)
      :: CallCreateASREvaluationResult row res
      :: calls (vendorLoop env jobID testCase rest w')
    /\ row = ASREvaluationResult.with_RawVendorResponse rawResponseJSON
               (ASREvaluationResult.with_CreatedAt createdAt
                  (buildResult jobID testCase vendorConfig
                     (fst (fst out)) (snd (fst out)) (snd out) latencyMs)).
Proof.
  intros E E' out.
  destruct (GetVendorConfig_found W env vendorConfigID w vendorConfig E)
    as [HDB Hq].
  destruct (evaluatePair_calls W env jobID testCase vendorConfig adapter
              (world (GetVendorConfig env vendorConfigID w)) HDB)
    as (row & w1 & lat & t & j & Hc & Hrow).
  exists row, (fst (InsertASREvaluationResult env row w1)),
    (world (evaluatePair env jobID testCase vendorConfig adapter
                         (world (GetVendorConfig env vendorConfigID w)))),
    lat, t, j.
  split; [|exact Hrow].
  cbn [vendorLoop]. rewrite calls_bind, Hq, E, E', calls_bind, Hc.
  reflexivity.
Qed.

(** The statements of the inner loop follow the expected pattern. *)
Lemma vendorLoop_trace (jobID : Z) (testCase : ASRTestCase.t)
  (vendorConfigIDs : list Z) (w : W) :
  DB_nil env = false ->
  vendorsTrace env jobID testCase vendorConfigIDs
               (calls (vendorLoop env jobID testCase vendorConfigIDs w)).
Proof.
  intro HDB. revert w.
  induction vendorConfigIDs as [|vid rest IH]; intro w; [constructor|].
  cbn [vendorLoop]. rewrite calls_bind.
  destruct (GetVendorConfig_cases W env vid w)
    as [[H _]|[_ [(vc & w' & E)|(msg & res & w' & Hres & E)]]];
    [congruence| |]; rewrite E; cbn [calls value world fst snd].
  - destruct (GetASRAdapter env (Some vc)) as [a|msg] eqn:Ea.
    + rewrite calls_bind.
      destruct (evaluatePair_pair W env jobID testCase vc a w' HDB)
        as (row & res & Hc & Hj & Hp).
      rewrite Hc.
      change ([CallGetVendorConfig vid (Row vc)]
              ++ [CallCreateASREvaluationResult row res] ++ ?x)
        with ([CallGetVendorConfig vid (Row vc);
               CallCreateASREvaluationResult row res] ++ x).
      apply vendors_cons; [|apply IH].
      eapply pair_result; eassumption.
    + apply vendors_cons; [|apply IH].
      eapply pair_adapter_error; eassumption.
  - apply vendors_cons; [|apply IH].
    now apply pair_vendor_unresolved.
Qed.

Lemma testCaseLoop_trace (jobID : Z) (testCaseIDs vendorConfigIDs : list Z)
  (w : W) :
  DB_nil env = false ->
  casesTrace env jobID vendorConfigIDs testCaseIDs
             (calls (testCaseLoop env jobID testCaseIDs vendorConfigIDs w)).
Proof.
  intro HDB. revert w.
  induction testCaseIDs as [|tid rest IH]; intro w; [constructor|].
  cbn [testCaseLoop]. rewrite calls_bind.
  destruct (GetASRTestCase_cases W env tid w)
    as [[H _]|[_ [(tc & w' & E)|(msg & res & w' & Hres & E)]]];
    [congruence| |]; rewrite E; cbn [calls value world fst snd app].
  - rewrite calls_bind. apply cases_resolved; [|apply IH].
    now apply vendorLoop_trace.
  - apply cases_unresolved; [exact Hres|apply IH].
Qed.

Lemma RunASREvaluation_trace (jobID : Z) (testCaseIDs vendorConfigIDs : list Z)
  (w : W) :
  DB_nil env = false ->
  casesTrace env jobID vendorConfigIDs testCaseIDs
             (calls (RunASREvaluation env jobID testCaseIDs
                                      vendorConfigIDs w)).
Proof.
  intro HDB. unfold RunASREvaluation. rewrite HDB, calls_bind.
  cbn [ret calls fst snd]. rewrite app_nil_r.
  now apply testCaseLoop_trace.
Qed.

Lemma RunASREvaluation_DB_nil (jobID : Z) (testCaseIDs vendorConfigIDs : list Z)
  (w : W) :
  DB_nil env = true ->
  RunASREvaluation env jobID testCaseIDs vendorConfigIDs w
  = (Some "database connection is not initialized"%string, [], w).
Proof. intro HDB. unfold RunASREvaluation. now rewrite HDB. Qed.

(** A property of the look-ups and of every statement of every iteration
    holds of every statement of the inner loop. *)
Lemma vendorLoop_calls_Forall (P : Call -> Prop) (jobID : Z)
  (testCase : ASRTestCase.t) (vendorConfigIDs : list Z) :
  (forall id res, P (CallGetVendorConfig id res)) ->
  (forall vendorConfigID vendorConfig adapter w,
      In vendorConfigID vendorConfigIDs ->
      value (GetVendorConfig env vendorConfigID w) = inl vendorConfig ->
      GetASRAdapter env (Some vendorConfig) = inl adapter ->
      Forall P (calls (evaluatePair
                         env jobID testCase vendorConfig adapter
                         (world (GetVendorConfig env vendorConfigID w))))) ->
  forall w, Forall P (calls (vendorLoop env jobID testCase vendorConfigIDs w)).
Proof.
  intro Hq.
  induction vendorConfigIDs as [|vid rest IH]; intros H w; [constructor|].
  assert (IH' : forall w,
             Forall P (calls (vendorLoop env jobID testCase rest w))).
  { apply IH. intros v vc a w' Hin. apply H. now right. }
  cbn [vendorLoop]. rewrite calls_bind. apply Forall_app.
  split; [apply GetVendorConfig_calls_Forall; apply Hq|].
  destruct (value (GetVendorConfig env vid w)) as [vc|msg] eqn:E;
    [|apply IH'].
  destruct (GetASRAdapter env (Some vc)) as [a|msg] eqn:E'; [|apply IH'].
  rewrite calls_bind. apply Forall_app. split; [|apply IH'].
  apply (H vid vc a w); [now left|exact E|exact E'].
Qed.

Lemma testCaseLoop_calls_Forall (P : Call -> Prop) (jobID : Z)
  (testCaseIDs vendorConfigIDs : list Z) :
  (forall id res, P (CallGetASRTestCase id res)) ->
  (forall id res, P (CallGetVendorConfig id res)) ->
  (forall testCaseID testCase vendorConfigID vendorConfig adapter w1 w2,
      In testCaseID testCaseIDs ->
      In vendorConfigID vendorConfigIDs ->
      value (GetASRTestCase env testCaseID w1) = inl testCase ->
      value (GetVendorConfig env vendorConfigID w2) = inl vendorConfig ->
      GetASRAdapter env (Some vendorConfig) = inl adapter ->
      Forall P (calls (evaluatePair
                         env jobID testCase vendorConfig adapter
                         (world (GetVendorConfig env vendorConfigID w2))))) ->
  forall w,
    Forall P (calls (testCaseLoop env jobID testCaseIDs vendorConfigIDs w)).
Proof.
  intros Ht Hv.
  induction testCaseIDs as [|tid rest IH]; intros H w; [constructor|].
  assert (IH' : forall w, Forall P (calls (testCaseLoop env jobID rest
                                                        vendorConfigIDs w))).
  { apply IH. intros t tc v vc a w1 w2 Hin. apply H. now right. }
  cbn [testCaseLoop]. rewrite calls_bind. apply Forall_app.
  split; [apply GetASRTestCase_calls_Forall; apply Ht|].
  destruct (value (GetASRTestCase env tid w)) as [tc|msg] eqn:E;
    [|apply IH'].
  rewrite calls_bind. apply Forall_app. split; [|apply IH'].
  apply vendorLoop_calls_Forall; [exact Hv|]. intros v vc a w' Hin Ev Ea.
  apply (H tid tc v vc a w w'); auto. now left.
Qed.

Lemma RunASREvaluation_calls_Forall (P : Call -> Prop) (jobID : Z)
  (testCaseIDs vendorConfigIDs : list Z) :
  (forall id res, P (CallGetASRTestCase id res)) ->
  (forall id res, P (CallGetVendorConfig id res)) ->
  (forall testCaseID testCase vendorConfigID vendorConfig adapter w1 w2,
      In testCaseID testCaseIDs ->
      In vendorConfigID vendorConfigIDs ->
      value (GetASRTestCase env testCaseID w1) = inl testCase ->
      value (GetVendorConfig env vendorConfigID w2) = inl vendorConfig ->
      GetASRAdapter env (Some vendorConfig) = inl adapter ->
      Forall P (calls (evaluatePair
                         env jobID testCase vendorConfig adapter
                         (world (GetVendorConfig env vendorConfigID w2))))) ->
  forall w,
    Forall P (calls (RunASREvaluation env jobID testCaseIDs
                                      vendorConfigIDs w)).
Proof.
  intros Ht Hv H w. unfold RunASREvaluation.
  destruct (DB_nil env); [constructor|].
  rewrite calls_bind. apply Forall_app. split; [|constructor].
  now apply testCaseLoop_calls_Forall.
Qed.

(** With every vendor usable, the inner loop submits one result per vendor
    id, all for its test case; it looks up no test case. *)
Lemma vendorsTrace_counts (jobID : Z) (testCase : ASRTestCase.t)
  (vendorConfigIDs : list Z) (cs : list Call) :
  vendorsTrace env jobID testCase vendorConfigIDs cs ->
  testCaseLookups cs = []
  /\ (Forall (usable env) cs ->
      map ASREvaluationResult.ASRTestCaseID (submitted cs)
      = repeat (ASRTestCase.ID testCase) (List.length vendorConfigIDs)).
Proof.
  induction 1 as [|vid rest cs1 cs2 Hp _ [IH1 IH2]];
    [split; reflexivity|].
  rewrite testCaseLookups_app, submitted_app, map_app, IH1.
  destruct Hp as [res Hres|vc msg Ea|vc a row res Ea Hj Hpair];
    (split; [reflexivity|]); intro Hu; apply Forall_app in Hu;
    destruct Hu as [Hu1 Hu2]; cbn [submitted map app repeat List.length].
  - exfalso. apply Forall_inv in Hu1. destruct Hu1 as (vc & a & E & _).
    exact (Hres vc E).
  - exfalso. apply Forall_inv in Hu1. destruct Hu1 as (vc' & a & E & Ea').
    injection E as <-. congruence.
  - f_equal; [|exact (IH2 Hu2)].
    unfold pairOf in Hpair. now injection Hpair.
Qed.

Lemma resolvedTestCases_lookups (cs : list Call) :
  resolvedTestCases cs
  = flat_map (fun p : Z * QueryResult ASRTestCase.t =>
                match snd p with
                | Row testCase => [testCase]
                | _ => []
                end) (testCaseLookups cs).
Proof.
  induction cs as [|c cs IH]; [reflexivity|].
  destruct c as [| | | |id [tc| |msg]| |];
    cbn [resolvedTestCases testCaseLookups flat_map snd app];
    now rewrite IH.
Qed.

(** The outer loop looks up the test case ids in order; with every vendor
    usable, it submits as many results for each test case found as there
    are vendor ids. *)
Lemma casesTrace_counts (jobID : Z) (testCaseIDs vendorConfigIDs : list Z)
  (cs : list Call) :
  casesTrace env jobID vendorConfigIDs testCaseIDs cs ->
  map fst (testCaseLookups cs) = testCaseIDs
  /\ (Forall (usable env) cs ->
      map ASREvaluationResult.ASRTestCaseID (submitted cs)
      = flat_map (fun testCase =>
                    repeat (ASRTestCase.ID testCase)
                           (List.length vendorConfigIDs))
                 (resolvedTestCases cs)).
Proof.
  induction 1 as [|tid rest res cs Hres _ [IH1 IH2]
                  |tid rest tc cs1 cs2 Hv _ [IH1 IH2]].
  - split; reflexivity.
  - cbn [testCaseLookups map fst submitted]. rewrite IH1.
    split; [reflexivity|]. intro Hu. inversion Hu as [|c l _ Hu']. subst.
    rewrite (IH2 Hu').
    destruct res as [tc| |msg]; [exfalso; exact (Hres tc eq_refl)| |];
      reflexivity.
  - destruct (vendorsTrace_counts jobID tc vendorConfigIDs cs1 Hv)
      as [Hl Hs].
    cbn [testCaseLookups map fst submitted resolvedTestCases].
    rewrite testCaseLookups_app, Hl. cbn [app]. rewrite IH1.
    split; [reflexivity|].
    intro Hu. inversion Hu as [|c l _ Hu']. subst.
    apply Forall_app in Hu'. destruct Hu' as [Hu1 Hu2].
    rewrite submitted_app, map_app, (Hs Hu1), (IH2 Hu2).
    rewrite resolvedTestCases_app.
    rewrite (resolvedTestCases_lookups cs1), Hl. reflexivity.
Qed.

End LoopFacts.

Lemma inserted_persisted (cs : list Call) (row0 : ASREvaluationResult.t)
  (id : Z) :
  In (CallCreateASREvaluationResult row0 (Row id)) cs ->
  In (ASREvaluationResult.with_ID id row0) (persisted cs).
Proof.
  induction cs as [|c cs IH]; [intros []|].
  intros [->|H]; [now left|].
  specialize (IH H).
  destruct c as [r [i| |msg]| | | | | |]; cbn [persisted]; try exact IH.
  now right.
Qed.

Section RunFacts.
Variable W : Type.
Variable env : Env W.

(** Every submitted row stems from a pair of the job. *)
Lemma RunASREvaluation_fromPair (jobID : Z)
  (testCaseIDs vendorConfigIDs : list Z) (w : W)
  (row : ASREvaluationResult.t) (res : QueryResult Z) (id : Z) :
  In (CallCreateASREvaluationResult row res)
     (calls (RunASREvaluation env jobID testCaseIDs vendorConfigIDs w)) ->
  exists testCase out,
    fromPair env jobID testCaseIDs vendorConfigIDs testCase out
             (ASREvaluationResult.with_ID id row).
Proof.
  set (P := fun c =>
              match c with
              | CallCreateASREvaluationResult row _ =>
                exists testCase out,
                fromPair env jobID testCaseIDs vendorConfigIDs testCase out
                         (ASREvaluationResult.with_ID id row)
              | _ => True
              end).
  assert (H : Forall P (calls (RunASREvaluation env jobID testCaseIDs
                                                vendorConfigIDs w))).
  { apply RunASREvaluation_calls_Forall; try (intros; exact I).
    intros tid tc vid vc a w1 w2 Ht Hv Et Ev Ea.
    destruct (evaluatePair_calls W env jobID tc vc a
                (world (GetVendorConfig env vid w2))
                (proj1 (GetVendorConfig_found W env vid w2 vc Ev)))
      as (row' & w3 & lat & t & j & Hc & Hrow).
    rewrite Hc. constructor; [|constructor]. unfold P.
    exists tc. eexists. exists tid, vid, vc, a, w1, w2.
    repeat (split; [eassumption|]). split; [reflexivity|].
    exists lat, t, id, j. rewrite Hrow. reflexivity. }
  intro Hin. rewrite Forall_forall in H. exact (H _ Hin).
Qed.

Lemma RunASREvaluation_persisted_fromPair (jobID : Z)
  (testCaseIDs vendorConfigIDs : list Z) (w : W)
  (row : ASREvaluationResult.t) :
  In row (persisted (calls (RunASREvaluation env jobID testCaseIDs
                                             vendorConfigIDs w))) ->
  exists testCase out,
    fromPair env jobID testCaseIDs vendorConfigIDs testCase out row.
Proof.
  intro H. destruct (persisted_inserted _ _ H) as (id & row0 & H0 & ->).
  exact (RunASREvaluation_fromPair jobID testCaseIDs vendorConfigIDs w
                                   row0 (Row id) id H0).
Qed.

End RunFacts.

(** Proves [Forall P cs] for a list [cs] that computes to its elements,
    [P] being [inserted] or [usable]. *)
Ltac Forall_by_computation :=
  vm_compute;
  repeat (constructor;
          [first [exact I
                 |eexists; reflexivity
                 |eexists; eexists; split; reflexivity]|]);
  constructor.

(** C2 (amended). The queries and statements of a run follow the loops:
    for each test case id in turn its look-up, and, when that finds the
    test case, for each vendor id in turn the look-up of the vendor
    followed, when the vendor is found and its adapter obtained, by the
    insertion of exactly one result for the pair, whatever the outcome of
    the recognition call; a pair whose vendor look-up fails or whose
    adapter is not obtained is left out, it alone: the loop goes on with
    the next vendor id, and the vendor is looked up again for the next test
    case.  The rows persisted are the results whose insertion succeeds, so
    one per result when no insertion of the run fails.  A test case whose
    look-up fails gets no look-up of a vendor and no result: when every
    vendor looked up is usable, each test case found gets as many results
    as there are vendor ids; with three test case ids whose middle look-up
    fails, [N] vendor ids and no insertion failing, exactly 2 x N rows are
    persisted, [N] for the first test case, then [N] for the third. *)
Theorem RunASREvaluation_one_result_per_resolved_pair
  (W : Type) (env : Env W) (jobID : Z) (vendorConfigIDs : list Z) (w : W) :
  (forall testCaseIDs : list Z,
      let cs := calls (RunASREvaluation env jobID testCaseIDs
                                        vendorConfigIDs w) in
      (if DB_nil env then cs = []
       else casesTrace env jobID vendorConfigIDs testCaseIDs cs)
      /\ (forall row,
             In row (persisted cs) <->
             exists id row0,
               In (CallCreateASREvaluationResult row0 (Row id)) cs
               /\ row = ASREvaluationResult.with_ID id row0)
      /\ (Forall inserted cs ->
          map pairOf (persisted cs) = map pairOf (submitted cs))
      /\ (Forall (usable env) cs ->
          map ASREvaluationResult.ASRTestCaseID (submitted cs)
          = flat_map (fun testCase =>
                        repeat (ASRTestCase.ID testCase)
                               (List.length vendorConfigIDs))
                     (resolvedTestCases cs)))
  /\ (forall (t1 t2 t3 : Z) (tc1 tc3 : ASRTestCase.t)
             (res2 : QueryResult ASRTestCase.t),
      let cs := calls (RunASREvaluation env jobID [t1; t2; t3]
                                        vendorConfigIDs w) in
      testCaseLookups cs = [(t1, Row tc1); (t2, res2); (t3, Row tc3)] ->
      (forall testCase, res2 <> Row testCase) ->
      Forall (usable env) cs ->
      Forall inserted cs ->
      List.length (persisted cs) = (2 * List.length vendorConfigIDs)%nat
      /\ map ASREvaluationResult.ASRTestCaseID (persisted cs)
         = repeat (ASRTestCase.ID tc1) (List.length vendorConfigIDs)
           ++ repeat (ASRTestCase.ID tc3) (List.length vendorConfigIDs)).
Proof.
  assert (A : forall testCaseIDs,
             Forall (usable env)
                    (calls (RunASREvaluation env jobID testCaseIDs
                                             vendorConfigIDs w)) ->
             map ASREvaluationResult.ASRTestCaseID
                 (submitted (calls (RunASREvaluation env jobID testCaseIDs
                                                     vendorConfigIDs w)))
             = flat_map (fun testCase =>
                           repeat (ASRTestCase.ID testCase)
                                  (List.length vendorConfigIDs))
                        (resolvedTestCases
                           (calls (RunASREvaluation env jobID testCaseIDs
                                                    vendorConfigIDs w)))).
  { intros tids Hu. destruct (DB_nil env) eqn:HDB.
    - now rewrite (RunASREvaluation_DB_nil W env jobID tids vendorConfigIDs
                                           w HDB).
    - exact (proj2 (casesTrace_counts
                      W env jobID tids vendorConfigIDs _
                      (RunASREvaluation_trace W env jobID tids
                                              vendorConfigIDs w HDB)) Hu). }
  split.
  - intros tids cs. split; [|split; [|split]].
    + destruct (DB_nil env) eqn:HDB.
      * unfold cs.
        now rewrite (RunASREvaluation_DB_nil W env jobID tids
                                             vendorConfigIDs w HDB).
      * now apply RunASREvaluation_trace.
    + intro row. split; [apply persisted_inserted|].
      intros (id & row0 & Hin & ->). now apply inserted_persisted.
    + apply persisted_pairs_inserted.
    + apply A.
  - intros t1 t2 t3 tc1 tc3 res2 cs Hl Hres Hu Hi.
    assert (Hp : map ASREvaluationResult.ASRTestCaseID (persisted cs)
                 = repeat (ASRTestCase.ID tc1) (List.length vendorConfigIDs)
                   ++ repeat (ASRTestCase.ID tc3)
                             (List.length vendorConfigIDs)).
    { rewrite (persisted_cases_inserted cs Hi). unfold cs.
      rewrite (A [t1; t2; t3] Hu). fold cs.
      rewrite resolvedTestCases_lookups, Hl. cbn [flat_map snd app].
      destruct res2 as [tc| |msg]; [exfalso; exact (Hres tc eq_refl)| |];
        cbn [app flat_map]; now rewrite app_nil_r. }
    split; [|exact Hp].
    rewrite <- (length_map ASREvaluationResult.ASRTestCaseID), Hp.
    rewrite length_app, !repeat_length. lia.
Qed.

Lemma RunASREvaluation_one_result_per_resolved_pair_witness :
  List.length (persisted (calls (RunASREvaluation
                                   (exampleEnv false false false) 7
                                   [1; 2; 3] [1; 2; 3; 4] 0)))
  = 8%nat
  /\ map ASREvaluationResult.ASRTestCaseID
         (persisted (calls (RunASREvaluation
                              (exampleEnv false false false) 7
                              [1; 2; 3] [1; 2; 3; 4] 0)))
     = [1; 1; 1; 1; 3; 3; 3; 3]
  /\ casesTrace exampleFlakyEnv 7 [1; 2] [1; 3]
                (calls (RunASREvaluation exampleFlakyEnv 7 [1; 3] [1; 2] 0))
  /\ map pairOf
         (submitted (calls (RunASREvaluation exampleFlakyEnv 7
                                             [1; 3] [1; 2] 0)))
     = [(1, 2); (3, 1); (3, 2)].
Proof.
  split; [|split; [|split]].
  - refine (proj1 (proj2 (RunASREvaluation_one_result_per_resolved_pair
                            Z (exampleEnv false false false) 7
                            [1; 2; 3; 4] 0)
                         1 2 3 _ _ ErrNoRows eq_refl _ _ _)).
    + discriminate.
    + Forall_by_computation.
    + Forall_by_computation.
  - refine (proj2 (proj2 (RunASREvaluation_one_result_per_resolved_pair
                            Z (exampleEnv false false false) 7
                            [1; 2; 3; 4] 0)
                         1 2 3 _ _ ErrNoRows eq_refl _ _ _)).
    + discriminate.
    + Forall_by_computation.
    + Forall_by_computation.
  - exact (proj1 (proj1 (RunASREvaluation_one_result_per_resolved_pair
                           Z exampleFlakyEnv 7 [1; 2] 0) [1; 3])).
  - vm_compute. reflexivity.
Defined.

(** C2, as stated, fails.  With an initialised database the look-ups of
    test case 1 and of vendor 3 both succeed in the run, yet no row is
    left for the pair: the vendor is named "GoogleCloudASR", the object
    store client is nil, so no adapter is obtained and the pair is skipped.
    Likewise no row is left for test case 1 and vendor 1, although a result
    is built for the pair, when its insertion fails. *)
Lemma RunASREvaluation_resolved_pair_without_row :
  DB_nil (exampleEnv false true false) = false
  /\ calls (RunASREvaluation (exampleEnv false true false) 7 [1] [3] 0)
     = [CallGetASRTestCase
          1 (Row (exampleTestCase 1 {| NullString.String := "hello world";
                                       NullString.Valid := true |}));
        CallGetVendorConfig 3 (Row (exampleVendor 3 "GoogleCloudASR"))]
  /\ persisted (calls (RunASREvaluation (exampleEnv false true false)
                                        7 [1] [3] 0)) = []
  /\ DB_nil (exampleEnv false false true) = false
  /\ testCaseLookups (calls (RunASREvaluation (exampleEnv false false true)
                                              7 [1] [1] 0))
     = [(1, Row (exampleTestCase 1 {| NullString.String := "hello world";
                                      NullString.Valid := true |}))]
  /\ lookedUpPairs (calls (RunASREvaluation (exampleEnv false false true)
                                            7 [1] [1] 0))
     = [(exampleTestCase 1 {| NullString.String := "hello world";
                              NullString.Valid := true |},
         exampleVendor 1 "MockASR")]
  /\ map pairOf (submitted (calls (RunASREvaluation
                                     (exampleEnv false false true)
                                     7 [1] [1] 0))) = [(1, 1)]
  /\ persisted (calls (RunASREvaluation (exampleEnv false false true)
                                        7 [1] [1] 0)) = [].
Proof. repeat split; vm_compute; reflexivity. Qed.

(** ** The metrics of a result *)

(** Without a usable ground truth, or after a failed recognition call,
    neither CER nor WER is set. *)
Lemma buildResult_unset (jobID : Z)
  (testCase : ASRTestCase.t) (vendorConfig : VendorConfig.t)
  (recognizedText rawResponse : string) (err : error) (latencyMs : Z) :
  NullString.Valid (ASRTestCase.GroundTruthText testCase) = false
  \/ NullString.String (ASRTestCase.GroundTruthText testCase) = EmptyString
  \/ err <> None ->
  let result := buildResult jobID testCase vendorConfig
                            recognizedText rawResponse err latencyMs in
  isUnset (ASREvaluationResult.CER result)
  /\ isUnset (ASREvaluationResult.WER result).
Proof.
  intros H. cbv zeta. unfold buildResult.
  destruct (NullString.Valid (ASRTestCase.GroundTruthText testCase)
            && negb (String.eqb
                       (NullString.String
                          (ASRTestCase.GroundTruthText testCase))
                       EmptyString)) eqn:E.
  - destruct err as [e|].
    + destruct (negb (String.eqb rawResponse EmptyString)); split; reflexivity.
    + exfalso. apply andb_prop in E. destruct E as [E1 E2].
      destruct H as [H|[H|H]]; [congruence| |congruence].
      rewrite H in E2. discriminate.
  - destruct err; destruct (negb (String.eqb rawResponse EmptyString));
      split; reflexivity.
Qed.

(** The text recorded after a failed recognition call. *)
Lemma buildResult_RecognizedText_error (jobID : Z)
  (testCase : ASRTestCase.t) (vendorConfig : VendorConfig.t)
  (recognizedText rawResponse e : string) (latencyMs : Z) :
  ASREvaluationResult.RecognizedText
    (buildResult jobID testCase vendorConfig
                 recognizedText rawResponse (Some e) latencyMs)
  = {| NullString.String := ("Recognition Error: " ++ e)%string;
       NullString.Valid := true |}.
Proof. buildResult_cases; reflexivity. Qed.

(** The metrics recorded after a successful recognition call on a test
    case with a ground truth. *)
Lemma buildResult_metrics (jobID : Z)
  (testCase : ASRTestCase.t) (vendorConfig : VendorConfig.t)
  (recognizedText rawResponse : string) (latencyMs : Z) :
  NullString.Valid (ASRTestCase.GroundTruthText testCase) = true ->
  NullString.String (ASRTestCase.GroundTruthText testCase) <> EmptyString ->
  let gt := NullString.String (ASRTestCase.GroundTruthText testCase) in
  let result := buildResult jobID testCase vendorConfig
                            recognizedText rawResponse None latencyMs in
  ASREvaluationResult.CER result
  = match CalculateCER gt recognizedText with
    | (_, Some _) => NullFloat64.zero
    | (cer, None) =>
      {| NullFloat64.Float64 := cer; NullFloat64.Valid := true |}
    end
  /\ ASREvaluationResult.WER result
     = match CalculateWER gt recognizedText with
       | (_, Some _) => NullFloat64.zero
       | (wer, None) =>
         {| NullFloat64.Float64 := wer; NullFloat64.Valid := true |}
       end.
Proof.
  intros Hv Hs. cbv zeta. unfold buildResult.
  rewrite Hv, (eqb_empty_false Hs). cbn [andb negb].
  destruct (CalculateCER _ recognizedText) as [cer [e|]];
    destruct (CalculateWER _ recognizedText) as [wer [e'|]];
    destruct (negb (String.eqb rawResponse EmptyString));
    split; reflexivity.
Qed.

(** C3. Every row that a run leaves behind stems from a pair of the job;
    when the test case of the pair has no ground truth or an empty one, or
    when the recognition call of the pair failed, its CER and WER are
    unset (NULL); its SER is unset in every case. *)
Theorem persisted_metrics_unset
  (W : Type) (env : Env W) (jobID : Z) (testCaseIDs vendorConfigIDs : list Z)
  (w : W) (row : ASREvaluationResult.t) :
  In row (persisted (calls (RunASREvaluation env jobID testCaseIDs
                                             vendorConfigIDs w))) ->
  isUnset (ASREvaluationResult.SER row)
  /\ exists testCase out,
      fromPair env jobID testCaseIDs vendorConfigIDs testCase out row
      /\ (NullString.Valid (ASRTestCase.GroundTruthText testCase) = false
          \/ NullString.String (ASRTestCase.GroundTruthText testCase)
             = EmptyString
          \/ snd out <> None ->
          isUnset (ASREvaluationResult.CER row)
          /\ isUnset (ASREvaluationResult.WER row)).
Proof.
  intro H.
  destruct (RunASREvaluation_persisted_fromPair
              W env jobID testCaseIDs vendorConfigIDs w row H)
    as (tc & out & Hfrom).
  pose proof Hfrom as Hfrom'.
  destruct Hfrom'
    as (tid & vid & vc & a & w1 & w2 & _ & _ & _ & _ & _ & _ & Hrow).
  destruct Hrow as (lat & t & id & j & ->).
  cbn [ASREvaluationResult.with_ID ASREvaluationResult.with_RawVendorResponse
       ASREvaluationResult.with_CreatedAt ASREvaluationResult.SER
       ASREvaluationResult.CER ASREvaluationResult.WER].
  split; [apply buildResult_SER|].
  exists tc, out. split; [exact Hfrom|].
  intro Hc. now apply buildResult_unset.
Qed.

Lemma persisted_metrics_unset_witness :
  exists row,
    In row (persisted (calls (RunASREvaluation (exampleEnv false false false)
                                               7 [3] [1] 0)))
    /\ isUnset (ASREvaluationResult.SER row)
    /\ isUnset (ASREvaluationResult.CER row)
    /\ isUnset (ASREvaluationResult.WER row).
Proof.
  eexists. split; [left; reflexivity|].
  destruct (persisted_metrics_unset Z (exampleEnv false false false)
                                    7 [3] [1] 0 _ (or_introl eq_refl))
    as [HS (tc & out & Hfrom & Himp)].
  split; [exact HS|]. apply Himp. left.
  destruct Hfrom as (tid & vid & vc & a & w1 & w2 & Ht & _ & Et & _).
  destruct Ht as [<-|[]]. vm_compute in Et. injection Et as <-.
  reflexivity.
Defined.

(** ** One iteration of the inner loop *)

(** C6 (amended). When the recognition call of a pair returns an error,
    the runner still builds the result of the pair and hands it to the
    database, and goes on with the next vendor.  The row is persisted
    exactly when its insertion succeeds; a failed insertion leaves no row
    and does not stop the loop either.  The recognized-text field holds
    "Recognition Error: " followed by the error message, which is not the
    empty string; nothing else marks it, a successful call whose transcript
    is that very text gives the same field.  CER and WER are unset. *)
Theorem recognition_error_recorded
  (W : Type) (env : Env W) (jobID : Z) (testCase : ASRTestCase.t)
  (vendorConfigID : Z) (rest : list Z)
  (vendorConfig : VendorConfig.t) (adapter : ASRAdapter) (w : W)
  (e : string) :
  value (GetVendorConfig env vendorConfigID w) = inl vendorConfig ->
  GetASRAdapter env (Some vendorConfig) = inl adapter ->
  snd (value (Recognize env adapter
                (ASRTestCase.AudioFilePath testCase)
                (NullString.String (ASRTestCase.LanguageCode testCase))
                vendorConfig (world (GetVendorConfig env vendorConfigID w))))
  = Some e ->
  exists (row : ASREvaluationResult.t) (res : QueryResult Z) (w' : W),
    calls (vendorLoop env jobID testCase (vendorConfigID :: rest) w)
    = CallGetVendorConfig vendorConfigID (Row vendorConfig)
      :: CallCreateASREvaluationResult row res
      :: calls (vendorLoop env jobID testCase rest w')
    /\ persisted (calls (vendorLoop env jobID testCase
                                    (vendorConfigID :: rest) w))
       = match res with
         | Row id => [ASREvaluationResult.with_ID id row]
         | _ => []
         end ++ persisted (calls (vendorLoop env jobID testCase rest w'))
    /\ pairOf row = (ASRTestCase.ID testCase, VendorConfig.ID vendorConfig)
    /\ ASREvaluationResult.RecognizedText row
       = {| NullString.String := ("Recognition Error: " ++ e)%string;
            NullString.Valid := true |}
    /\ ("Recognition Error: " ++ e)%string <> EmptyString
    /\ (forall (rawResponse : string) (latencyMs : Z),
           ASREvaluationResult.RecognizedText
             (buildResult jobID testCase vendorConfig
                          ("Recognition Error: " ++ e)%string
                          rawResponse None latencyMs)
           = ASREvaluationResult.RecognizedText row)
    /\ isUnset (ASREvaluationResult.CER row)
    /\ isUnset (ASREvaluationResult.WER row).
Proof.
  intros E E' He.
  destruct (vendorLoop_step_calls W env jobID testCase vendorConfigID rest
                                  vendorConfig adapter w E E')
    as (row & res & w' & lat & t & j & Hc & Hrow).
  rewrite He in Hrow.
  exists row, res, w'. split; [exact Hc|].
  split; [rewrite Hc; destruct res; reflexivity|].
  subst row. unfold pairOf.
  cbn [ASREvaluationResult.with_RawVendorResponse
       ASREvaluationResult.with_CreatedAt
       ASREvaluationResult.ASRTestCaseID ASREvaluationResult.VendorConfigID
       ASREvaluationResult.RecognizedText
       ASREvaluationResult.CER ASREvaluationResult.WER].
  match goal with
  | |- context [buildResult ?a ?b ?c ?d ?f (Some e) ?g] =>
    destruct (buildResult_ids a b c d f (Some e) g) as (_ & _ & -> & ->);
      rewrite (buildResult_RecognizedText_error a b c d f e g);
      pose proof (buildResult_unset a b c d f (Some e) g) as Hu
  end.
  split; [reflexivity|]. split; [reflexivity|]. split; [discriminate|].
  split; [intros raw lat'; buildResult_cases; reflexivity|].
  apply Hu. right. right. discriminate.
Qed.

Lemma recognition_error_recorded_witness :
  let env := exampleEnv false false false in
  let testCase := exampleTestCase 1 {| NullString.String := "hello world";
                                       NullString.Valid := true |} in
  let e := "simulated error from MockASR-Error for file audio.wav"%string in
  exists (row : ASREvaluationResult.t) (res : QueryResult Z) (w' : Z),
    calls (vendorLoop env 7 testCase [2; 1] 0)
    = CallGetVendorConfig 2 (Row (exampleVendor 2 "MockASR-Error"))
      :: CallCreateASREvaluationResult row res
      :: calls (vendorLoop env 7 testCase [1] w')
    /\ persisted (calls (vendorLoop env 7 testCase [2; 1] 0))
       = match res with
         | Row id => [ASREvaluationResult.with_ID id row]
         | _ => []
         end ++ persisted (calls (vendorLoop env 7 testCase [1] w'))
    /\ pairOf row = (1, 2)
    /\ ASREvaluationResult.RecognizedText row
       = {| NullString.String := ("Recognition Error: " ++ e)%string;
            NullString.Valid := true |}
    /\ ("Recognition Error: " ++ e)%string <> EmptyString
    /\ (forall (rawResponse : string) (latencyMs : Z),
           ASREvaluationResult.RecognizedText
             (buildResult 7 testCase (exampleVendor 2 "MockASR-Error")
                          ("Recognition Error: " ++ e)%string
                          rawResponse None latencyMs)
           = ASREvaluationResult.RecognizedText row)
    /\ isUnset (ASREvaluationResult.CER row)
    /\ isUnset (ASREvaluationResult.WER row).
Proof.
  cbv zeta.
  apply (recognition_error_recorded Z (exampleEnv false false false) 7
           (exampleTestCase 1 {| NullString.String := "hello world";
                                 NullString.Valid := true |})
           2 [1] (exampleVendor 2 "MockASR-Error") MockASRAdapter 0
           "simulated error from MockASR-Error for file audio.wav");
    reflexivity.
Defined.

(** C6, as stated, fails on two counts.  The result of a pair whose
    recognition call fails is built and handed to the database, but it is
    not persisted when its insertion fails.  And the text recorded is not
    distinct from a real transcript: for a test case without ground truth,
    a successful call that returns "Recognition Error: boom" and a call
    that fails with the error "boom" give the same result. *)
Lemma recognition_error_result_not_persisted :
  map pairOf (submitted (calls (RunASREvaluation
                                  (exampleEnv false false true) 7 [1] [2] 0)))
  = [(1, 2)]
  /\ map ASREvaluationResult.RecognizedText
         (submitted (calls (RunASREvaluation
                              (exampleEnv false false true) 7 [1] [2] 0)))
     = [{| NullString.String :=
             ("Recognition Error: simulated error from MockASR-Error "
              ++ "for file audio.wav")%string;
           NullString.Valid := true |}]
  /\ persisted (calls (RunASREvaluation
                         (exampleEnv false false true) 7 [1] [2] 0)) = []
  /\ buildResult 7 (exampleTestCase 3 NullString.zero)
                 (exampleVendor 1 "MockASR")
                 "Recognition Error: boom" "{}" None 12
     = buildResult 7 (exampleTestCase 3 NullString.zero)
                   (exampleVendor 1 "MockASR")
                   EmptyString "{}" (Some "boom"%string) 12.
Proof. repeat split; vm_compute; reflexivity. Qed.

(** C7. When the test case has a ground truth and the recognition call
    succeeded, a metric whose computation returns an error is recorded as
    unset, not as the value 1.0 that comes with the error; a metric whose
    computation succeeds is recorded with its value.  (With a non-empty
    ground truth only [CalculateWER] can return an error.) *)
Theorem metric_error_recorded_unset
  (W : Type) (env : Env W) (jobID : Z) (testCase : ASRTestCase.t)
  (vendorConfigID : Z) (rest : list Z)
  (vendorConfig : VendorConfig.t) (adapter : ASRAdapter) (w : W)
  (recognizedText rawResponse : string) :
  value (GetVendorConfig env vendorConfigID w) = inl vendorConfig ->
  GetASRAdapter env (Some vendorConfig) = inl adapter ->
  NullString.Valid (ASRTestCase.GroundTruthText testCase) = true ->
  NullString.String (ASRTestCase.GroundTruthText testCase) <> EmptyString ->
  value (Recognize env adapter
           (ASRTestCase.AudioFilePath testCase)
           (NullString.String (ASRTestCase.LanguageCode testCase))
           vendorConfig (world (GetVendorConfig env vendorConfigID w)))
  = (recognizedText, rawResponse, None) ->
  let gt := NullString.String (ASRTestCase.GroundTruthText testCase) in
  exists (row : ASREvaluationResult.t) (res : QueryResult Z) (w' : W),
    calls (vendorLoop env jobID testCase (vendorConfigID :: rest) w)
    = CallGetVendorConfig vendorConfigID (Row vendorConfig)
      :: CallCreateASREvaluationResult row res
      :: calls (vendorLoop env jobID testCase rest w')
    /\ snd (CalculateCER gt recognizedText) = None
    /\ (snd (CalculateCER gt recognizedText) <> None ->
        isUnset (ASREvaluationResult.CER row))
    /\ (snd (CalculateWER gt recognizedText) <> None ->
        isUnset (ASREvaluationResult.WER row))
    /\ (snd (CalculateCER gt recognizedText) = None ->
        ASREvaluationResult.CER row
        = {| NullFloat64.Float64 := fst (CalculateCER gt recognizedText);
             NullFloat64.Valid := true |})
    /\ (snd (CalculateWER gt recognizedText) = None ->
        ASREvaluationResult.WER row
        = {| NullFloat64.Float64 := fst (CalculateWER gt recognizedText);
             NullFloat64.Valid := true |}).
Proof.
  intros E E' Hv Hs Hout gt.
  destruct (vendorLoop_step_calls W env jobID testCase vendorConfigID rest
                                  vendorConfig adapter w E E')
    as (row & res & w' & lat & t & j & Hc & Hrow).
  rewrite Hout in Hrow. cbn [fst snd] in Hrow.
  exists row, res, w'. split; [exact Hc|]. subst row.
  cbn [ASREvaluationResult.with_RawVendorResponse
       ASREvaluationResult.with_CreatedAt
       ASREvaluationResult.CER ASREvaluationResult.WER].
  destruct (buildResult_metrics jobID testCase vendorConfig
              recognizedText rawResponse lat Hv Hs) as [-> ->].
  fold gt. split; [unfold gt; now rewrite (CalculateCER_nonempty _ Hs)|].
  destruct (CalculateCER gt recognizedText) as [cer [ce|]];
    destruct (CalculateWER gt recognizedText) as [wer [we|]];
    cbn [fst snd]; repeat split; intros; try reflexivity; congruence.
Qed.

Lemma metric_error_recorded_unset_witness :
  let env := exampleEnv false false false in
  let testCase := exampleTestCase 4 {| NullString.String := " ";
                                       NullString.Valid := true |} in
  snd (CalculateWER " " (mockText "audio.wav" "en-US")) <> None
  /\ exists (row : ASREvaluationResult.t) (res : QueryResult Z) (w' : Z),
      calls (vendorLoop env 7 testCase [1; 2] 0)
      = CallGetVendorConfig 1 (Row (exampleVendor 1 "MockASR"))
        :: CallCreateASREvaluationResult row res
        :: calls (vendorLoop env 7 testCase [2] w')
      /\ isUnset (ASREvaluationResult.WER row).
Proof.
  cbv zeta.
  assert (Hw : snd (CalculateWER " " (mockText "audio.wav" "en-US")) <> None)
    by (vm_compute; discriminate).
  split; [exact Hw|].
  assert (Hout : exists raw,
             value (Recognize (exampleEnv false false false) MockASRAdapter
                      "audio.wav" "en-US" (exampleVendor 1 "MockASR") 0)
             = (mockText "audio.wav" "en-US", raw, None))
    by (eexists; reflexivity).
  destruct Hout as [raw Hout].
  assert (Hs : " "%string <> EmptyString) by discriminate.
  destruct (metric_error_recorded_unset Z (exampleEnv false false false) 7
              (exampleTestCase 4 {| NullString.String := " ";
                                    NullString.Valid := true |})
              1 [2] (exampleVendor 1 "MockASR") MockASRAdapter 0
              (mockText "audio.wav" "en-US") raw
              eq_refl eq_refl eq_refl Hs Hout)
    as (row & res & w' & Hc & _ & _ & HW & _).
  exists row, res, w'. split; [exact Hc|]. exact (HW Hw).
Defined.

(** ** The adapter factory *)

(** C8. [GetASRAdapter] decides by the name of the vendor configuration
    alone; for every name that the switch does not list it returns the
    mock adapter with a nil error, never an error; and the mock adapter
    makes up a transcript, whatever the audio, unless the vendor is named
    "MockASR-Error". *)
Theorem GetASRAdapter_fallback_to_mock :
  (forall (W : Type) (env : Env W) (vendorConfig : VendorConfig.t),
      ~ In (VendorConfig.Name vendorConfig) knownAdapterNames ->
      GetASRAdapter env (Some vendorConfig) = inl MockASRAdapter)
  /\ (forall (W : Type) (env : Env W) (vc1 vc2 : VendorConfig.t),
      VendorConfig.Name vc1 = VendorConfig.Name vc2 ->
      GetASRAdapter env (Some vc1) = GetASRAdapter env (Some vc2))
  /\ (forall (W : Type) (env : Env W) (audioFilePath languageCode : string)
             (vendorConfig : VendorConfig.t) (w : W),
      VendorConfig.Name vendorConfig <> "MockASR-Error"%string ->
      exists rawResponse : string,
        value (Recognize env MockASRAdapter audioFilePath languageCode
                         vendorConfig w)
        = (mockText audioFilePath languageCode, rawResponse, None)).
Proof.
  split; [|split].
  - intros W env vc H. unfold knownAdapterNames in H. cbn [In] in H.
    unfold GetASRAdapter.
    repeat match goal with
           | |- context [String.eqb (VendorConfig.Name vc) ?s] =>
             let E := fresh "E" in
             destruct (String.eqb_spec (VendorConfig.Name vc) s) as [E|E];
               [exfalso; apply H; rewrite E; cbn; tauto|]
           end.
    reflexivity.
  - intros W env vc1 vc2 E. unfold GetASRAdapter. now rewrite E.
  - intros W env path lang vc w H. cbn [Recognize].
    unfold MockASRAdapter_Recognize.
    apply String.eqb_neq in H. rewrite H. eexists. reflexivity.
Qed.

Lemma GetASRAdapter_fallback_to_mock_witness :
  ~ In (VendorConfig.Name (exampleVendor 4 "AcmeSpeech")) knownAdapterNames
  /\ GetASRAdapter (exampleEnv false true false)
                   (Some (exampleVendor 4 "AcmeSpeech"))
     = inl MockASRAdapter
  /\ exists rawResponse : string,
      value (Recognize (exampleEnv false true false) MockASRAdapter
                       "audio.wav" "en-US" (exampleVendor 4 "AcmeSpeech") 0)
      = (mockText "audio.wav" "en-US", rawResponse, None).
Proof.
  assert (H : ~ In (VendorConfig.Name (exampleVendor 4 "AcmeSpeech"))
                knownAdapterNames).
  { cbn. intros [H|[H|[H|[H|[H|[H|[H|[H|[]]]]]]]]]; discriminate. }
  split; [exact H|]. split.
  - apply (proj1 GetASRAdapter_fallback_to_mock). exact H.
  - apply (proj2 (proj2 GetASRAdapter_fallback_to_mock)). discriminate.
Defined.

(** ** Completion of a run *)

Lemma RunASREvaluation_value
  (W : Type) (env : Env W) (jobID : Z) (testCaseIDs vendorConfigIDs : list Z)
  (w : W) :
  value (RunASREvaluation env jobID testCaseIDs vendorConfigIDs w)
  = if DB_nil env
    then Some "database connection is not initialized"%string
    else None.
Proof.
  unfold RunASREvaluation. destruct (DB_nil env); [reflexivity|].
  now rewrite value_bind.
Qed.

(** A run sends look-ups of test cases and vendors and insertions of
    results, nothing else. *)
Lemma RunASREvaluation_isRunStatement
  (W : Type) (env : Env W) (jobID : Z) (testCaseIDs vendorConfigIDs : list Z)
  (w : W) :
  Forall isRunStatement
         (calls (RunASREvaluation env jobID testCaseIDs vendorConfigIDs w)).
Proof.
  apply RunASREvaluation_calls_Forall; try (intros; exact I).
  intros tid tc vid vc a w1 w2 _ _ _ Ev _.
  destruct (evaluatePair_calls W env jobID tc vc a
              (world (GetVendorConfig env vid w2))
              (proj1 (GetVendorConfig_found W env vid w2 vc Ev)))
    as (row & w3 & lat & t & j & Hc & _).
  rewrite Hc. repeat constructor.
Qed.

Section JobFacts.
Variable W : Type.
Variable env : Env W.

Lemma UpdateEvaluationJobStatus_run (id : Z) (status : string) (w : W) :
  DB_nil env = false ->
  exists err res w',
    UpdateEvaluationJobStatus env id status w
    = (err, [CallUpdateEvaluationJobStatus id status res], w')
    /\ (err = None <-> execSucceeded res = true).
Proof.
  intro HDB. unfold UpdateEvaluationJobStatus. rewrite HDB.
  destruct (ExecUpdateStatus env id status w) as [res w'].
  eexists. exists res, w'. split; [reflexivity|].
  destruct res as [m|m|n]; cbn [execSucceeded];
    try (split; discriminate).
  destruct (n =? 0); cbn [negb]; split; (discriminate || reflexivity).
Qed.

Lemma UpdateEvaluationJobTimestamps_run (id : Z)
  (startTime endTime : NullTime.t) (w : W) :
  DB_nil env = false ->
  NullTime.Valid startTime || NullTime.Valid endTime = true ->
  exists err res w',
    UpdateEvaluationJobTimestamps env id startTime endTime w
    = (err, [CallUpdateEvaluationJobTimestamps id startTime endTime res], w')
    /\ (err = None <-> execSucceeded res = true).
Proof.
  intros HDB Hv. unfold UpdateEvaluationJobTimestamps. rewrite HDB.
  replace (negb (NullTime.Valid startTime) && negb (NullTime.Valid endTime))
    with false
    by (destruct (NullTime.Valid startTime), (NullTime.Valid endTime);
        (discriminate || reflexivity)).
  destruct (ExecUpdateTimestamps env id startTime endTime w) as [res w'].
  eexists. exists res, w'. split; [reflexivity|].
  destruct res as [m|m|n]; cbn [execSucceeded];
    try (split; discriminate).
  destruct (n =? 0); cbn [negb]; split; (discriminate || reflexivity).
Qed.

Lemma GetEvaluationJob_run (id : Z) (w : W) :
  DB_nil env = false ->
  exists fetched res w',
    GetEvaluationJob env id w = (fetched, [CallGetEvaluationJob id res], w')
    /\ match fetched with
       | inl job =>
         exists stored : EvaluationJob.t,
           res = Row stored
           /\ EvaluationJob.Status job = EvaluationJob.Status stored
       | inr _ => forall stored : EvaluationJob.t, res <> Row stored
       end.
Proof.
  intro HDB. unfold GetEvaluationJob. rewrite HDB.
  destruct (SelectEvaluationJob env id w) as [[stored| |msg] w'];
    eexists; eexists; eexists; (split; [reflexivity|]);
    try (intro; discriminate).
  exists stored. split; [reflexivity|].
  destruct (notNil _ && _); reflexivity.
Qed.

Lemma CreateEvaluationJob_run (job : EvaluationJob.t) (w : W) :
  let out := CreateEvaluationJob env job w in
  (DB_nil env = true /\ calls out = [] /\ exists e, snd (value out) = Some e)
  \/ (DB_nil env = false
      /\ exists row res,
          calls out = [CallCreateEvaluationJob row res]
          /\ EvaluationJob.JobName row = EvaluationJob.JobName job
          /\ EvaluationJob.JobType row = EvaluationJob.JobType job
          /\ EvaluationJob.Status row = EvaluationJob.Status job
          /\ EvaluationJob.VendorConfigIDs row
             = (if notNil (EvaluationJob.VendorConfigIDs job)
                then EvaluationJob.VendorConfigIDs job else Some "[]"%string)
          /\ EvaluationJob.TestCaseIDs row
             = (if notNil (EvaluationJob.TestCaseIDs job)
                then EvaluationJob.TestCaseIDs job else Some "[]"%string)
          /\ EvaluationJob.Parameters row
             = (if notNil (EvaluationJob.Parameters job)
                   && (0 <? len_raw (EvaluationJob.Parameters job))
                then EvaluationJob.Parameters job else Some "null"%string)
          /\ match res with
             | Row id =>
               snd (value out) = None /\ snd (fst (value out)) = id
             | _ => exists e, snd (value out) = Some e
             end).
Proof.
  cbv zeta. unfold CreateEvaluationJob.
  destruct (DB_nil env);
    [left; split; [reflexivity|split; [reflexivity|eexists; reflexivity]]|].
  right. split; [reflexivity|]. cbv beta iota zeta.
  match goal with
  | |- context [InsertEvaluationJob env ?r w] =>
    destruct (InsertEvaluationJob env r w) as [res w'];
      exists r, res
  end.
  destruct res as [id| |msg]; cbn [calls value fst snd];
    repeat (split; [reflexivity|]);
    first [split; reflexivity | eexists; reflexivity].
Qed.

(** Steps 3 and 4 of [CreateAndRunASRJob] with an initialised handle. *)
Lemma runAndRecord_completed (job : EvaluationJob.t) (jobID : Z)
  (testCaseIDs vendorConfigIDs : list Z) (w : W) :
  DB_nil env = false ->
  exists (res res' : ExecResult) (completedTime : Z)
         (read : QueryResult EvaluationJob.t) (returned : EvaluationJob.t),
    calls (runAndRecord env job jobID testCaseIDs vendorConfigIDs w)
    = calls (RunASREvaluation env jobID testCaseIDs vendorConfigIDs w)
      ++ [CallUpdateEvaluationJobStatus jobID JobStatusCompleted res;
          CallUpdateEvaluationJobTimestamps jobID NullTime.zero
            (validTime completedTime) res';
          CallGetEvaluationJob jobID read]
    /\ value (runAndRecord env job jobID testCaseIDs vendorConfigIDs w)
       = (Some returned, None)
    /\ ((exists stored : EvaluationJob.t,
            read = Row stored
            /\ EvaluationJob.Status returned = EvaluationJob.Status stored)
        \/ ((forall stored : EvaluationJob.t, read <> Row stored)
            /\ returned
               = EvaluationJob.with_CompletedAt
                   (validTime completedTime)
                   (EvaluationJob.with_Status JobStatusCompleted job))).
Proof.
  intro HDB.
  pose proof (RunASREvaluation_value W env jobID testCaseIDs
                                     vendorConfigIDs w) as Hv.
  rewrite HDB in Hv. unfold runAndRecord, bind.
  destruct (RunASREvaluation env jobID testCaseIDs vendorConfigIDs w)
    as [[evalErr cs] w1].
  cbn [value fst] in Hv. subst evalErr.
  unfold now, ret, UpdateEvaluationJobStatus, UpdateEvaluationJobTimestamps,
    GetEvaluationJob.
  rewrite HDB. cbv beta iota zeta.
  destruct (ExecUpdateStatus env jobID JobStatusCompleted w1) as [res w2].
  cbn [NullTime.Valid NullTime.zero negb andb]. cbv beta iota zeta.
  destruct (ExecUpdateTimestamps env jobID NullTime.zero
              {| NullTime.Time := time_Now env w1; NullTime.Valid := true |}
              w2) as [res' w3].
  cbv beta iota zeta.
  exists res, res', (time_Now env w1).
  destruct (SelectEvaluationJob env jobID w3) as [[stored| |msg] w4];
    cbv beta iota zeta; eexists; eexists;
    (split; [reflexivity|]); (split; [reflexivity|]).
  - left. exists stored. split; [reflexivity|].
    destruct (notNil _ && _); reflexivity.
  - right. split; [discriminate|reflexivity].
  - right. split; [discriminate|reflexivity].
Qed.

(** Steps 3 and 4 of [CreateAndRunASRJob] with a nil handle. *)
Lemma runAndRecord_failed (job : EvaluationJob.t) (jobID : Z)
  (testCaseIDs vendorConfigIDs : list Z) (w : W) :
  DB_nil env = true ->
  runAndRecord env job jobID testCaseIDs vendorConfigIDs w
  = ((Some (EvaluationJob.with_CompletedAt
              (validTime (time_Now env w))
              (EvaluationJob.with_Status JobStatusFailed job)),
      Some "database connection is not initialized"%string), [], w).
Proof.
  intro HDB.
  unfold runAndRecord, RunASREvaluation, bind, ret, now,
    UpdateEvaluationJobStatus, UpdateEvaluationJobTimestamps,
    GetEvaluationJob.
  rewrite HDB. reflexivity.
Qed.

(** The statements and the result of [CreateAndRunASRJob], case by case:
    the insertion of the job fails; or the job cannot be started; or the
    evaluation runs. *)
Lemma CreateAndRunASRJob_trace (jobName : NullString.t)
  (testCaseIDs vendorConfigIDs : list Z) (params : RawMessage) (w : W) :
  let out := CreateAndRunASRJob env jobName testCaseIDs vendorConfigIDs
                                params w in
  (fst (value out) = None
   /\ (exists e, snd (value out) = Some e)
   /\ (calls out = []
       \/ exists row res,
           pendingJobRow jobName testCaseIDs vendorConfigIDs params row
           /\ (forall id, res <> Row id)
           /\ calls out = [CallCreateEvaluationJob row res]))
  \/ (exists row id j,
         pendingJobRow jobName testCaseIDs vendorConfigIDs params row
         /\ DB_nil env = false
         /\ fst (value out) = Some j
         /\ ((failedJobTrace row id (calls out)
              /\ EvaluationJob.Status j = JobStatusFailed
              /\ EvaluationJob.ID j = id
              /\ exists e, snd (value out) = Some e)
             \/ (snd (value out) = None
                 /\ exists r1 t1 r2 w' r3 t2 r4 r5,
                     execSucceeded r1 = true /\ execSucceeded r2 = true
                     /\ calls out
                        = ([CallCreateEvaluationJob row (Row id);
                            CallUpdateEvaluationJobStatus
                              id JobStatusRunning r1;
                            CallUpdateEvaluationJobTimestamps
                              id (validTime t1) NullTime.zero r2]
                           ++ calls (RunASREvaluation
                                       env id testCaseIDs vendorConfigIDs w')
                           ++ [CallUpdateEvaluationJobStatus
                                 id JobStatusCompleted r3;
                               CallUpdateEvaluationJobTimestamps
                                 id NullTime.zero (validTime t2) r4;
                               CallGetEvaluationJob id r5])
                     /\ ((exists stored : EvaluationJob.t,
                             r5 = Row stored
                             /\ EvaluationJob.Status j
                                = EvaluationJob.Status stored)
                         \/ ((forall stored : EvaluationJob.t,
                                 r5 <> Row stored)
                             /\ EvaluationJob.Status j
                                = JobStatusCompleted))))).
Proof.
  cbv zeta. unfold CreateAndRunASRJob, MarshalIntSliceToJSON.
  cbv beta iota zeta.
  rewrite !calls_bind, !value_bind.
  match goal with
  | |- context [CreateEvaluationJob env ?j w] =>
    pose proof (CreateEvaluationJob_run j w) as Hc;
      cbv zeta in Hc;
      destruct (CreateEvaluationJob env j w) as [[[[job1 jobID] err] cs0] w1]
  end.
  cbn [value calls world fst snd] in *.
  destruct Hc as [(_ & -> & [e ->])
                 |(HDB & row & res & -> & Hn & Ht & Hs & Hv & Hi & Hp & Hres)].
  { left. cbn. split; [reflexivity|]. split; [eexists; reflexivity|].
    now left. }
  assert (Hrow : pendingJobRow jobName testCaseIDs vendorConfigIDs params row).
  { cbn in *. unfold pendingJobRow, MarshalIntSliceToJSON. cbn [fst].
    repeat split; assumption. }
  clear Hn Ht Hs Hv Hi Hp.
  destruct res as [id| |msg].
  2,3: destruct Hres as [e ->]; left; cbn; (split; [reflexivity|]);
    (split; [eexists; reflexivity|]); right; exists row; eexists;
    (split; [exact Hrow|]); (split; [|reflexivity]); intros ? ?; discriminate.
  destruct Hres as [-> ->].
  right. exists row, id.
  rewrite ?calls_bind, ?value_bind, ?world_bind.
  destruct (UpdateEvaluationJobStatus_run id JobStatusRunning w1 HDB)
    as (e1 & r1 & w2 & E1 & Hr1).
  rewrite E1. cbn [value calls world fst snd].
  destruct e1 as [e|].
  - (* the update to RUNNING fails *)
    rewrite ?calls_bind, ?value_bind, ?world_bind.
    destruct (UpdateEvaluationJobStatus_run id JobStatusFailed w2 HDB)
      as (e2 & r2 & w3 & E2 & _).
    rewrite E2. cbn [value calls world fst snd now].
    destruct (UpdateEvaluationJobTimestamps_run id NullTime.zero
                (validTime (time_Now env w3)) w3 HDB eq_refl)
      as (e3 & r3 & w4 & E3 & _).
    unfold validTime in E3. rewrite E3. cbn [value calls world fst snd ret].
    eexists. split; [exact Hrow|]. split; [exact HDB|].
    split; [reflexivity|]. left.
    split; [|split; [reflexivity|split; [reflexivity|eexists; reflexivity]]].
    left. exists r1, r2, (time_Now env w3), r3.
    split; [|reflexivity].
    destruct (execSucceeded r1); [|reflexivity].
    destruct Hr1 as [_ Hr1]. discriminate (Hr1 eq_refl).
  - rewrite ?calls_bind, ?value_bind, ?world_bind.
    cbn [value calls world fst snd now].
    destruct (UpdateEvaluationJobTimestamps_run id
                (validTime (time_Now env w2)) NullTime.zero w2 HDB eq_refl)
      as (e2 & r2 & w3 & E2 & Hr2).
    unfold validTime in E2. rewrite E2. cbn [value calls world fst snd].
    destruct e2 as [e|].
    + (* the update of the start time fails *)
      rewrite ?calls_bind, ?value_bind, ?world_bind.
      destruct (UpdateEvaluationJobStatus_run id JobStatusFailed w3 HDB)
        as (e3 & r3 & w4 & E3 & _).
      rewrite E3. cbn [value calls world fst snd now].
      destruct (UpdateEvaluationJobTimestamps_run id NullTime.zero
                  (validTime (time_Now env w4)) w4 HDB eq_refl)
        as (e4 & r4 & w5 & E4 & _).
      unfold validTime in E4. rewrite E4. cbn [value calls world fst snd ret].
      eexists. split; [exact Hrow|]. split; [exact HDB|].
      split; [reflexivity|]. left.
      split; [|split; [reflexivity|split; [reflexivity|eexists; reflexivity]]].
      right. exists r1, (time_Now env w2), r2, r3, (time_Now env w4), r4.
      split; [now apply Hr1|]. split; [|reflexivity].
      destruct (execSucceeded r2); [|reflexivity].
      destruct Hr2 as [_ Hr2]. discriminate (Hr2 eq_refl).
    + (* the evaluation runs *)
      match goal with
      | |- context [runAndRecord env ?j id testCaseIDs vendorConfigIDs w3] =>
        destruct (runAndRecord_completed j id testCaseIDs
                    vendorConfigIDs w3 HDB)
          as (r3 & r4 & t2 & r5 & returned & Hcs & Hval & Hret)
      end.
      exists returned. split; [exact Hrow|]. split; [exact HDB|].
      split; [exact (f_equal fst Hval)|]. right.
      split; [exact (f_equal snd Hval)|].
      exists r1, (time_Now env w2), r2, w3, r3, t2, r4, r5.
      split; [now apply Hr1|]. split; [now apply Hr2|].
      split.
      * unfold validTime. cbn [app]. do 3 f_equal. exact Hcs.
      * destruct Hret as [Hret|[Hn ->]]; [left; exact Hret|].
        right. split; [exact Hn|reflexivity].
Qed.

Lemma CreateAndRunASRJob_outcome (jobName : NullString.t)
  (testCaseIDs vendorConfigIDs : list Z) (params : RawMessage) (w : W) :
  jobOutcome (CreateAndRunASRJob env jobName testCaseIDs vendorConfigIDs
                                 params w).
Proof.
  pose proof (CreateAndRunASRJob_trace jobName testCaseIDs vendorConfigIDs
                                       params w) as H.
  cbv zeta in H. unfold jobOutcome.
  destruct H as [(Hj & [e He] & Hcs)
                |(row & id & j & _ & _ & Hj
                  & [(Hf & Hs & Hid & [e He])
                    |(He & r1 & t1 & r2 & w' & r3 & t2 & r4 & r5 & _ & _
                      & Hcs & Hret)])].
  - split; [rewrite He; discriminate|]. intros e' _. split.
    + destruct Hcs as [->|(row & res & _ & _ & ->)]; repeat constructor.
    + intros job Hjob. congruence.
  - split; [rewrite He; discriminate|]. intros e' _. split.
    + destruct Hf as [(q1 & q2 & t & q3 & _ & ->)
                     |(q1 & u1 & q2 & q3 & u2 & q4 & _ & _ & ->)];
        repeat constructor.
    + intros job Hjob. rewrite Hj in Hjob. injection Hjob as <-.
      split; [exact Hs|]. rewrite Hid.
      destruct Hf as [(q1 & q2 & t & q3 & _ & ->)
                     |(q1 & u1 & q2 & q3 & u2 & q4 & _ & _ & ->)].
      * exists q2. right. right. now left.
      * exists q3. right. right. right. now left.
  - split; [|rewrite He; discriminate].
    intros _. exists id, r3, j. rewrite Hcs.
    split; [|split; [|split; [exact Hj|]]].
    + apply in_or_app. right. apply in_or_app. right. now left.
    + intros res' Hin. apply in_app_or in Hin.
      destruct Hin as [[H|[H|[H|[]]]]|Hin]; try discriminate.
      apply in_app_or in Hin. destruct Hin as [Hin|[H|[H|[H|[]]]]];
        try discriminate.
      pose proof (RunASREvaluation_isRunStatement
                    W env id testCaseIDs vendorConfigIDs w') as Hrun.
      rewrite Forall_forall in Hrun. exact (Hrun _ Hin).
    + destruct Hret as [(stored & -> & Hst)|[_ Hst]]; [right|now left].
      exists stored. split; [|exact Hst].
      apply in_or_app. right. apply in_or_app. right.
      right. right. now left.
Qed.

End JobFacts.

(** C5 (amended). [RunASREvaluation] returns a nil error whenever the
    database handle is initialised, whatever happens to the individual
    pairs; the job service then sets the status of its copy of the job to
    "COMPLETED" and sends the update to "COMPLETED", the completion time
    and the query that reads the job back.  A failure of that update is
    not reported: the error returned is nil all the same, so the job is
    marked "COMPLETED" in the database only if the update goes through;
    the job returned is the one read back, whatever its status, or, when
    it cannot be read back, the copy with the status "COMPLETED".  The run
    returns an error only when the handle is nil, before the loop and
    without any statement; the branch of the job service that then gives
    the job the status "FAILED" cannot send its update, and
    [CreateAndRunASRJob] never takes it: it returns an error only when a
    step before the run fails, having sent statements on the table of the
    jobs only, and a job that it returns with an error has the status
    "FAILED", for which an update was sent. *)
Theorem RunASREvaluation_completion
  (W : Type) (env : Env W) (jobID : Z) (testCaseIDs vendorConfigIDs : list Z)
  (w : W) :
  (DB_nil env = false ->
   value (RunASREvaluation env jobID testCaseIDs vendorConfigIDs w) = None)
  /\ (forall e : string,
        value (RunASREvaluation env jobID testCaseIDs vendorConfigIDs w)
        = Some e ->
        DB_nil env = true
        /\ RunASREvaluation env jobID testCaseIDs vendorConfigIDs w
           = (Some e, [], w))
  /\ (forall job : EvaluationJob.t,
        DB_nil env = false ->
        exists (res res' : ExecResult) (completedTime : Z)
               (read : QueryResult EvaluationJob.t)
               (returned : EvaluationJob.t),
          calls (runAndRecord env job jobID testCaseIDs vendorConfigIDs w)
          = calls (RunASREvaluation env jobID testCaseIDs vendorConfigIDs w)
            ++ [CallUpdateEvaluationJobStatus jobID JobStatusCompleted res;
                CallUpdateEvaluationJobTimestamps jobID NullTime.zero
                  (validTime completedTime) res';
                CallGetEvaluationJob jobID read]
          /\ value (runAndRecord env job jobID testCaseIDs
                                 vendorConfigIDs w)
             = (Some returned, None)
          /\ ((exists stored : EvaluationJob.t,
                  read = Row stored
                  /\ EvaluationJob.Status returned
                     = EvaluationJob.Status stored)
              \/ ((forall stored : EvaluationJob.t, read <> Row stored)
                  /\ returned
                     = EvaluationJob.with_CompletedAt
                         (validTime completedTime)
                         (EvaluationJob.with_Status JobStatusCompleted
                                                    job))))
  /\ (forall job : EvaluationJob.t,
        DB_nil env = true ->
        runAndRecord env job jobID testCaseIDs vendorConfigIDs w
        = ((Some (EvaluationJob.with_CompletedAt
                    (validTime (time_Now env w))
                    (EvaluationJob.with_Status JobStatusFailed job)),
            Some "database connection is not initialized"%string), [], w))
  /\ (forall (jobName : NullString.t) (params : RawMessage),
        jobOutcome (CreateAndRunASRJob env jobName testCaseIDs
                                       vendorConfigIDs params w)).
Proof.
  split; [|split; [|split; [|split]]].
  - intro H. now rewrite RunASREvaluation_value, H.
  - intros e H. rewrite RunASREvaluation_value in H.
    unfold RunASREvaluation.
    destruct (DB_nil env); [|discriminate].
    injection H as <-. split; reflexivity.
  - intros job H. now apply runAndRecord_completed.
  - intros job H. now apply runAndRecord_failed.
  - intros jobName params. apply CreateAndRunASRJob_outcome.
Qed.

Lemma RunASREvaluation_completion_witness :
  DB_nil (exampleEnv false false false) = false
  /\ value (RunASREvaluation (exampleEnv false false false) 7
                             [1; 2; 3] [1; 2; 3; 4] 0) = None
  /\ DB_nil (exampleEnv true false false) = true
  /\ runAndRecord (exampleEnv true false false) (exampleJob 7 "RUNNING")
                  7 [1] [1] 5
     = ((Some (EvaluationJob.with_CompletedAt
                 (validTime 5)
                 (EvaluationJob.with_Status JobStatusFailed
                                            (exampleJob 7 "RUNNING"))),
         Some "database connection is not initialized"%string), [], 5).
Proof.
  split; [reflexivity|]. split.
  - apply (proj1 (RunASREvaluation_completion
                    Z (exampleEnv false false false) 7
                    [1; 2; 3] [1; 2; 3; 4] 0)).
    reflexivity.
  - split; [reflexivity|].
    apply (proj1 (proj2 (proj2 (proj2
             (RunASREvaluation_completion
                Z (exampleEnv true false false) 7 [1] [1] 5))))).
    reflexivity.
Defined.

(** C5, as stated, fails.  In a deployment where the update of a job to
    "COMPLETED" fails, the loop finishes, the run returns a nil error and
    so does the job service, yet the job is not marked "COMPLETED": the
    update that would mark it has failed, which is only logged, and the
    job read back and returned still has the status "RUNNING". *)
Lemma RunASREvaluation_completed_job_left_running :
  value (RunASREvaluation exampleStuckEnv 7 [1] [1] 3) = None
  /\ value (CreateAndRunASRJob exampleStuckEnv NullString.zero [1] [1]
                               None 0)
     = (Some (EvaluationJob.with_Parameters None (exampleJob 7 "RUNNING")),
        None)
  /\ EvaluationJob.Status
       (EvaluationJob.with_Parameters None (exampleJob 7 "RUNNING"))
     = JobStatusRunning
  /\ In (CallUpdateEvaluationJobStatus 7 JobStatusCompleted
                                       (ExecError "connection reset"))
        (calls (CreateAndRunASRJob exampleStuckEnv NullString.zero [1] [1]
                                   None 0))
  /\ execSucceeded (ExecError "connection reset") = false.
Proof.
  split; [reflexivity|]. split; [vm_compute; reflexivity|].
  split; [reflexivity|]. split; [|reflexivity].
  vm_compute. do 6 right. left. reflexivity.
Qed.
(** * Further properties *)

(** ** Edit scripts: bounds, symmetry, composition *)

Set Implicit Arguments.

Lemma edits_length_diff (A : Type) (s t : list A) (n : Z) :
  edits s t n -> Z.abs (len s - len t) <= n.
Proof. induction 1; rewrite ?len_cons in *; cbn [len List.length] in *; lia. Qed.

Lemma edits_max (A : Type) (s t : list A) :
  edits s t (Z.max (len s) (len t)).
Proof.
  revert t. induction s as [|a s IH]; intro t.
  - rewrite Z.max_r by apply len_nonneg. apply edits_nil_l.
  - destruct t as [|b t].
    + rewrite Z.max_l by apply len_nonneg. apply edits_nil_r.
    + eapply edits_cost; [apply (edits_sub a b (IH t))|].
      rewrite !len_cons. lia.
Qed.

Lemma edits_zero (A : Type) (s t : list A) (n : Z) :
  edits s t n -> n = 0 -> s = t.
Proof.
  induction 1; intro E.
  - reflexivity.
  - now rewrite IHedits.
  - pose proof (edits_nonneg H). lia.
  - pose proof (edits_nonneg H). lia.
  - pose proof (edits_nonneg H). lia.
Qed.

Lemma edits_sym (A : Type) (s t : list A) (n : Z) :
  edits s t n -> edits t s n.
Proof. induction 1; now constructor. Qed.

(** Two edit scripts in a row are no cheaper than a direct one. *)
Lemma edits_trans (A : Type) (s t : list A) (n : Z) :
  edits s t n ->
  forall (u : list A) (m : Z),
    edits t u m -> exists k, k <= n + m /\ edits s u k.
Proof.
  induction 1 as [|a s t n H IH|a b s t n H IH|a s t n H IH|b s t n H IH];
    intros u m Hu.
  - exists m. split; [lia|exact Hu].
  - remember (a :: t) as t' eqn:Et.
    induction Hu as [|c t0 u m Hu _|c d t0 u m Hu _|c t0 u m Hu _
                     |d t0 u m Hu IHu]; try discriminate.
    + injection Et as -> ->. destruct (IH _ _ Hu) as (k & Hk & Hs).
      exists k. split; [lia|now constructor].
    + injection Et as -> ->. destruct (IH _ _ Hu) as (k & Hk & Hs).
      exists (k + 1). split; [lia|now constructor].
    + injection Et as -> ->. destruct (IH _ _ Hu) as (k & Hk & Hs).
      exists (k + 1). split; [lia|now constructor].
    + destruct (IHu Et) as (k & Hk & Hs).
      exists (k + 1). split; [lia|now constructor].
  - remember (b :: t) as t' eqn:Et.
    induction Hu as [|c t0 u m Hu _|c d t0 u m Hu _|c t0 u m Hu _
                     |d t0 u m Hu IHu]; try discriminate.
    + injection Et as -> ->. destruct (IH _ _ Hu) as (k & Hk & Hs).
      exists (k + 1). split; [lia|now constructor].
    + injection Et as -> ->. destruct (IH _ _ Hu) as (k & Hk & Hs).
      exists (k + 1). split; [lia|now constructor].
    + injection Et as -> ->. destruct (IH _ _ Hu) as (k & Hk & Hs).
      exists (k + 1). split; [lia|now constructor].
    + destruct (IHu Et) as (k & Hk & Hs).
      exists (k + 1). split; [lia|now constructor].
  - destruct (IH _ _ Hu) as (k & Hk & Hs).
    exists (k + 1). split; [lia|now constructor].
  - remember (b :: t) as t' eqn:Et.
    induction Hu as [|c t0 u m Hu _|c d t0 u m Hu _|c t0 u m Hu _
                     |d t0 u m Hu IHu]; try discriminate.
    + injection Et as -> ->. destruct (IH _ _ Hu) as (k & Hk & Hs).
      exists (k + 1). split; [lia|now constructor].
    + injection Et as -> ->. destruct (IH _ _ Hu) as (k & Hk & Hs).
      exists (k + 1). split; [lia|now constructor].
    + injection Et as -> ->. destruct (IH _ _ Hu) as (k & Hk & Hs).
      exists k. split; [lia|exact Hs].
    + destruct (IHu Et) as (k & Hk & Hs).
      exists (k + 1). split; [lia|now constructor].
Qed.

Section LevMetric.
Variable A : Type.
Variable eqb : A -> A -> bool.
Hypothesis eqb_eq : forall a b, eqb a b = true <-> a = b.

Lemma lev_nonneg (s t : list A) : 0 <= lev eqb s t.
Proof. apply (edits_nonneg (lev_edits eqb eqb_eq s t)). Qed.

Lemma lev_lower (s t : list A) : Z.abs (len s - len t) <= lev eqb s t.
Proof. apply edits_length_diff, (lev_edits eqb eqb_eq). Qed.

Lemma lev_upper (s t : list A) : lev eqb s t <= Z.max (len s) (len t).
Proof. apply (lev_le eqb eqb_eq), edits_max. Qed.

Lemma lev_zero (s t : list A) : lev eqb s t = 0 <-> s = t.
Proof.
  split.
  - intro E. apply (edits_zero (lev_edits eqb eqb_eq s t) E).
  - intros ->. now apply lev_refl.
Qed.

Lemma lev_sym (s t : list A) : lev eqb s t = lev eqb t s.
Proof.
  apply Z.le_antisymm; apply (lev_le eqb eqb_eq), edits_sym,
    (lev_edits eqb eqb_eq).
Qed.

Lemma lev_triangle (s t u : list A) :
  lev eqb s u <= lev eqb s t + lev eqb t u.
Proof.
  destruct (edits_trans (lev_edits eqb eqb_eq s t) (lev_edits eqb eqb_eq t u))
    as (k & Hk & Hs).
  pose proof (lev_le eqb eqb_eq Hs). lia.
Qed.

End LevMetric.

(** ** Error rates as quotients *)

Unset Implicit Arguments.

Lemma rate_nonneg (d n : Z) :
  0 <= d -> 0 < n -> (0 <= float64 d / float64 n)%Q.
Proof.
  intros Hd Hn. destruct n as [|p|p]; try lia.
  unfold float64, Qdiv, Qinv, Qmult, Qle, inject_Z. cbn. lia.
Qed.

Lemma rate_le_1 (d n : Z) :
  d <= n -> 0 < n -> (float64 d / float64 n <= 1)%Q.
Proof.
  intros Hd Hn. destruct n as [|p|p]; try lia.
  unfold float64, Qdiv, Qinv, Qmult, Qle, inject_Z. cbn. lia.
Qed.

Lemma rate_zero (d n : Z) :
  0 < n -> ((float64 d / float64 n == 0)%Q <-> d = 0).
Proof.
  intro Hn. destruct n as [|p|p]; try lia.
  unfold float64, Qdiv, Qinv, Qmult, Qeq, inject_Z. cbn. lia.
Qed.

Lemma rate_one (n : Z) : 0 < n -> (float64 n / float64 n == 1)%Q.
Proof.
  intro Hn. destruct n as [|p|p]; try lia.
  unfold float64, Qdiv, Qinv, Qmult, Qeq, inject_Z. cbn. lia.
Qed.

(** The three outcomes of [CalculateCER]. *)
Lemma CalculateCER_cases (groundTruth recognizedText : string) :
  (groundTruth = EmptyString /\ recognizedText = EmptyString
   /\ CalculateCER groundTruth recognizedText = (0%Q, None))
  \/ (groundTruth = EmptyString /\ recognizedText <> EmptyString
      /\ exists msg, CalculateCER groundTruth recognizedText
                     = (1%Q, Some msg))
  \/ (groundTruth <> EmptyString
      /\ CalculateCER groundTruth recognizedText
         = ((float64 (lev Z.eqb (runes groundTruth) (runes recognizedText))
             / float64 (len (runes groundTruth)))%Q, None)).
Proof.
  destruct (String.eqb_spec groundTruth EmptyString) as [Eg|Eg].
  - destruct (String.eqb_spec recognizedText EmptyString) as [Er|Er].
    + left. subst. repeat split.
    + right; left. subst. repeat split; [exact Er|].
      unfold CalculateCER. cbn [String.eqb andb].
      rewrite (eqb_empty_false Er). eexists. reflexivity.
  - right; right. split; [exact Eg|].
    apply (@CalculateCER_nonempty groundTruth recognizedText Eg).
Qed.

(** The five outcomes of [CalculateWER]. *)
Lemma CalculateWER_cases (groundTruth recognizedText : string) :
  (groundTruth = EmptyString /\ recognizedText = EmptyString
   /\ CalculateWER groundTruth recognizedText = (0%Q, None))
  \/ (groundTruth = EmptyString /\ recognizedText <> EmptyString
      /\ exists msg, CalculateWER groundTruth recognizedText
                     = (1%Q, Some msg))
  \/ (groundTruth <> EmptyString /\ words groundTruth = []
      /\ words recognizedText = []
      /\ CalculateWER groundTruth recognizedText = (0%Q, None))
  \/ (groundTruth <> EmptyString /\ words groundTruth = []
      /\ words recognizedText <> []
      /\ exists msg, CalculateWER groundTruth recognizedText
                     = (1%Q, Some msg))
  \/ (words groundTruth <> []
      /\ CalculateWER groundTruth recognizedText
         = ((float64 (lev String.eqb (words groundTruth)
                          (words recognizedText))
             / float64 (len (words groundTruth)))%Q, None)).
Proof.
  rewrite <- !Fields_words.
  destruct (String.eqb_spec groundTruth EmptyString) as [Eg|Eg].
  - destruct (String.eqb_spec recognizedText EmptyString) as [Er|Er].
    + left. subst. repeat split.
    + right; left. subst. repeat split; [exact Er|].
      unfold CalculateWER. cbn [String.eqb andb].
      rewrite (eqb_empty_false Er). eexists. reflexivity.
  - destruct (strings.Fields groundTruth) as [|w ws] eqn:Ew.
    + destruct (strings.Fields recognizedText) as [|v vs] eqn:Ev.
      * right; right; left. repeat split; [exact Eg|].
        unfold CalculateWER. rewrite (eqb_empty_false Eg), Ew, Ev.
        reflexivity.
      * right; right; right; left.
        repeat split; [exact Eg|discriminate|].
        unfold CalculateWER. rewrite (eqb_empty_false Eg), Ew, Ev.
        cbn [andb len List.length Z.of_nat Z.eqb].
        destruct (Z.eqb_spec (Z.pos (Pos.of_succ_nat (List.length vs))) 0);
          [lia|]. eexists. reflexivity.
    + right; right; right; right. rewrite <- Ew.
      assert (H : strings.Fields groundTruth <> [])
        by (rewrite Ew; discriminate).
      split; [exact H|].
      apply (@CalculateWER_words groundTruth recognizedText H).
Qed.

(** ** More on the metrics *)

(** X1. [CalculateCER] returns an error exactly when the ground truth is
    the empty string and the recognized text is not; the value that comes
    with the error is 1.0. *)
Theorem CalculateCER_error_iff (groundTruth recognizedText : string) :
  (snd (CalculateCER groundTruth recognizedText) <> None
   <-> groundTruth = EmptyString /\ recognizedText <> EmptyString)
  /\ (snd (CalculateCER groundTruth recognizedText) <> None ->
      fst (CalculateCER groundTruth recognizedText) = 1%Q).
Proof.
  destruct (CalculateCER_cases groundTruth recognizedText)
    as [(Eg & Er & ->)|[(Eg & Er & msg & ->)|(Eg & ->)]]; cbn [fst snd].
  - split; [split|]; [congruence|intros [_ H]; contradiction|congruence].
  - split; [split|]; [now split|discriminate|reflexivity].
  - split; [split|]; [congruence|intros [H _]; contradiction|congruence].
Qed.

(** X2. [CalculateWER] returns an error exactly when the ground truth is
    the empty string and the recognized text is not, or when the ground
    truth is blank (not empty, but without a word) and the recognized text
    has a word; the value that comes with the error is 1.0.  So an empty
    ground truth against a blank recognized text is an error, a blank
    ground truth against a blank recognized text is not. *)
Theorem CalculateWER_error_iff (groundTruth recognizedText : string) :
  (snd (CalculateWER groundTruth recognizedText) <> None
   <-> (groundTruth = EmptyString /\ recognizedText <> EmptyString)
       \/ (groundTruth <> EmptyString /\ words groundTruth = []
           /\ words recognizedText <> []))
  /\ (snd (CalculateWER groundTruth recognizedText) <> None ->
      fst (CalculateWER groundTruth recognizedText) = 1%Q).
Proof.
  destruct (CalculateWER_cases groundTruth recognizedText)
    as [(Eg & Er & ->)|[(Eg & Er & msg & ->)|[(Eg & Ew & Ev & ->)
        |[(Eg & Ew & Ev & msg & ->)|(Ew & ->)]]]]; cbn [fst snd].
  - split; [split|]; [congruence| |congruence].
    intros [[_ H]|[H _]]; contradiction.
  - split; [split|]; [left; now split|discriminate|reflexivity].
  - split; [split|]; [congruence| |congruence].
    intros [[H _]|(_ & _ & H)]; contradiction.
  - split; [split|]; [right; now repeat split|discriminate|reflexivity].
  - split; [split|]; [congruence| |congruence].
    intros [[H _]|(_ & H & _)]; exfalso;
      [subst; apply Ew; reflexivity|contradiction].
Qed.

Lemma CalculateWER_by_words (groundTruth recognizedText : string) :
  words groundTruth <> [] ->
  CalculateWER groundTruth recognizedText
  = ((float64 (lev String.eqb (words groundTruth) (words recognizedText))
      / float64 (len (words groundTruth)))%Q, None).
Proof.
  intro H. rewrite <- !Fields_words in *.
  apply (@CalculateWER_words groundTruth recognizedText H).
Qed.

Lemma words_nonempty_string (s : string) : words s <> [] -> s <> EmptyString.
Proof. intros H E. subst s. now apply H. Qed.

(** X3. Neither metric is ever negative.  For a reference with [n]
    tokens and a hypothesis with [m] tokens the value is the quotient by
    [n] of a number of edits that lies between |n - m| and max(n, m); so
    the value is at most 1 whenever the hypothesis has no more tokens than
    the reference, and it can exceed 1 only through a longer hypothesis. *)
Theorem Calculate_bounds (groundTruth recognizedText : string) :
  (0 <= fst (CalculateCER groundTruth recognizedText))%Q
  /\ (0 <= fst (CalculateWER groundTruth recognizedText))%Q
  /\ (groundTruth <> EmptyString ->
      let n := len (runes groundTruth) in
      let m := len (runes recognizedText) in
      let v := fst (CalculateCER groundTruth recognizedText) in
      (exists d : Z,
          v = (float64 d / float64 n)%Q
          /\ Z.abs (n - m) <= d <= Z.max n m)
      /\ (m <= n -> (v <= 1)%Q))
  /\ (words groundTruth <> [] ->
      let n := len (words groundTruth) in
      let m := len (words recognizedText) in
      let v := fst (CalculateWER groundTruth recognizedText) in
      (exists d : Z,
          v = (float64 d / float64 n)%Q
          /\ Z.abs (n - m) <= d <= Z.max n m)
      /\ (m <= n -> (v <= 1)%Q)).
Proof.
  split; [|split; [|split]].
  - destruct (CalculateCER_cases groundTruth recognizedText)
      as [(Eg & Er & ->)|[(Eg & Er & msg & ->)|(Eg & ->)]]; cbn [fst snd];
      try discriminate.
    apply rate_nonneg; [apply (lev_nonneg Z.eqb Z.eqb_eq)|].
    apply len_pos, runes_nonempty, Eg.
  - destruct (CalculateWER_cases groundTruth recognizedText)
      as [(Eg & Er & ->)|[(Eg & Er & msg & ->)|[(Eg & Ew & Ev & ->)
          |[(Eg & Ew & Ev & msg & ->)|(Ew & ->)]]]]; cbn [fst snd];
      try discriminate.
    apply rate_nonneg; [apply (lev_nonneg String.eqb String.eqb_eq)|].
    now apply len_pos.
  - intros Eg n m v. subst v.
    rewrite (@CalculateCER_nonempty groundTruth recognizedText Eg).
    cbn [fst]. fold n.
    assert (Hn : 0 < n) by (apply len_pos, runes_nonempty, Eg).
    pose proof (lev_lower Z.eqb Z.eqb_eq (runes groundTruth)
                          (runes recognizedText)) as Hl.
    pose proof (lev_upper Z.eqb Z.eqb_eq (runes groundTruth)
                          (runes recognizedText)) as Hu.
    fold n m in Hl, Hu. split.
    + eexists. split; [reflexivity|]. split; assumption.
    + intro Hm. apply rate_le_1; lia.
  - intros Ew n m v. subst v.
    rewrite (CalculateWER_by_words groundTruth recognizedText Ew).
    cbn [fst]. fold n.
    assert (Hn : 0 < n) by now apply len_pos.
    pose proof (lev_lower String.eqb String.eqb_eq (words groundTruth)
                          (words recognizedText)) as Hl.
    pose proof (lev_upper String.eqb String.eqb_eq (words groundTruth)
                          (words recognizedText)) as Hu.
    fold n m in Hl, Hu. split.
    + eexists. split; [reflexivity|]. split; assumption.
    + intro Hm. apply rate_le_1; lia.
Qed.

Lemma Calculate_bounds_witness :
  "kitten"%string <> EmptyString
  /\ words "the cat sat" <> []
  /\ (exists d : Z,
         fst (CalculateCER "kitten" "sitting") = (float64 d / float64 6)%Q
         /\ 1 <= d <= 7)
  /\ (fst (CalculateWER "the cat sat" "the hat") <= 1)%Q.
Proof.
  assert (H1 : "kitten"%string <> EmptyString) by discriminate.
  assert (H2 : words "the cat sat" <> []) by (vm_compute; discriminate).
  split; [exact H1|]. split; [exact H2|]. split.
  - exact (proj1 (proj1 (proj2 (proj2
             (Calculate_bounds "kitten" "sitting"))) H1)).
  - apply (proj2 (proj2 (proj2 (proj2
             (Calculate_bounds "the cat sat" "the hat"))) H2)).
    vm_compute. discriminate.
Defined.

(** X4. A hypothesis without any token against a reference with tokens
    scores exactly 1.0 with a nil error: every reference token is a
    deletion. *)
Theorem Calculate_empty_hypothesis (groundTruth recognizedText : string) :
  (groundTruth <> EmptyString ->
   (fst (CalculateCER groundTruth EmptyString) == 1)%Q
   /\ snd (CalculateCER groundTruth EmptyString) = None)
  /\ (words groundTruth <> [] -> words recognizedText = [] ->
      (fst (CalculateWER groundTruth recognizedText) == 1)%Q
      /\ snd (CalculateWER groundTruth recognizedText) = None).
Proof.
  split.
  - intro Eg. rewrite (@CalculateCER_nonempty groundTruth EmptyString Eg).
    cbn [fst snd]. split; [|reflexivity].
    change (runes EmptyString) with (@nil Z).
    rewrite lev_nil_r. apply rate_one, len_pos, runes_nonempty, Eg.
  - intros Ew Ev. rewrite (CalculateWER_by_words _ _ Ew), Ev.
    cbn [fst snd]. split; [|reflexivity].
    rewrite lev_nil_r. now apply rate_one, len_pos.
Qed.

Lemma Calculate_empty_hypothesis_witness :
  "hello"%string <> EmptyString
  /\ words "hello world" <> [] /\ words "  " = []
  /\ (fst (CalculateCER "hello" EmptyString) == 1)%Q
  /\ (fst (CalculateWER "hello world" "  ") == 1)%Q.
Proof.
  assert (H1 : "hello"%string <> EmptyString) by discriminate.
  assert (H2 : words "hello world" <> []) by (vm_compute; discriminate).
  assert (H3 : words "  " = []) by reflexivity.
  split; [exact H1|]. split; [exact H2|]. split; [exact H3|]. split.
  - exact (proj1 (proj1 (Calculate_empty_hypothesis "hello" EmptyString) H1)).
  - exact (proj1 (proj2 (Calculate_empty_hypothesis "hello world" "  ")
                        H2 H3)).
Defined.

(** X5. For a reference with tokens, a metric is 0.0 exactly when the
    hypothesis has the same token sequence: the same code points for CER,
    the same words for WER. *)
Theorem Calculate_zero_iff (groundTruth recognizedText : string) :
  (groundTruth <> EmptyString ->
   ((fst (CalculateCER groundTruth recognizedText) == 0)%Q
    <-> runes groundTruth = runes recognizedText))
  /\ (words groundTruth <> [] ->
      ((fst (CalculateWER groundTruth recognizedText) == 0)%Q
       <-> words groundTruth = words recognizedText)).
Proof.
  split.
  - intro Eg. rewrite (@CalculateCER_nonempty groundTruth recognizedText Eg).
    cbn [fst]. rewrite rate_zero by (apply len_pos, runes_nonempty, Eg).
    apply (lev_zero Z.eqb Z.eqb_eq).
  - intro Ew. rewrite (CalculateWER_by_words _ _ Ew). cbn [fst].
    rewrite rate_zero by now apply len_pos.
    apply (lev_zero String.eqb String.eqb_eq).
Qed.

Lemma Calculate_zero_iff_witness :
  "abc"%string <> EmptyString
  /\ words "the cat" <> []
  /\ ~ (fst (CalculateCER "abc" "abd") == 0)%Q
  /\ (fst (CalculateWER "the cat" " the   cat ") == 0)%Q.
Proof.
  assert (H1 : "abc"%string <> EmptyString) by discriminate.
  assert (H2 : words "the cat" <> []) by (vm_compute; discriminate).
  split; [exact H1|]. split; [exact H2|]. split.
  - intro H. apply (proj1 (Calculate_zero_iff "abc" "abd") H1) in H.
    vm_compute in H. discriminate.
  - apply (proj2 (Calculate_zero_iff "the cat" " the   cat ") H2).
    reflexivity.
Defined.

(** X6. The number of edits behind a metric does not depend on which
    string is the reference: with the two strings exchanged, the value is
    the quotient of the same number of edits, by the token count of the
    other string. *)
Theorem Calculate_symmetric_edits (a b : string) :
  (a <> EmptyString -> b <> EmptyString ->
   exists d : Z,
     fst (CalculateCER a b) = (float64 d / float64 (len (runes a)))%Q
     /\ fst (CalculateCER b a) = (float64 d / float64 (len (runes b)))%Q)
  /\ (words a <> [] -> words b <> [] ->
      exists d : Z,
        fst (CalculateWER a b) = (float64 d / float64 (len (words a)))%Q
        /\ fst (CalculateWER b a)
           = (float64 d / float64 (len (words b)))%Q).
Proof.
  split.
  - intros Ha Hb.
    rewrite (@CalculateCER_nonempty a b Ha), (@CalculateCER_nonempty b a Hb).
    cbn [fst]. eexists. split; [reflexivity|].
    now rewrite (lev_sym Z.eqb Z.eqb_eq).
  - intros Ha Hb.
    rewrite (CalculateWER_by_words _ _ Ha), (CalculateWER_by_words _ _ Hb).
    cbn [fst]. eexists. split; [reflexivity|].
    now rewrite (lev_sym String.eqb String.eqb_eq).
Qed.

Lemma Calculate_symmetric_edits_witness :
  "hello"%string <> EmptyString /\ "hello world"%string <> EmptyString
  /\ (exists d : Z,
         fst (CalculateCER "hello" "hello world")
         = (float64 d / float64 (len (runes "hello")))%Q
         /\ fst (CalculateCER "hello world" "hello")
            = (float64 d / float64 (len (runes "hello world")))%Q)
  /\ ~ (fst (CalculateCER "hello" "hello world")
        == fst (CalculateCER "hello world" "hello"))%Q.
Proof.
  assert (H1 : "hello"%string <> EmptyString) by discriminate.
  assert (H2 : "hello world"%string <> EmptyString) by discriminate.
  split; [exact H1|]. split; [exact H2|]. split.
  - exact (proj1 (Calculate_symmetric_edits "hello" "hello world") H1 H2).
  - vm_compute. discriminate.
Defined.

(** X7. The numbers of edits satisfy the triangle inequality: the values
    for [a] against [b], [b] against [c] and [a] against [c] are the
    quotients of numbers of edits of which the third is at most the sum of
    the first two. *)
Theorem Calculate_triangle (a b c : string) :
  (a <> EmptyString -> b <> EmptyString ->
   exists dab dbc dac : Z,
     fst (CalculateCER a b) = (float64 dab / float64 (len (runes a)))%Q
     /\ fst (CalculateCER b c) = (float64 dbc / float64 (len (runes b)))%Q
     /\ fst (CalculateCER a c) = (float64 dac / float64 (len (runes a)))%Q
     /\ dac <= dab + dbc)
  /\ (words a <> [] -> words b <> [] ->
      exists dab dbc dac : Z,
        fst (CalculateWER a b) = (float64 dab / float64 (len (words a)))%Q
        /\ fst (CalculateWER b c)
           = (float64 dbc / float64 (len (words b)))%Q
        /\ fst (CalculateWER a c)
           = (float64 dac / float64 (len (words a)))%Q
        /\ dac <= dab + dbc).
Proof.
  split.
  - intros Ha Hb.
    rewrite (@CalculateCER_nonempty a c Ha), (@CalculateCER_nonempty a b Ha),
      (@CalculateCER_nonempty b c Hb).
    cbn [fst]. eexists. eexists. eexists.
    repeat (split; [reflexivity|]).
    apply (lev_triangle Z.eqb Z.eqb_eq).
  - intros Ha Hb.
    rewrite (CalculateWER_by_words a c Ha), (CalculateWER_by_words a b Ha),
      (CalculateWER_by_words b c Hb).
    cbn [fst]. eexists. eexists. eexists.
    repeat (split; [reflexivity|]).
    apply (lev_triangle String.eqb String.eqb_eq).
Qed.

Lemma Calculate_triangle_witness :
  "kitten"%string <> EmptyString /\ "sitten"%string <> EmptyString
  /\ exists dab dbc dac : Z,
      fst (CalculateCER "kitten" "sitten")
      = (float64 dab / float64 (len (runes "kitten")))%Q
      /\ fst (CalculateCER "sitten" "sitting")
         = (float64 dbc / float64 (len (runes "sitten")))%Q
      /\ fst (CalculateCER "kitten" "sitting")
         = (float64 dac / float64 (len (runes "kitten")))%Q
      /\ dac <= dab + dbc.
Proof.
  assert (H1 : "kitten"%string <> EmptyString) by discriminate.
  assert (H2 : "sitten"%string <> EmptyString) by discriminate.
  split; [exact H1|]. split; [exact H2|].
  exact (proj1 (Calculate_triangle "kitten" "sitten" "sitting") H1 H2).
Defined.

(** X8. [CalculateWER] sees its arguments only through their words: for a
    reference with a word, changing the amount or kind of white space in
    either string changes neither the value nor the error. *)
Theorem CalculateWER_white_space_insensitive
  (groundTruth groundTruth' recognizedText recognizedText' : string) :
  words groundTruth <> [] ->
  words groundTruth = words groundTruth' ->
  words recognizedText = words recognizedText' ->
  CalculateWER groundTruth recognizedText
  = CalculateWER groundTruth' recognizedText'.
Proof.
  intros Ew Eg Er.
  assert (Ew' : words groundTruth' <> []) by now rewrite <- Eg.
  rewrite (CalculateWER_by_words _ _ Ew), (CalculateWER_by_words _ _ Ew').
  now rewrite Eg, Er.
Qed.

Lemma CalculateWER_white_space_insensitive_witness :
  words "the cat sat" <> []
  /\ CalculateWER "the cat sat" "the hat sat"
     = CalculateWER "  the   cat sat " "the hat  sat  ".
Proof.
  assert (H : words "the cat sat" <> []) by (vm_compute; discriminate).
  split; [exact H|].
  apply (CalculateWER_white_space_insensitive
           "the cat sat" "  the   cat sat " "the hat sat" "the hat  sat  " H);
    reflexivity.
Defined.

(** ** More on the evaluation runner *)

(** The insertion that one iteration sends, in full. *)
Lemma evaluatePair_row
  (W : Type) (env : Env W) (jobID : Z)
  (testCase : ASRTestCase.t) (vendorConfig : VendorConfig.t)
  (adapter : ASRAdapter) (w : W) :
  DB_nil env = false ->
  let rec := Recognize env adapter (ASRTestCase.AudioFilePath testCase)
               (NullString.String (ASRTestCase.LanguageCode testCase))
               vendorConfig w in
  let result :=
    buildResult jobID testCase vendorConfig
      (fst (fst (value rec))) (snd (fst (value rec))) (snd (value rec))
      (Z.quot (time_Now env (world rec) - time_Now env w) Millisecond) in
  let row :=
    ASREvaluationResult.with_RawVendorResponse
      (if 0 <? len_string (ASREvaluationResult.RawVendorResponse result)
       then ASREvaluationResult.RawVendorResponse result
       else "null"%string)
      (ASREvaluationResult.with_CreatedAt (time_Now env (world rec))
                                          result) in
  calls (evaluatePair env jobID testCase vendorConfig adapter w)
  = [CallCreateASREvaluationResult
       row (fst (InsertASREvaluationResult env row (world rec)))].
Proof.
  intros HDB rec result row. unfold evaluatePair.
  rewrite calls_bind. cbn [now calls value world fst snd app].
  rewrite calls_bind, Recognize_calls. cbn [app]. fold rec.
  destruct (value rec) as [[text raw] err] eqn:Eout.
  rewrite calls_bind. cbn [now calls value world fst snd app].
  rewrite calls_bind.
  unfold CreateASREvaluationResult at 1. rewrite HDB.
  cbn [fst snd] in result. fold result.
  cbn [ASREvaluationResult.with_CreatedAt
       ASREvaluationResult.RawVendorResponse].
  fold row.
  destruct (InsertASREvaluationResult env row (world rec))
    as [[id| |msg] w2] eqn:Eins;
    cbn; rewrite ?app_nil_r; reflexivity.
Qed.

Lemma buildResult_shape (jobID : Z)
  (testCase : ASRTestCase.t) (vendorConfig : VendorConfig.t)
  (recognizedText rawResponse : string) (err : error) (latencyMs : Z) :
  let result := buildResult jobID testCase vendorConfig
                            recognizedText rawResponse err latencyMs in
  ASREvaluationResult.LatencyMs result
  = {| NullInt64.Int64 := latencyMs; NullInt64.Valid := true |}
  /\ NullString.Valid (ASREvaluationResult.RecognizedText result) = true
  /\ ASREvaluationResult.RawVendorResponse result
     = (if String.eqb rawResponse EmptyString then "null"%string
        else rawResponse).
Proof.
  cbv zeta. unfold buildResult.
  destruct (String.eqb rawResponse EmptyString); cbn [negb];
    repeat match goal with
           | |- context [match ?x with _ => _ end] => destruct x
           end; repeat split.
Qed.

Lemma len_string_pos (s : string) :
  s <> EmptyString -> (0 <? len_string s) = true.
Proof.
  destruct s; [congruence|]. intros _. unfold len_string. cbn [String.length].
  apply Z.ltb_lt. lia.
Qed.

(** X9. Every row that a run leaves behind carries the id of the job, a
    valid latency, a valid recognized text and a raw vendor response that
    is not empty: the response of the adapter, or the JSON text "null"
    when the adapter returned none. *)
Theorem persisted_row_well_formed
  (W : Type) (env : Env W) (jobID : Z) (testCaseIDs vendorConfigIDs : list Z)
  (w : W) (row : ASREvaluationResult.t) :
  In row (persisted (calls (RunASREvaluation env jobID testCaseIDs
                                             vendorConfigIDs w))) ->
  ASREvaluationResult.JobID row = jobID
  /\ NullInt64.Valid (ASREvaluationResult.LatencyMs row) = true
  /\ NullString.Valid (ASREvaluationResult.RecognizedText row) = true
  /\ ASREvaluationResult.RawVendorResponse row <> EmptyString.
Proof.
  intro H. destruct (persisted_inserted _ _ H) as (id & row0 & Hres & ->).
  clear H.
  set (P := fun c =>
              match c with
              | CallCreateASREvaluationResult r _ =>
                ASREvaluationResult.JobID r = jobID
                /\ NullInt64.Valid (ASREvaluationResult.LatencyMs r) = true
                /\ NullString.Valid (ASREvaluationResult.RecognizedText r)
                   = true
                /\ ASREvaluationResult.RawVendorResponse r <> EmptyString
              | _ => True
              end).
  assert (HP : Forall P (calls (RunASREvaluation env jobID testCaseIDs
                                                 vendorConfigIDs w))).
  { apply RunASREvaluation_calls_Forall; try (intros; exact I).
    intros tid tc vid vc a w1 w2 _ _ _ Ev _.
    rewrite (evaluatePair_row W env jobID tc vc a
               (world (GetVendorConfig env vid w2))
               (proj1 (GetVendorConfig_found W env vid w2 vc Ev))).
    constructor; [|constructor]. unfold P.
    cbn [ASREvaluationResult.with_RawVendorResponse
         ASREvaluationResult.with_CreatedAt ASREvaluationResult.JobID
         ASREvaluationResult.LatencyMs ASREvaluationResult.RecognizedText
         ASREvaluationResult.RawVendorResponse].
    match goal with
    | |- context [buildResult ?a ?b ?c ?d ?e ?f ?g] =>
      destruct (buildResult_ids a b c d e f g) as (_ & -> & _ & _);
        destruct (buildResult_shape a b c d e f g) as (-> & -> & ->);
        destruct (String.eqb_spec e EmptyString) as [E|E]
    end.
    - repeat split. discriminate.
    - rewrite (len_string_pos _ E). repeat split. exact E. }
  rewrite Forall_forall in HP. exact (HP _ Hres).
Qed.

Lemma persisted_row_well_formed_witness :
  exists row,
    In row (persisted (calls (RunASREvaluation (exampleEnv false false false)
                                               7 [1] [3] 0)))
    /\ ASREvaluationResult.JobID row = 7
    /\ ASREvaluationResult.RawVendorResponse row = "null"%string.
Proof.
  eexists. split; [left; reflexivity|].
  split; [|reflexivity].
  exact (proj1 (persisted_row_well_formed
                  Z (exampleEnv false false false) 7 [1] [3] 0 _
                  (or_introl eq_refl))).
Defined.

(** A metric of a result is set only by a successful computation. *)
Lemma buildResult_set (jobID : Z)
  (testCase : ASRTestCase.t) (vendorConfig : VendorConfig.t)
  (recognizedText rawResponse : string) (err : error) (latencyMs : Z) :
  let gt := ASRTestCase.GroundTruthText testCase in
  let result := buildResult jobID testCase vendorConfig
                            recognizedText rawResponse err latencyMs in
  (NullFloat64.Valid (ASREvaluationResult.CER result) = true ->
   NullString.Valid gt = true /\ NullString.String gt <> EmptyString
   /\ err = None
   /\ ASREvaluationResult.CER result
      = {| NullFloat64.Float64 :=
             fst (CalculateCER (NullString.String gt) recognizedText);
           NullFloat64.Valid := true |})
  /\ (NullFloat64.Valid (ASREvaluationResult.WER result) = true ->
      NullString.Valid gt = true /\ NullString.String gt <> EmptyString
      /\ err = None
      /\ snd (CalculateWER (NullString.String gt) recognizedText) = None
      /\ ASREvaluationResult.WER result
         = {| NullFloat64.Float64 :=
                fst (CalculateWER (NullString.String gt) recognizedText);
              NullFloat64.Valid := true |}
      /\ NullFloat64.Valid (ASREvaluationResult.CER result) = true).
Proof.
  cbv zeta.
  destruct (NullString.Valid (ASRTestCase.GroundTruthText testCase)) eqn:Hv.
  2:{ destruct (buildResult_unset jobID testCase vendorConfig recognizedText
                  rawResponse err latencyMs (or_introl Hv)) as [Hc Hw].
      unfold isUnset in *. split; intro H; congruence. }
  destruct (String.eqb_spec
              (NullString.String (ASRTestCase.GroundTruthText testCase))
              EmptyString) as [Hs|Hs].
  { destruct (buildResult_unset jobID testCase vendorConfig recognizedText
                rawResponse err latencyMs (or_intror (or_introl Hs)))
      as [Hc Hw].
    unfold isUnset in *. split; intro H; congruence. }
  destruct err as [e|].
  { destruct (buildResult_unset jobID testCase vendorConfig recognizedText
                rawResponse (Some e) latencyMs)
      as [Hc Hw]; [right; right; discriminate|].
    unfold isUnset in *. split; intro H; congruence. }
  destruct (buildResult_metrics jobID testCase vendorConfig recognizedText
              rawResponse latencyMs Hv Hs) as [-> ->].
  rewrite (@CalculateCER_nonempty _ recognizedText Hs). cbn [fst snd].
  destruct (CalculateWER _ recognizedText) as [wer [e|]]; cbn [fst snd];
    split; intro H; try discriminate; repeat split; assumption.
Qed.

(** X10. A metric that is set on a row left by a run is the computed
    one: the test case of the pair had a non-empty ground truth, the
    recognition call succeeded, and the value is what [CalculateCER]
    (respectively [CalculateWER], which then returned no error) gives for
    the ground truth and the recognized text.  A row never has its WER set
    without its CER. *)
Theorem persisted_metric_is_computed
  (W : Type) (env : Env W) (jobID : Z) (testCaseIDs vendorConfigIDs : list Z)
  (w : W) (row : ASREvaluationResult.t) :
  In row (persisted (calls (RunASREvaluation env jobID testCaseIDs
                                             vendorConfigIDs w))) ->
  exists testCase out,
    fromPair env jobID testCaseIDs vendorConfigIDs testCase out row
    /\ let gt := ASRTestCase.GroundTruthText testCase in
       (NullFloat64.Valid (ASREvaluationResult.CER row) = true ->
        NullString.Valid gt = true /\ NullString.String gt <> EmptyString
        /\ snd out = None
        /\ ASREvaluationResult.CER row
           = {| NullFloat64.Float64 :=
                  fst (CalculateCER (NullString.String gt) (fst (fst out)));
                NullFloat64.Valid := true |})
       /\ (NullFloat64.Valid (ASREvaluationResult.WER row) = true ->
           NullString.Valid gt = true /\ NullString.String gt <> EmptyString
           /\ snd out = None
           /\ snd (CalculateWER (NullString.String gt) (fst (fst out)))
              = None
           /\ ASREvaluationResult.WER row
              = {| NullFloat64.Float64 :=
                     fst (CalculateWER (NullString.String gt)
                                       (fst (fst out)));
                   NullFloat64.Valid := true |}
           /\ NullFloat64.Valid (ASREvaluationResult.CER row) = true).
Proof.
  intro H.
  destruct (RunASREvaluation_persisted_fromPair
              W env jobID testCaseIDs vendorConfigIDs w row H)
    as (tc & out & Hfrom).
  exists tc, out. split; [exact Hfrom|].
  destruct Hfrom
    as (tid & vid & vc & a & w1 & w2 & _ & _ & _ & _ & _ & _ & Hrow).
  destruct Hrow as (lat & t & id & j & ->).
  cbn [ASREvaluationResult.with_ID ASREvaluationResult.with_RawVendorResponse
       ASREvaluationResult.with_CreatedAt
       ASREvaluationResult.CER ASREvaluationResult.WER].
  apply buildResult_set.
Qed.

Lemma persisted_metric_is_computed_witness :
  exists row,
    In row (persisted (calls (RunASREvaluation (exampleEnv false false false)
                                               7 [1] [1] 0)))
    /\ NullFloat64.Valid (ASREvaluationResult.CER row) = true
    /\ ASREvaluationResult.CER row
       = {| NullFloat64.Float64 :=
              fst (CalculateCER "hello world"
                                (mockText "audio.wav" "en-US"));
            NullFloat64.Valid := true |}.
Proof.
  eexists. split; [left; reflexivity|]. split; [reflexivity|].
  destruct (persisted_metric_is_computed
              Z (exampleEnv false false false) 7 [1] [1] 0 _
              (or_introl eq_refl))
    as (tc & out & Hfrom & HC & _).
  destruct (HC eq_refl) as (_ & _ & _ & E).
  vm_compute. reflexivity.
Defined.

(** The inner loop submits at most one result per vendor id. *)
Lemma vendorsTrace_length (W : Type) (env : Env W) (jobID : Z)
  (testCase : ASRTestCase.t) (vendorConfigIDs : list Z) (cs : list Call) :
  vendorsTrace env jobID testCase vendorConfigIDs cs ->
  (List.length (submitted cs) <= List.length vendorConfigIDs)%nat.
Proof.
  induction 1 as [|vid rest cs1 cs2 Hp _ IH]; [constructor|].
  rewrite submitted_app, length_app.
  destruct Hp; cbn [submitted List.length]; lia.
Qed.

Lemma casesTrace_length (W : Type) (env : Env W) (jobID : Z)
  (testCaseIDs vendorConfigIDs : list Z) (cs : list Call) :
  casesTrace env jobID vendorConfigIDs testCaseIDs cs ->
  (List.length (submitted cs)
   <= List.length testCaseIDs * List.length vendorConfigIDs)%nat.
Proof.
  induction 1 as [|tid rest res cs Hres _ IH|tid rest tc cs1 cs2 Hv _ IH].
  - constructor.
  - cbn [submitted List.length]. lia.
  - cbn [submitted List.length]. rewrite submitted_app, length_app.
    pose proof (vendorsTrace_length W env jobID tc vendorConfigIDs cs1 Hv).
    lia.
Qed.

(** X11. The queries and statements of a run are look-ups of test cases,
    look-ups of vendors and insertions of results: it never reads or
    updates the job it works for.  It looks up at most one test case per
    test case id and inserts at most one result per (test case id, vendor
    id) pair. *)
Theorem RunASREvaluation_statements
  (W : Type) (env : Env W) (jobID : Z) (testCaseIDs vendorConfigIDs : list Z)
  (w : W) :
  let cs := calls (RunASREvaluation env jobID testCaseIDs
                                    vendorConfigIDs w) in
  Forall isRunStatement cs
  /\ (List.length (testCaseLookups cs) <= List.length testCaseIDs)%nat
  /\ (List.length (submitted cs)
      <= List.length testCaseIDs * List.length vendorConfigIDs)%nat.
Proof.
  cbv zeta. split; [apply RunASREvaluation_isRunStatement|].
  destruct (DB_nil env) eqn:HDB.
  - rewrite (RunASREvaluation_DB_nil W env jobID testCaseIDs vendorConfigIDs
                                     w HDB).
    cbn [calls fst snd testCaseLookups submitted List.length]. lia.
  - pose proof (RunASREvaluation_trace W env jobID testCaseIDs
                                       vendorConfigIDs w HDB) as Ht.
    split; [|exact (casesTrace_length W env jobID _ _ _ Ht)].
    rewrite <- (length_map fst).
    now rewrite (proj1 (casesTrace_counts W env jobID _ _ _ Ht)).
Qed.

(** The outer loop over a concatenation. *)
Lemma testCaseLoop_app
  (W : Type) (env : Env W) (jobID : Z) (ids1 ids2 vendorConfigIDs : list Z)
  (w : W) :
  let out1 := testCaseLoop env jobID ids1 vendorConfigIDs w in
  let out2 := testCaseLoop env jobID ids2 vendorConfigIDs (world out1) in
  calls (testCaseLoop env jobID (ids1 ++ ids2) vendorConfigIDs w)
  = calls out1 ++ calls out2
  /\ world (testCaseLoop env jobID (ids1 ++ ids2) vendorConfigIDs w)
     = world out2.
Proof.
  revert w. induction ids1 as [|id ids1 IH]; intro w; cbv zeta.
  - split; reflexivity.
  - cbn [app testCaseLoop]. rewrite !calls_bind, !world_bind.
    destruct (value (GetASRTestCase env id w)) as [tc|msg].
    + rewrite !calls_bind, !world_bind.
      destruct (IH (world (vendorLoop env jobID tc vendorConfigIDs
                             (world (GetASRTestCase env id w)))))
        as [-> ->].
      split; [now rewrite !app_assoc|reflexivity].
    + destruct (IH (world (GetASRTestCase env id w))) as [-> ->].
      split; [now rewrite !app_assoc|reflexivity].
Qed.

(** X12. A run over the test case ids [ids1 ++ ids2] is the run over
    [ids1] followed by the run over [ids2] from the state of the world
    that the first one leaves: the same queries and statements in the same
    order, the same final state, the same result. *)
Theorem RunASREvaluation_app
  (W : Type) (env : Env W) (jobID : Z) (ids1 ids2 vendorConfigIDs : list Z)
  (w : W) :
  let out1 := RunASREvaluation env jobID ids1 vendorConfigIDs w in
  let out2 := RunASREvaluation env jobID ids2 vendorConfigIDs (world out1) in
  let out := RunASREvaluation env jobID (ids1 ++ ids2) vendorConfigIDs w in
  calls out = calls out1 ++ calls out2
  /\ world out = world out2
  /\ value out = value out2.
Proof.
  cbv zeta. unfold RunASREvaluation.
  destruct (DB_nil env); [repeat split|].
  rewrite !calls_bind, !world_bind, !value_bind.
  cbn [ret calls world value fst snd]. rewrite !app_nil_r.
  destruct (testCaseLoop_app W env jobID ids1 ids2 vendorConfigIDs w)
    as [-> ->].
  repeat split.
Qed.

Lemma GetASRAdapter_unlisted
  (W : Type) (env : Env W) (vendorConfig : VendorConfig.t) :
  ~ In (VendorConfig.Name vendorConfig) knownAdapterNames ->
  GetASRAdapter env (Some vendorConfig) = inl MockASRAdapter
  /\ VendorConfig.Name vendorConfig <> "MockASR-Error"%string.
Proof.
  intro H. unfold knownAdapterNames in H. cbn [In] in H.
  split; [|intro E; apply H; rewrite E; tauto].
  unfold GetASRAdapter.
  repeat match goal with
         | |- context [String.eqb (VendorConfig.Name vendorConfig) ?s] =>
           let E := fresh "E" in
           destruct (String.eqb_spec (VendorConfig.Name vendorConfig) s)
             as [E|E];
             [exfalso; apply H; rewrite E; cbn; tauto|]
         end.
  reflexivity.
Qed.

(** X13. A vendor whose name the adapter factory does not list is served
    by the mock adapter, and its made-up transcript is stored and scored
    like a real one: for a test case with a ground truth, the row handed
    to the database has the mock text as recognized text and the CER of
    the ground truth against that text. *)
Theorem unlisted_vendor_scored
  (W : Type) (env : Env W) (jobID : Z) (testCase : ASRTestCase.t)
  (vendorConfigID : Z) (rest : list Z) (vendorConfig : VendorConfig.t)
  (w : W) :
  value (GetVendorConfig env vendorConfigID w) = inl vendorConfig ->
  ~ In (VendorConfig.Name vendorConfig) knownAdapterNames ->
  NullString.Valid (ASRTestCase.GroundTruthText testCase) = true ->
  NullString.String (ASRTestCase.GroundTruthText testCase) <> EmptyString ->
  let text := mockText (ASRTestCase.AudioFilePath testCase)
                (NullString.String (ASRTestCase.LanguageCode testCase)) in
  exists (row : ASREvaluationResult.t) (res : QueryResult Z) (w' : W),
    calls (vendorLoop env jobID testCase (vendorConfigID :: rest) w)
    = CallGetVendorConfig vendorConfigID (Row vendorConfig)
      :: CallCreateASREvaluationResult row res
      :: calls (vendorLoop env jobID testCase rest w')
    /\ ASREvaluationResult.RecognizedText row
       = {| NullString.String := text; NullString.Valid := true |}
    /\ ASREvaluationResult.CER row
       = {| NullFloat64.Float64 :=
              fst (CalculateCER
                     (NullString.String
                        (ASRTestCase.GroundTruthText testCase)) text);
            NullFloat64.Valid := true |}.
Proof.
  intros Ev Hn Hv Hs text.
  destruct (GetASRAdapter_unlisted W env vendorConfig Hn) as [Ea Hname].
  destruct (vendorLoop_step_calls W env jobID testCase vendorConfigID rest
              vendorConfig MockASRAdapter w Ev Ea)
    as (row & res & w' & lat & t & j & Hc & Hrow).
  exists row, res, w'. split; [exact Hc|]. subst row.
  cbn [Recognize] in *. unfold MockASRAdapter_Recognize.
  apply String.eqb_neq in Hname. rewrite Hname.
  cbn [value fst snd]. fold text.
  cbn [ASREvaluationResult.with_RawVendorResponse
       ASREvaluationResult.with_CreatedAt
       ASREvaluationResult.RecognizedText ASREvaluationResult.CER].
  match goal with
  | |- context [buildResult ?a ?b ?c ?d ?e None ?g] =>
    destruct (buildResult_metrics a b c d e g Hv Hs) as [-> _];
      assert (HR : ASREvaluationResult.RecognizedText
                     (buildResult a b c d e None g)
                   = {| NullString.String := d; NullString.Valid := true |})
        by (buildResult_cases; reflexivity);
      rewrite HR
  end.
  split; [reflexivity|].
  rewrite (@CalculateCER_nonempty _ text Hs). reflexivity.
Qed.

Lemma unlisted_vendor_scored_witness :
  let testCase := exampleTestCase 1 {| NullString.String := "hello world";
                                       NullString.Valid := true |} in
  ~ In (VendorConfig.Name (exampleVendor 4 "AcmeSpeech")) knownAdapterNames
  /\ exists (row : ASREvaluationResult.t) (res : QueryResult Z) (w' : Z),
      calls (vendorLoop (exampleEnv false true false) 7 testCase [4] 0)
      = CallGetVendorConfig 4 (Row (exampleVendor 4 "AcmeSpeech"))
        :: CallCreateASREvaluationResult row res
        :: calls (vendorLoop (exampleEnv false true false) 7 testCase [] w')
      /\ ASREvaluationResult.RecognizedText row
         = {| NullString.String := mockText "audio.wav" "en-US";
              NullString.Valid := true |}
      /\ ASREvaluationResult.CER row
         = {| NullFloat64.Float64 :=
                fst (CalculateCER "hello world"
                                  (mockText "audio.wav" "en-US"));
              NullFloat64.Valid := true |}.
Proof.
  cbv zeta.
  assert (H : ~ In (VendorConfig.Name (exampleVendor 4 "AcmeSpeech"))
                knownAdapterNames).
  { cbn. intros [H|[H|[H|[H|[H|[H|[H|[H|[]]]]]]]]]; discriminate. }
  split; [exact H|].
  apply (unlisted_vendor_scored Z (exampleEnv false true false) 7
           (exampleTestCase 1 {| NullString.String := "hello world";
                                 NullString.Valid := true |})
           4 [] (exampleVendor 4 "AcmeSpeech") 0 eq_refl H eq_refl).
  discriminate.
Defined.

(** ** More on the adapter factory *)

Section FactoryFacts.
Open Scope string_scope.
Open Scope Z_scope.

Lemma GetASRAdapter_cases (W : Type) (env : Env W)
  (vendorConfig : VendorConfig.t) :
  if globalObjectStoreClient_nil env && needsObjectStore vendorConfig
  then exists msg, GetASRAdapter env (Some vendorConfig) = inr msg
  else exists adapter, GetASRAdapter env (Some vendorConfig) = inl adapter.
Proof.
  unfold GetASRAdapter, needsObjectStore, realAdapterNames.
  cbn [existsb].
  repeat match goal with
         | |- context [String.eqb (VendorConfig.Name vendorConfig) ?b] =>
           let E := fresh "E" in
           destruct (String.eqb_spec (VendorConfig.Name vendorConfig) b)
             as [E|E]; [try rewrite E; cbn|]
         end;
    destruct (globalObjectStoreClient_nil env); cbn [andb orb];
    eexists; reflexivity.
Qed.

Lemma needsObjectStore_In (vendorConfig : VendorConfig.t) :
  needsObjectStore vendorConfig = true
  <-> In (VendorConfig.Name vendorConfig) realAdapterNames.
Proof.
  unfold needsObjectStore. rewrite existsb_exists. split.
  - intros (x & Hin & E). apply String.eqb_eq in E. now subst x.
  - intro H. exists (VendorConfig.Name vendorConfig). split; [exact H|].
    apply String.eqb_refl.
Qed.

(** X14. [GetASRAdapter] returns an error in two cases only: the
    configuration is nil, or the object store client is nil and the vendor
    is one of the six whose adapter works on the object store.  An adapter
    other than the mock is returned only for these six names, and only
    when the client is not nil. *)
Theorem GetASRAdapter_error_iff (W : Type) (env : Env W)
  (vendorConfig : option VendorConfig.t) :
  ((exists msg, GetASRAdapter env vendorConfig = inr msg)
   <-> vendorConfig = None
       \/ (globalObjectStoreClient_nil env = true
           /\ exists vc, vendorConfig = Some vc
                         /\ In (VendorConfig.Name vc) realAdapterNames))
  /\ (forall adapter,
         GetASRAdapter env vendorConfig = inl adapter ->
         adapter <> MockASRAdapter ->
         globalObjectStoreClient_nil env = false
         /\ exists vc, vendorConfig = Some vc
                       /\ In (VendorConfig.Name vc) realAdapterNames).
Proof.
  destruct vendorConfig as [vc|].
  - pose proof (GetASRAdapter_cases W env vc) as Hc.
    pose proof (needsObjectStore_In vc) as Hn.
    split.
    + split.
      * intros [msg E]. right.
        destruct (globalObjectStoreClient_nil env); cbn [andb] in Hc.
        -- destruct (needsObjectStore vc).
           ++ split; [reflexivity|]. exists vc. split; [reflexivity|].
              now apply Hn.
           ++ destruct Hc as [a Ha]. congruence.
        -- destruct Hc as [a Ha]. congruence.
      * intros [H|(Hnil & vc' & [= <-] & Hin)]; [discriminate|].
        apply Hn in Hin. now rewrite Hnil, Hin in Hc.
    + intros adapter E Hm.
      assert (Hreal : In (VendorConfig.Name vc) realAdapterNames).
      { unfold GetASRAdapter in E. unfold realAdapterNames. cbn [In].
        repeat match type of E with
               | context [String.eqb ?a ?b] =>
                 destruct (String.eqb_spec a b) as [->|_]
               end;
          try (injection E as <-; congruence); tauto. }
      split; [|exists vc; split; [reflexivity|exact Hreal]].
      apply Hn in Hreal. rewrite Hreal, andb_true_r in Hc.
      destruct (globalObjectStoreClient_nil env); [|reflexivity].
      destruct Hc as [msg Hc]. congruence.
  - split.
    + split; [now left|]. intros _. eexists. reflexivity.
    + intros adapter E. discriminate.
Qed.

Lemma lookedUpPairs_from_app (current : option ASRTestCase.t)
  (cs1 cs2 : list Call) :
  testCaseLookups cs1 = [] ->
  lookedUpPairs_from current (cs1 ++ cs2)
  = (lookedUpPairs_from current cs1 ++ lookedUpPairs_from current cs2)%list.
Proof.
  induction cs1 as [|c cs1 IH]; intro H; [reflexivity|].
  destruct c as [row res|row res|id status res|id t1 t2 res
                |id res|id res|id res];
    cbn [app lookedUpPairs_from testCaseLookups] in *;
    try (exact (IH H)); try discriminate.
  destruct res as [vc| |msg]; try (exact (IH H)).
  destruct current as [tc|]; [|exact (IH H)].
  cbn [app]. f_equal. exact (IH H).
Qed.

(** The pairs found by the look-ups of the inner loop for [testCase], less
    those for which no adapter is obtained, are the pairs of the results
    that it hands to the database. *)
Lemma vendorsTrace_pairs (W : Type) (env : Env W) (jobID : Z)
  (testCase : ASRTestCase.t) (vendorConfigIDs : list Z) (cs : list Call) :
  vendorsTrace env jobID testCase vendorConfigIDs cs ->
  map pairOf (submitted cs)
  = map (fun p : ASRTestCase.t * VendorConfig.t =>
           (ASRTestCase.ID (fst p), VendorConfig.ID (snd p)))
        (filter (fun p : ASRTestCase.t * VendorConfig.t =>
                   negb (globalObjectStoreClient_nil env
                         && needsObjectStore (snd p)))
                (lookedUpPairs_from (Some testCase) cs)).
Proof.
  induction 1 as [|vid rest cs1 cs2 Hp _ IH]; [reflexivity|].
  destruct Hp as [res Hres|vc msg Ea|vc a row res Ea Hj Hpair];
    cbn [app submitted lookedUpPairs_from map].
  - destruct res as [vc| |msg]; [exfalso; exact (Hres vc eq_refl)| |];
      exact IH.
  - pose proof (GetASRAdapter_cases W env vc) as Hc.
    cbn [filter snd].
    destruct (globalObjectStoreClient_nil env && needsObjectStore vc).
    + cbn [negb]. exact IH.
    + destruct Hc as [a Ha]. congruence.
  - pose proof (GetASRAdapter_cases W env vc) as Hc.
    cbn [filter snd].
    destruct (globalObjectStoreClient_nil env && needsObjectStore vc).
    + destruct Hc as [msg Hm]. congruence.
    + cbn [negb map fst snd]. rewrite Hpair, IH. reflexivity.
Qed.

(** What the outer loop sends starts with a look-up of a test case, so the
    pairs found do not depend on an earlier test case. *)
Lemma casesTrace_current (W : Type) (env : Env W) (jobID : Z)
  (testCaseIDs vendorConfigIDs : list Z) (cs : list Call)
  (current : option ASRTestCase.t) :
  casesTrace env jobID vendorConfigIDs testCaseIDs cs ->
  lookedUpPairs_from current cs = lookedUpPairs cs.
Proof.
  unfold lookedUpPairs.
  destruct 1 as [|tid rest res cs Hres _|tid rest tc cs1 cs2 _ _];
    [reflexivity| |reflexivity].
  destruct res as [tc| |msg]; [exfalso; exact (Hres tc eq_refl)| |];
    reflexivity.
Qed.

Lemma casesTrace_pairs (W : Type) (env : Env W) (jobID : Z)
  (testCaseIDs vendorConfigIDs : list Z) (cs : list Call) :
  casesTrace env jobID vendorConfigIDs testCaseIDs cs ->
  map pairOf (submitted cs)
  = map (fun p : ASRTestCase.t * VendorConfig.t =>
           (ASRTestCase.ID (fst p), VendorConfig.ID (snd p)))
        (filter (fun p : ASRTestCase.t * VendorConfig.t =>
                   negb (globalObjectStoreClient_nil env
                         && needsObjectStore (snd p)))
                (lookedUpPairs cs)).
Proof.
  unfold lookedUpPairs.
  induction 1 as [|tid rest res cs Hres _ IH|tid rest tc cs1 cs2 Hv Hc IH].
  - reflexivity.
  - cbn [submitted lookedUpPairs_from].
    destruct res as [tc| |msg]; [exfalso; exact (Hres tc eq_refl)| |];
      exact IH.
  - cbn [submitted lookedUpPairs_from].
    rewrite submitted_app, map_app.
    rewrite (lookedUpPairs_from_app (Some tc) cs1 cs2
               (proj1 (vendorsTrace_counts W env jobID tc vendorConfigIDs
                                           cs1 Hv))).
    rewrite filter_app, map_app.
    rewrite (vendorsTrace_pairs W env jobID tc vendorConfigIDs cs1 Hv).
    rewrite (casesTrace_current W env jobID rest vendorConfigIDs cs2
                                (Some tc) Hc).
    unfold lookedUpPairs. now rewrite IH.
Qed.

(** X15. After [InitAdapterRegistry], a run hands one result to the
    database for every pair of a test case and a vendor that its own
    look-ups find (a vendor found goes with the test case found by the last
    look-up of a test case before it), in the order of the look-ups,
    leaving out, when the registry was given a nil client, the vendors
    whose adapter works on the object store; with a client no pair is left
    out. *)
Theorem InitAdapterRegistry_pairs
  (W : Type) (env : Env W) (minioClient_nil : bool) (jobID : Z)
  (testCaseIDs vendorConfigIDs : list Z) (w : W) :
  let cs := calls (RunASREvaluation
                     (InitAdapterRegistry minioClient_nil env)
                     jobID testCaseIDs vendorConfigIDs w) in
  map pairOf (submitted cs)
  = map (fun p : ASRTestCase.t * VendorConfig.t =>
           (ASRTestCase.ID (fst p), VendorConfig.ID (snd p)))
        (filter (fun p : ASRTestCase.t * VendorConfig.t =>
                   negb (minioClient_nil && needsObjectStore (snd p)))
                (lookedUpPairs cs)).
Proof.
  cbv zeta.
  destruct (DB_nil (InitAdapterRegistry minioClient_nil env)) eqn:HDB.
  - now rewrite (RunASREvaluation_DB_nil W _ jobID testCaseIDs
                   vendorConfigIDs w HDB).
  - exact (casesTrace_pairs W _ jobID testCaseIDs vendorConfigIDs _
             (RunASREvaluation_trace W _ jobID testCaseIDs vendorConfigIDs
                                     w HDB)).
Qed.

End FactoryFacts.

(** ** More on the job service *)

(** X16. [CreateAndRunASRJob] returns a nil error exactly when its
    statements are: the insertion of the job with status "PENDING", which
    succeeds; the update to "RUNNING" and the update of the start time,
    which both succeed; the queries and statements of the evaluation run
    for the new job id; the update to "COMPLETED", the update of the
    completion time and the query that reads the job back, whatever their
    outcome. *)
Theorem CreateAndRunASRJob_nil_error_iff
  (W : Type) (env : Env W) (jobName : NullString.t)
  (testCaseIDs vendorConfigIDs : list Z) (params : RawMessage) (w : W) :
  let out := CreateAndRunASRJob env jobName testCaseIDs vendorConfigIDs
                                params w in
  snd (value out) = None
  <-> exists row id,
      pendingJobRow jobName testCaseIDs vendorConfigIDs params row
      /\ completedJobTrace env testCaseIDs vendorConfigIDs row id (calls out).
Proof.
  cbv zeta.
  destruct (CreateAndRunASRJob_trace W env jobName testCaseIDs
              vendorConfigIDs params w)
    as [(_ & [e He] & Hcs)
       |(row & id & j & Hrow & _ & _
         & [(Hf & _ & _ & [e He])|[He Hc]])].
  - rewrite He. split; [discriminate|].
    intros (row & id & _ & r1 & t1 & r2 & w' & r3 & t2 & r4 & r5 & _ & _
            & E).
    exfalso.
    destruct Hcs as [Hcs|(row' & res & _ & _ & Hcs)]; rewrite Hcs in E;
      cbn [app] in E; [discriminate|].
    injection E as _ _ E. discriminate.
  - rewrite He. split; [discriminate|].
    intros (row' & id' & _ & r1 & t1 & r2 & w' & r3 & t2 & r4 & r5 & H1
            & H2 & E).
    exfalso.
    destruct Hf as [(q1 & q2 & t & q3 & Hq1 & Hcs)
                   |(q1 & u1 & q2 & q3 & u2 & q4 & Hq1 & Hq2 & Hcs)];
      rewrite Hcs in E; cbn [app] in E.
    + inversion E.
    + inversion E; subst; congruence.
  - split; [|intros _; exact He].
    intros _. exists row, id. split; [exact Hrow|].
    destruct Hc as (r1 & t1 & r2 & w' & r3 & t2 & r4 & r5 & H1 & H2 & E & _).
    exists r1, t1, r2, w', r3, t2, r4, r5. repeat split; assumption.
Qed.

Lemma failedJobTrace_submitted (row : EvaluationJob.t) (id : Z)
  (cs : list Call) :
  failedJobTrace row id cs -> submitted cs = [].
Proof.
  intros [(r1 & r2 & t & r3 & _ & ->)
         |(r1 & t1 & r2 & r3 & t2 & r4 & _ & _ & ->)]; reflexivity.
Qed.

(** X17. When [CreateAndRunASRJob] returns an error, the evaluation has
    not run: no result was handed to the database.  If no job is returned,
    no statement was sent or only the insertion of the job, which failed.
    If a job is returned, it has the status "FAILED", and the statements
    are the insertion of that job, the failed attempt to start it, the
    update to "FAILED" and the completion time. *)
Theorem CreateAndRunASRJob_error_trace
  (W : Type) (env : Env W) (jobName : NullString.t)
  (testCaseIDs vendorConfigIDs : list Z) (params : RawMessage) (w : W) :
  let out := CreateAndRunASRJob env jobName testCaseIDs vendorConfigIDs
                                params w in
  snd (value out) <> None ->
  submitted (calls out) = []
  /\ match fst (value out) with
     | None =>
       calls out = []
       \/ exists row res,
           pendingJobRow jobName testCaseIDs vendorConfigIDs params row
           /\ (forall id, res <> Row id)
           /\ calls out = [CallCreateEvaluationJob row res]
     | Some job =>
       EvaluationJob.Status job = JobStatusFailed
       /\ exists row,
           pendingJobRow jobName testCaseIDs vendorConfigIDs params row
           /\ failedJobTrace row (EvaluationJob.ID job) (calls out)
     end.
Proof.
  cbv zeta. intro Herr.
  destruct (CreateAndRunASRJob_trace W env jobName testCaseIDs
              vendorConfigIDs params w)
    as [(Hj & _ & Hcs)
       |(row & id & j & Hrow & _ & Hj
         & [(Hf & Hs & Hid & _)|[He _]])].
  - rewrite Hj. split; [|exact Hcs].
    destruct Hcs as [->|(row & res & _ & _ & ->)]; reflexivity.
  - rewrite Hj. split; [exact (failedJobTrace_submitted row id _ Hf)|].
    split; [exact Hs|]. exists row. rewrite Hid. split; assumption.
  - contradiction.
Qed.

Lemma CreateAndRunASRJob_error_trace_witness :
  let out := CreateAndRunASRJob (exampleEnv true false false)
               NullString.zero [1] [1] None 0 in
  snd (value out) <> None
  /\ submitted (calls out) = [] /\ calls out = [].
Proof.
  cbv zeta.
  assert (H : snd (value (CreateAndRunASRJob (exampleEnv true false false)
                            NullString.zero [1] [1] None 0))
              <> None) by discriminate.
  split; [exact H|].
  split.
  - exact (proj1 (CreateAndRunASRJob_error_trace
                    Z (exampleEnv true false false)
                    NullString.zero [1] [1] None 0 H)).
  - reflexivity.
Defined.

Lemma CreateAndRunASRJob_job_rows
  (W : Type) (env : Env W) (jobName : NullString.t)
  (testCaseIDs vendorConfigIDs : list Z) (params : RawMessage) (w : W)
  (row : EvaluationJob.t) (res : QueryResult Z) :
  In (CallCreateEvaluationJob row res)
     (calls (CreateAndRunASRJob env jobName testCaseIDs vendorConfigIDs
                                params w)) ->
  pendingJobRow jobName testCaseIDs vendorConfigIDs params row.
Proof.
  intro Hin.
  destruct (CreateAndRunASRJob_trace W env jobName testCaseIDs
              vendorConfigIDs params w)
    as [(_ & _ & [Hcs|(row' & res' & Hrow & _ & Hcs)])
       |(row' & id & j & Hrow & _ & _
         & [([(r1 & r2 & t & r3 & _ & Hcs)
             |(r1 & t1 & r2 & r3 & t2 & r4 & _ & _ & Hcs)] & _)
           |[_ (r1 & t1 & r2 & w' & r3 & t2 & r4 & r5 & _ & _ & Hcs
                & _)]])];
    rewrite Hcs in Hin; cbn [In app] in Hin.
  - contradiction.
  - destruct Hin as [[= <- _]|[]]. exact Hrow.
  - destruct Hin as [[= <- _]|[H|[H|[H|[]]]]]; (exact Hrow || discriminate).
  - destruct Hin as [[= <- _]|[H|[H|[H|[H|[]]]]]];
      (exact Hrow || discriminate).
  - destruct Hin as [[= <- _]|[H|[H|Hin]]];
      [exact Hrow|discriminate|discriminate|].
    apply in_app_or in Hin. destruct Hin as [Hin|[H|[H|[H|[]]]]];
      try discriminate.
    pose proof (RunASREvaluation_isRunStatement W env id testCaseIDs
                  vendorConfigIDs w') as Hf.
    rewrite Forall_forall in Hf. exact (False_ind _ (Hf _ Hin)).
Qed.

(** X18. [CreateASRJobHandler] answers 400 without any database statement,
    500 only when no job was created (at most a failed insertion of the job
    was sent), 202 with a job whose status is "FAILED", which was inserted
    and for which no result was handed to the database, and 201 with a job
    for which the update to "COMPLETED" was sent. *)
Theorem CreateASRJobHandler_status
  (W : Type) (env : Env W) (json_Valid : string -> bool)
  (bound : string + CreateASRJobRequest) (w : W) :
  let out := CreateASRJobHandler env json_Valid bound w in
  match value out with
  | RespError status _ =>
    (status = StatusBadRequest /\ calls out = [])
    \/ (status = StatusInternalServerError
        /\ forall c, In c (calls out) ->
                     exists row res,
                       c = CallCreateEvaluationJob row res
                       /\ forall id, res <> Row id)
  | RespJobFailed status _ job _ =>
    status = StatusAccepted
    /\ EvaluationJob.Status job = JobStatusFailed
    /\ submitted (calls out) = []
    /\ exists row,
        In (CallCreateEvaluationJob row (Row (EvaluationJob.ID job)))
           (calls out)
  | RespJob status job =>
    status = StatusCreated
    /\ job <> None
    /\ exists id res,
        In (CallUpdateEvaluationJobStatus id JobStatusCompleted res)
           (calls out)
  end.
Proof.
  cbv zeta. unfold CreateASRJobHandler.
  destruct bound as [err|req]; [left; split; reflexivity|].
  cbv zeta.
  destruct (notNil (req_Parameters req)
            && (0 <? len_raw (req_Parameters req))
            && negb (json_Valid (string_of_raw (req_Parameters req))));
    [left; split; reflexivity|].
  cbv zeta. rewrite value_bind, calls_bind.
  match goal with
  | |- context [CreateAndRunASRJob env ?n ?t ?v ?p w] =>
    pose proof (CreateAndRunASRJob_trace W env n t v p w) as Ht;
      cbv zeta in Ht;
      destruct (CreateAndRunASRJob env n t v p w) as [[[job err] cs] w']
  end.
  cbn [value calls world fst snd] in *.
  destruct Ht as [(-> & [e ->] & Hcs)
                 |(row & id & j & Hrow & _ & ->
                   & [(Hf & Hs & Hid & [e ->])|[-> Hc]])].
  - cbn [ret value calls fst snd]. right. split; [reflexivity|].
    rewrite app_nil_r. intros c Hin.
    destruct Hcs as [->|(row & res & _ & Hres & ->)]; [destruct Hin|].
    destruct Hin as [<-|[]]. exists row, res. split; [reflexivity|exact Hres].
  - apply String.eqb_eq in Hs. rewrite Hs.
    cbn [ret value calls fst snd]. rewrite app_nil_r.
    apply String.eqb_eq in Hs.
    split; [reflexivity|]. split; [exact Hs|].
    split; [exact (failedJobTrace_submitted row id _ Hf)|].
    exists row. rewrite Hid.
    destruct Hf as [(r1 & r2 & t & r3 & _ & ->)
                   |(r1 & t1 & r2 & r3 & t2 & r4 & _ & _ & ->)]; now left.
  - cbn [ret value calls fst snd]. rewrite app_nil_r.
    split; [reflexivity|]. split; [discriminate|].
    destruct Hc as (r1 & t1 & r2 & w2 & r3 & t2 & r4 & r5 & _ & _ & -> & _).
    exists id, r3. apply in_or_app. right. apply in_or_app. right. now left.
Qed.

(** X19. The job that [CreateASRJobHandler] inserts has the status
    "PENDING", the id lists of the request, a name that is set exactly when
    the request has a non-empty one, and as parameters the JSON null when
    the request has none (nil or empty), else the parameters of the
    request, which [json.Valid] accepts. *)
Theorem CreateASRJobHandler_job_row
  (W : Type) (env : Env W) (json_Valid : string -> bool)
  (req : CreateASRJobRequest) (w : W) :
  Forall (fun c =>
            match c with
            | CallCreateEvaluationJob row _ =>
              EvaluationJob.JobName row
              = {| NullString.String := req_JobName req;
                   NullString.Valid :=
                     negb (String.eqb (req_JobName req) EmptyString) |}
              /\ EvaluationJob.Status row = JobStatusPending
              /\ EvaluationJob.TestCaseIDs row
                 = fst (MarshalIntSliceToJSON (req_TestCaseIDs req))
              /\ EvaluationJob.VendorConfigIDs row
                 = fst (MarshalIntSliceToJSON (req_VendorConfigIDs req))
              /\ ((len_raw (req_Parameters req) = 0
                   /\ EvaluationJob.Parameters row = Some "null"%string)
                  \/ (0 < len_raw (req_Parameters req)
                      /\ EvaluationJob.Parameters row = req_Parameters req
                      /\ json_Valid (string_of_raw (req_Parameters req))
                         = true))
            | _ => True
            end)
         (calls (CreateASRJobHandler env json_Valid (inr req) w)).
Proof.
  rewrite Forall_forall. intros c Hin.
  destruct c as [| row res | | | | |]; try exact I.
  unfold CreateASRJobHandler in Hin. cbv zeta in Hin.
  destruct (notNil (req_Parameters req)
            && (0 <? len_raw (req_Parameters req))) eqn:Ev;
    cbn [andb] in Hin.
  - destruct (negb (json_Valid (string_of_raw (req_Parameters req))))
      eqn:Ej; [destruct Hin|].
    rewrite calls_bind in Hin. apply in_app_or in Hin.
    destruct Hin as [Hin|Hin].
    + apply CreateAndRunASRJob_job_rows in Hin.
      destruct Hin as (Hn & _ & Hs & Hv & Ht & Hp).
      repeat (split; [assumption|]).
      rewrite Hp, Ev. right.
      apply andb_true_iff in Ev. destruct Ev as [_ Hl].
      apply Z.ltb_lt in Hl. split; [exact Hl|].
      split; [reflexivity|]. now apply negb_false_iff in Ej.
    + exfalso. revert Hin.
      destruct (value (CreateAndRunASRJob env _ _ _ _ w)) as [[j|] [e|]];
        cbn [ret calls fst snd]; try (intros []).
      destruct (String.eqb _ _); intros [].
  - rewrite calls_bind in Hin. apply in_app_or in Hin.
    destruct Hin as [Hin|Hin].
    + apply CreateAndRunASRJob_job_rows in Hin.
      destruct Hin as (Hn & _ & Hs & Hv & Ht & Hp).
      repeat (split; [assumption|]).
      rewrite Hp. left. split; [|reflexivity].
      destruct (req_Parameters req) as [s|]; [|reflexivity].
      cbn [notNil andb len_raw] in *. apply Z.ltb_ge in Ev.
      unfold len_string in *. lia.
    + exfalso. revert Hin.
      destruct (value (CreateAndRunASRJob env _ _ _ _ w)) as [[j|] [e|]];
        cbn [ret calls fst snd]; try (intros []).
      destruct (String.eqb _ _); intros [].
Qed.

(** ** The latency of the mock adapter *)

Section MockLatency.
Open Scope string_scope.
Open Scope Z_scope.

(** X21. The latency recorded for a pair covers the recognition call: with
    a clock that advances by at least the time slept, the row built for a
    pair served by the mock adapter has a valid latency of at least 500
    milliseconds, the time that the mock sleeps. *)
Theorem mock_latency_at_least_sleep
  (W : Type) (env : Env W) (jobID : Z)
  (testCase : ASRTestCase.t) (vendorConfig : VendorConfig.t) (w : W) :
  DB_nil env = false ->
  (forall (d : Z) (w0 : W),
      time_Now env w0 + d <= time_Now env (time_Sleep env d w0)) ->
  exists (row : ASREvaluationResult.t) (res : QueryResult Z),
    calls (evaluatePair env jobID testCase vendorConfig MockASRAdapter w)
    = [CallCreateASREvaluationResult row res]
    /\ NullInt64.Valid (ASREvaluationResult.LatencyMs row) = true
    /\ 500 <= NullInt64.Int64 (ASREvaluationResult.LatencyMs row).
Proof.
  intros HDB Hclock.
  pose proof (evaluatePair_row W env jobID testCase vendorConfig
                MockASRAdapter w HDB) as Hrow.
  cbv zeta in Hrow. rewrite Hrow. eexists. eexists.
  split; [reflexivity|].
  cbn [ASREvaluationResult.with_RawVendorResponse
       ASREvaluationResult.with_CreatedAt ASREvaluationResult.LatencyMs].
  match goal with
  | |- context [buildResult ?a ?b ?c ?d ?e ?f ?g] =>
    destruct (buildResult_shape a b c d e f g) as [-> _]
  end.
  cbn [NullInt64.Valid NullInt64.Int64]. split; [reflexivity|].
  assert (Hw : world (Recognize env MockASRAdapter
                        (ASRTestCase.AudioFilePath testCase)
                        (NullString.String (ASRTestCase.LanguageCode testCase))
                        vendorConfig w)
               = time_Sleep env (500 * Millisecond) w).
  { cbn [Recognize]. unfold MockASRAdapter_Recognize.
    destruct (String.eqb _ _); reflexivity. }
  rewrite Hw. specialize (Hclock (500 * Millisecond) w).
  unfold Millisecond in *.
  apply Z.quot_le_lower_bound; lia.
Qed.

Lemma mock_latency_at_least_sleep_witness :
  exists (row : ASREvaluationResult.t) (res : QueryResult Z),
    calls (evaluatePair (exampleEnv false false false) 7
             (exampleTestCase 1 {| NullString.String := "hello world";
                                   NullString.Valid := true |})
             (exampleVendor 1 "MockASR") MockASRAdapter 0)
    = [CallCreateASREvaluationResult row res]
    /\ NullInt64.Valid (ASREvaluationResult.LatencyMs row) = true
    /\ 500 <= NullInt64.Int64 (ASREvaluationResult.LatencyMs row).
Proof.
  apply (mock_latency_at_least_sleep Z (exampleEnv false false false) 7
           (exampleTestCase 1 {| NullString.String := "hello world";
                                 NullString.Valid := true |})
           (exampleVendor 1 "MockASR") 0 eq_refl).
  intros d w0. cbn. lia.
Defined.

End MockLatency.
